(** * uchet: order accounting for a small online store

    A shallow embedding of [models.py] (the entities Client, Product,
    OrderItem and Order) and of [analysis.py] (the DataAnalyzer reports),
    with the properties of the specification proved about it (Part II)
    and further properties of the code (Part III): how the reports add
    up, the graph of [create_clients_network], what the calls on the
    entities keep, and the amounts of an order.

    Conventions of the embedding:
    - Python [int] is [Z]; [len] of a list is [Z.of_nat (length l)].
    - Python [float] amounts of money (prices, totals, averages) are exact
      rationals [Qc]; rounding of binary floating point is out of scope.
    - Python [str] is [string]; [<] on [str] is the lexicographic order on
      character codes, [String.ltb].
    - Objects live in a store [heap] indexed by their identity; a Python
      attribute holding an object holds its location.
    - A raised [ValueError] is the [Raised] outcome of a method; [/] with
      a zero divisor raises [ZeroDivisionError] ([Py.truediv]).
    - Of the methods that draw, only the graph that
      [create_clients_network] builds before it draws is modelled. *)

From Stdlib Require Import ZArith QArith Qcanon String Ascii List Lia.
From stdpp Require Import base gmap strings list sorting.
From Equations Require Import Equations.

Local Open Scope Z_scope.

(* ===================================================================== *)
(** * Part I: definitions                                                 *)
(* ===================================================================== *)

(** ** Python built-ins used by the program *)

Module Py.

(** [sum(xs)]: left-to-right addition starting from [0]. *)
Definition sum (xs : list Qc) : Qc := fold_left Qcplus xs (Q2Qc 0).

(** [sum] over integers. *)
Definition sum_int (xs : list Z) : Z := fold_left Z.add xs 0.

(** [len(xs)]. *)
Definition len {A} (xs : list A) : Z := Z.of_nat (length xs).

(** [xs[:n]]: a negative [n] counts from the end. *)
Definition slice_to {A} (xs : list A) (n : Z) : list A :=
  if 0 <=? n then firstn (Z.to_nat n) xs
  else firstn (Z.to_nat (len xs + n)) xs.

(** [a < b] on floats. *)
Definition num_lt (a b : Qc) : bool :=
  match (a ?= b)%Qc with Lt => true | _ => false end.

(** [a < b], [a > b] and [a == b] on strings. *)
Definition str_lt (a b : string) : bool := String.ltb a b.
Definition str_gt (a b : string) : bool := String.ltb b a.
Definition str_eq (a b : string) : bool := String.eqb a b.

(** [sorted(xs, key=key, reverse=True)].  Python's sort is stable, also
    under [reverse=True]: the result is in non-increasing key order and
    elements with equal keys keep their input order.  It compares keys
    with [<] only.  The stable sort is written as an insertion sort:
    an element goes behind every element of the already sorted tail whose
    key is strictly greater, and in front of the others. *)
Section sorted.
Context {A K : Type} (lt : K -> K -> bool) (key : A -> K).

Fixpoint insert_reverse (x : A) (l : list A) : list A :=
  match l with
  | [] => [x]
  | y :: l' => if lt (key x) (key y) then y :: insert_reverse x l'
               else x :: y :: l'
  end.

Definition sorted_reverse (l : list A) : list A :=
  foldr insert_reverse [] l.
End sorted.

(** A [dict] keeps its keys in insertion order: an association list in
    which a key occurs once. *)
Section dict.
Context {K V : Type} `{EqDecision K}.

Definition dict := list (K * V).

(** [d.get(k)] *)
Fixpoint dict_get (k : K) (d : dict) : option V :=
  match d with
  | [] => None
  | (k', v) :: d' => if decide (k = k') then Some v else dict_get k d'
  end.

(** [k in d] *)
Definition dict_in (k : K) (d : dict) : bool :=
  match dict_get k d with Some _ => true | None => false end.

(** [d[k] = v]: overwrite in place, or append a new key. *)
Fixpoint dict_set (k : K) (v : V) (d : dict) : dict :=
  match d with
  | [] => [(k, v)]
  | (k', v') :: d' =>
      if decide (k = k') then (k, v) :: d' else (k', v') :: dict_set k v d'
  end.

(** In-place update of the value stored under [k]; nothing to update
    when the key is absent. *)
Fixpoint dict_alter (f : V -> V) (k : K) (d : dict) : dict :=
  match d with
  | [] => []
  | (k', v') :: d' =>
      if decide (k = k') then (k', f v') :: d'
      else (k', v') :: dict_alter f k d'
  end.

Definition dict_keys (d : dict) : list K := map fst d.
Definition dict_values (d : dict) : list V := map snd d.
End dict.
Global Arguments dict : clear implicits.

(** [datetime]: the fields of a naive timestamp. *)
Record datetime := mk_datetime {
  year : Z; month : Z; day : Z;
  hour : Z; minute : Z; second : Z; microsecond : Z
}.

(** The ranges that [datetime] enforces on the date fields. *)
Definition valid_date (d : datetime) : Prop :=
  1 <= year d <= 9999 /\ 1 <= month d <= 12 /\ 1 <= day d <= 31.

(** The calendar date of a timestamp. *)
Definition calendar_date (d : datetime) : Z * Z * Z :=
  (year d, month d, day d).

Definition digit (n : Z) : ascii := ascii_of_N (Z.to_N (48 + n mod 10)).

Definition pad2 (n : Z) : string :=
  String (digit (n / 10)) (String (digit n) EmptyString).

Definition pad4 (n : Z) : string :=
  String (digit (n / 1000)) (String (digit (n / 100))
    (String (digit (n / 10)) (String (digit n) EmptyString))).

(** [d.strftime('%Y-%m-%d')]: the year on four digits, the month and the
    day on two, as the documentation of [strftime] gives them. *)
Definition strftime_Ymd (d : datetime) : string :=
  (pad4 (year d) ++ "-" ++ pad2 (month d) ++ "-" ++ pad2 (day d))%string.

(** The value of an arithmetic expression, or the [ZeroDivisionError]
    that it raises. *)
Inductive arith (A : Type) :=
| Value (a : A)
| ZeroDivisionError.
Global Arguments Value {A} a.
Global Arguments ZeroDivisionError {A}.

(** The statements after an expression run when it has a value. *)
Definition arith_bind {A B} (m : arith A) (k : A -> arith B) : arith B :=
  match m with
  | Value a => k a
  | ZeroDivisionError => ZeroDivisionError
  end.

(** [a / b]: a divisor that is zero raises [ZeroDivisionError]. *)
Definition truediv (a b : Qc) : arith Qc :=
  if decide (b = Q2Qc 0) then ZeroDivisionError else Value (a / b)%Qc.

End Py.

(** ** models.py: the object store

    Every Python object has an identity, its location in the store.  The
    entities are records of attributes; an attribute that holds an object
    holds its location, so that two references to one list or one item see
    the same updates. *)

Module Store.

Definition loc := positive.

(** [id(obj)] *)
Definition id (l : loc) : Z := Z.pos l.

(** The attributes of a [Client] (those of [Person] included). *)
Record client := mk_client {
  _name : string;
  _email : string;
  _phone : string;
  _address : string;
  _orders : loc;
  _client_id : Z
}.

(** The attributes of a [Product]; [_product_name] is its [_name]. *)
Record product := mk_product {
  _product_name : string;
  _price : Qc;
  _category : string;
  _description : string;
  _product_id : Z
}.

(** The attributes of an [OrderItem]. *)
Record order_item := mk_order_item {
  _product : loc;
  _quantity : Z
}.

(** The attributes of an [Order]. *)
Record order := mk_order {
  _client : loc;
  _order_date : Py.datetime;
  _items : loc;
  _order_id : Z;
  _status : string
}.

Inductive obj :=
| OClient (c : client)
| OProduct (p : product)
| OItem (i : order_item)
| OOrder (o : order)
| OList (l : list loc).

Abbreviation heap := (gmap loc obj).

(** The reasons for which models.py raises [ValueError]. *)
Inductive invalid :=
| EmptyName | BadEmail | BadPhone | NegativePrice | QuantityBelowOne.

Inductive exn := ValueError (why : invalid).

(** A method returns, raises, or is applied to an object of the wrong
    class ([Stuck]: Python's [AttributeError]). *)
Inductive outcome (A : Type) :=
| Done (a : A) (h : heap)
| Raised (e : exn) (h : heap)
| Stuck.
Global Arguments Done {A} a h.
Global Arguments Raised {A} e h.
Global Arguments Stuck {A}.

Definition M (A : Type) : Type := heap -> outcome A.

Definition ret {A} (a : A) : M A := fun h => Done a h.

Definition bind {A B} (m : M A) (k : A -> M B) : M B := fun h =>
  match m h with
  | Done a h' => k a h'
  | Raised e h' => Raised e h'
  | Stuck => Stuck
  end.

Definition raise {A} (e : exn) : M A := fun h => Raised e h.

Global Instance M_ret : MRet M := @ret.
Global Instance M_bind : MBind M := fun A B k m => bind m k.

(** A new object, at a location that is not in use; the object may
    mention its own identity.  The store keeps every object: it speaks
    of objects while they are alive together, and does not model that
    CPython may give the identity of a freed object to a later one. *)
Definition alloc (mk : loc -> obj) : M loc := fun h =>
  let l := fresh (dom h) in Done l (<[l := mk l]> h).

(** In-place update of the object at [l]. *)
Definition store (l : loc) (o : obj) : M unit := fun h =>
  Done tt (<[l := o]> h).

Definition get_client (l : loc) : M client := fun h =>
  match h !! l with Some (OClient c) => Done c h | _ => Stuck end.

Definition get_product (l : loc) : M product := fun h =>
  match h !! l with Some (OProduct p) => Done p h | _ => Stuck end.

Definition get_item (l : loc) : M order_item := fun h =>
  match h !! l with Some (OItem i) => Done i h | _ => Stuck end.

Definition get_order (l : loc) : M order := fun h =>
  match h !! l with Some (OOrder o) => Done o h | _ => Stuck end.

Definition get_list (l : loc) : M (list loc) := fun h =>
  match h !! l with Some (OList xs) => Done xs h | _ => Stuck end.

End Store.

Import Store.

(** ** models.py: class Client *)

Module Client.

(** [Client.__init__]: the attributes are assigned as given. *)
Definition __init__ (name email phone address : string) : M loc :=
  orders ← alloc (fun _ => OList []);
  alloc (fun self =>
    OClient {| _name := name; _email := email; _phone := phone;
               _address := address; _orders := orders;
               _client_id := id self |}).

(** The property [orders]: [self._orders.copy()], a new list. *)
Definition orders (self : loc) : M loc :=
  c ← get_client self;
  l ← get_list (_orders c);
  alloc (fun _ => OList l).

(** [add_order].  [order not in self._orders] compares by identity:
    [Order] defines no [__eq__]. *)
Definition add_order (self order : loc) : M unit :=
  c ← get_client self;
  l ← get_list (_orders c);
  if bool_decide (order ∈ l) then mret tt
  else store (_orders c) (OList (l ++ [order])).

End Client.

(** ** models.py: class Product *)

Module Product.

(** [Product.__init__]: the attributes are assigned as given. *)
Definition __init__ (name : string) (price : Qc) (category description : string)
  : M loc :=
  alloc (fun self =>
    OProduct {| _product_name := name; _price := price; _category := category;
                _description := description; _product_id := id self |}).

(** The property [price]. *)
Definition price (self : loc) : M Qc :=
  p ← get_product self; mret (_price p).

(** The setter of [price]. *)
Definition set_price (self : loc) (value : Qc) : M unit :=
  p ← get_product self;
  if Py.num_lt value (Q2Qc 0) then raise (ValueError NegativePrice)
  else store self
         (OProduct {| _product_name := _product_name p; _price := value;
                      _category := _category p;
                      _description := _description p;
                      _product_id := _product_id p |}).

End Product.

(** ** models.py: class OrderItem *)

Module OrderItem.

(** [OrderItem.__init__]: the attributes are assigned as given. *)
Definition __init__ (product : loc) (quantity : Z) : M loc :=
  alloc (fun _ => OItem {| _product := product; _quantity := quantity |}).

(** The property [quantity]. *)
Definition quantity (self : loc) : M Z :=
  i ← get_item self; mret (_quantity i).

(** The setter of [quantity]. *)
Definition set_quantity (self : loc) (value : Z) : M unit :=
  i ← get_item self;
  if value <? 1 then raise (ValueError QuantityBelowOne)
  else store self (OItem {| _product := _product i; _quantity := value |}).

End OrderItem.

(** ** models.py: class Order *)

Module Order.

(** [Order.__init__]; [now] is the reading of [datetime.now()].  The list
    of [self._items] is created before the record that refers to it;
    identities are opaque, so the order of the two creations cannot be
    observed. *)
Definition __init__ (now : Py.datetime) (client : loc)
    (order_date : option Py.datetime) : M loc :=
  items ← alloc (fun _ => OList []);
  self ← alloc (fun self =>
    OOrder {| _client := client; _order_date := default now order_date;
              _items := items; _order_id := id self;
              _status := "Новый" |});
  Client.add_order client self;;
  mret self.

(** The property [items]: [self._items.copy()], a new list. *)
Definition items (self : loc) : M loc :=
  o ← get_order self;
  l ← get_list (_items o);
  alloc (fun _ => OList l).

(** The loop of [add_item] over [self._items]: [true] when it has found
    an item of the product and has added to its quantity (the loop's
    [return]), [false] when it has run to the end of the list. *)
Fixpoint add_item_loop (the_items : list loc) (product : loc) (quantity : Z)
  : M bool :=
  match the_items with
  | [] => mret false
  | item :: rest =>
      i ← get_item item;
      ip ← get_product (_product i);
      p ← get_product product;
      if decide (_product_id ip = _product_id p) then
        q ← OrderItem.quantity item;
        OrderItem.set_quantity item (q + quantity);;
        mret true
      else add_item_loop rest product quantity
  end.

Definition add_item (self product : loc) (quantity : Z) : M unit :=
  o ← get_order self;
  the_items ← get_list (_items o);
  found ← add_item_loop the_items product quantity;
  if (found : bool) then mret tt
  else
    item ← OrderItem.__init__ product quantity;
    store (_items o) (OList (the_items ++ [item])).

(** The list comprehension of [remove_item]. *)
Fixpoint remove_item_loop (the_items : list loc) (product : loc)
  : M (list loc) :=
  match the_items with
  | [] => mret []
  | item :: rest =>
      i ← get_item item;
      ip ← get_product (_product i);
      p ← get_product product;
      kept ← remove_item_loop rest product;
      if decide (_product_id ip <> _product_id p) then mret (item :: kept)
      else mret kept
  end.

Definition remove_item (self product : loc) : M unit :=
  o ← get_order self;
  the_items ← get_list (_items o);
  kept ← remove_item_loop the_items product;
  new_items ← alloc (fun _ => OList kept);
  store self
    (OOrder {| _client := _client o; _order_date := _order_date o;
               _items := new_items; _order_id := _order_id o;
               _status := _status o |}).

End Order.

(** ** Programs over the entities

    A caller of models.py makes a sequence of calls.  The arguments of a
    call have the classes that the annotations of the method give them. *)

Module Program.

Inductive call :=
| NewClient (name email phone address : string)
| NewProduct (name : string) (price : Qc) (category description : string)
| NewOrder (client : loc) (order_date : option Py.datetime)
| AddOrder (client order : loc)
| GetOrders (client : loc)
| SetPrice (product : loc) (value : Qc)
| SetQuantity (item : loc) (value : Z)
| GetItems (order : loc)
| AddItem (order product : loc) (quantity : Z)
| RemoveItem (order product : loc).

Definition exec (now : Py.datetime) (c : call) : M unit :=
  match c with
  | NewClient name email phone address =>
      Client.__init__ name email phone address;; mret tt
  | NewProduct name price category description =>
      Product.__init__ name price category description;; mret tt
  | NewOrder client order_date =>
      get_client client;; Order.__init__ now client order_date;; mret tt
  | AddOrder client order =>
      get_client client;; get_order order;; Client.add_order client order
  | GetOrders client => Client.orders client;; mret tt
  | SetPrice product value => Product.set_price product value
  | SetQuantity item value => OrderItem.set_quantity item value
  | GetItems order => Order.items order;; mret tt
  | AddItem order product quantity =>
      get_order order;; get_product product;;
      Order.add_item order product quantity
  | RemoveItem order product =>
      get_order order;; get_product product;;
      Order.remove_item order product
  end.

(** The store after a sequence of calls; a [ValueError] is caught by the
    caller, who goes on.  [None] when a call is applied to an object of
    the wrong class. *)
Fixpoint run (now : Py.datetime) (calls : list call) (h : heap) : option heap :=
  match calls with
  | [] => Some h
  | c :: rest =>
      match exec now c h with
      | Done _ h' => run now rest h'
      | Raised _ h' => run now rest h'
      | Stuck => None
      end
  end.

(** What a caller can do to a list that it holds. *)
Inductive list_op :=
| Append (x : loc)
| Remove (x : loc)
| Pop
| Clear
| Insert (i : nat) (x : loc)
| Reverse.

(** [xs.remove(x)]: the first occurrence. *)
Fixpoint remove_first (x : loc) (xs : list loc) : list loc :=
  match xs with
  | [] => []
  | y :: ys => if decide (x = y) then ys else y :: remove_first x ys
  end.

Definition apply_list_op (op : list_op) (xs : list loc) : list loc :=
  match op with
  | Append x => xs ++ [x]
  | Remove x => remove_first x xs
  | Pop => removelast xs
  | Clear => []
  | Insert i x => take i xs ++ x :: drop i xs
  | Reverse => rev xs
  end.

(** The operation applied in place to the list object at [l]. *)
Definition mutate_list (l : loc) (op : list_op) : M unit :=
  xs ← get_list l;
  store l (OList (apply_list_op op xs)).

Fixpoint mutate_list_many (l : loc) (ops : list list_op) : M unit :=
  match ops with
  | [] => mret tt
  | op :: rest => mutate_list l op;; mutate_list_many l rest
  end.

End Program.

(** ** models.py: the amounts, read from the store *)

Module Amounts.

(** [sum(f(x) for x in xs)]: from 0, in the order of the list. *)
Fixpoint sum_over (f : loc -> M Qc) (xs : list loc) (acc : Qc) : M Qc :=
  match xs with
  | [] => mret acc
  | x :: rest => v ← f x; sum_over f rest (acc + v)%Qc
  end.

(** [OrderItem.total_price]: [self.product.price * self.quantity] *)
Definition total_price (self : loc) : M Qc :=
  i ← get_item self;
  price ← Product.price (_product i);
  quantity ← OrderItem.quantity self;
  mret (price * Qc_of_Z quantity)%Qc.

(** [Order.total_amount]: [sum(item.total_price for item in self._items)] *)
Definition total_amount (self : loc) : M Qc :=
  o ← get_order self;
  the_items ← get_list (_items o);
  sum_over total_price the_items (Q2Qc 0).

End Amounts.

(** ** What the analyzer reads: the object graph as values

    The reports of [analysis.py] only read the entities.  They are given
    here the values reached from a client, a product or an order: the
    attributes, and the lists behind [Client.orders] and [Order.items]. *)

Module View.

Record Product := mk_product {
  product_id : Z;
  product_name : string;
  price : Qc;
  category : string;
  description : string
}.

Record OrderItem := mk_item {
  product : Product;
  quantity : Z
}.

Record Order := mk_order {
  order_id : Z;
  order_client_id : Z;
  order_date : Py.datetime;
  status : string;
  items : list OrderItem
}.

Record Client := mk_client {
  client_id : Z;
  name : string;
  email : string;
  phone : string;
  address : string;
  orders : list Order
}.

(** [OrderItem.total_price]: [self.product.price * self.quantity] *)
Definition total_price (self : OrderItem) : Qc :=
  (price (product self) * Qc_of_Z (quantity self))%Qc.

(** [Order.total_amount]: [sum(item.total_price for item in self._items)] *)
Definition total_amount (self : Order) : Qc :=
  Py.sum (map total_price (items self)).

(** [Client.get_total_spent]:
    [sum(order.total_amount for order in self._orders)] *)
Definition get_total_spent (self : Client) : Qc :=
  Py.sum (map total_amount (orders self)).

End View.

(** ** analysis.py: class DataAnalyzer *)

Module DataAnalyzer.
Import View.

(** The attributes set by [__init__]. *)
Record t := mk {
  clients : list Client;
  products : list Product;
  orders : list Order
}.

(** The record [{'client', 'order_count', 'total_spent'}]. *)
Record client_row := mk_client_row {
  tc_client : Client;
  tc_order_count : Z;
  tc_total_spent : Qc
}.

(** The record [{'product', 'quantity_sold', 'revenue'}]. *)
Record product_row := mk_product_row {
  tp_product : Product;
  tp_quantity_sold : Z;
  tp_revenue : Qc
}.

(** The record [{'count', 'revenue'}] kept per date. *)
Record date_stats := mk_date_stats {
  ds_count : Z;
  ds_revenue : Qc
}.

(** The columns of the returned [DataFrame]. *)
Record DataFrame := mk_frame {
  df_date : list string;
  df_order_count : list Z;
  df_revenue : list Qc
}.

Definition client_row_of (client : Client) : client_row :=
  {| tc_client := client;
     tc_order_count := Py.len (View.orders client);
     tc_total_spent := get_total_spent client |}.

Definition get_top_clients_by_orders (self : t) (top_n : Z) : list client_row :=
  let client_orders := map client_row_of (clients self) in
  let sorted_clients := Py.sorted_reverse Z.ltb tc_order_count client_orders in
  Py.slice_to sorted_clients top_n.

(** The body of the inner loop of [get_top_products_by_sales]. *)
Definition sales_step (product_sales : Py.dict Z product_row) (item : OrderItem)
  : Py.dict Z product_row :=
  let product_id := product_id (product item) in
  let product_sales :=
    if Py.dict_in product_id product_sales then product_sales
    else Py.dict_set product_id
           {| tp_product := product item;
              tp_quantity_sold := 0;
              tp_revenue := Q2Qc 0 |} product_sales in
  let product_sales :=
    Py.dict_alter
      (fun r => {| tp_product := tp_product r;
                   tp_quantity_sold := tp_quantity_sold r + quantity item;
                   tp_revenue := tp_revenue r |}) product_id product_sales in
  Py.dict_alter
    (fun r => {| tp_product := tp_product r;
                 tp_quantity_sold := tp_quantity_sold r;
                 tp_revenue := (tp_revenue r + total_price item)%Qc |})
    product_id product_sales.

(** The dictionary [product_sales] after the two nested loops. *)
Definition product_sales_of (orders : list Order) : Py.dict Z product_row :=
  fold_left (fun d order => fold_left sales_step (items order) d) orders [].

Definition get_top_products_by_sales (self : t) (top_n : Z) : list product_row :=
  let product_sales := product_sales_of (orders self) in
  let sorted_products :=
    Py.sorted_reverse Py.num_lt tp_revenue (Py.dict_values product_sales) in
  Py.slice_to sorted_products top_n.

Lemma filter_lt_length (p : string) (f : string -> bool) (l : list string) :
  In p l -> f p = false -> (length (List.filter f l) < length l)%nat.
Proof.
  induction l as [|a l IH]; simpl; [tauto|].
  intros [->|Hin] Hf.
  - rewrite Hf. pose proof (List.filter_length_le f l). lia.
  - specialize (IH Hin Hf). destruct (f a); simpl; lia.
Qed.

Lemma str_lt_irrefl (s : string) : Py.str_lt s s = false.
Proof.
  unfold Py.str_lt, String.ltb.
  destruct (String.compare s s) eqn:E; try reflexivity.
  pose proof (String.compare_antisym s s) as Ha. rewrite E in Ha. discriminate.
Qed.

Definition inspect {A : Type} (x : A) : { y : A | x = y } := exist _ x eq_refl.

(** [_recursive_date_sort].  The pivot index [len(dates) // 2] is within
    the list whenever the list has two elements or more, so the last
    clause (where Python would raise [IndexError]) is never reached:
    see [pivot_in_range]. *)
Equations? _recursive_date_sort (dates : list string) : list string
  by wf (length dates) lt :=
  _recursive_date_sort dates with inspect (Py.len dates <=? 1) := {
    | exist _ true _ => dates
    | exist _ false _ with inspect (dates !! Z.to_nat (Py.len dates / 2)) := {
        | exist _ (Some pivot) Hp =>
            let left := List.filter (fun x => Py.str_lt x pivot) dates in
            let middle := List.filter (fun x => Py.str_eq x pivot) dates in
            let right := List.filter (fun x => Py.str_gt x pivot) dates in
            (_recursive_date_sort left ++ middle) ++ _recursive_date_sort right
        | exist _ None _ => dates } }.
Proof.
  all: apply filter_lt_length with (p := pivot);
    [ apply list_elem_of_In; eapply list_elem_of_lookup_2; exact Hp
    | apply str_lt_irrefl ].
Qed.

(** The body of the grouping loop of [get_orders_dynamics]. *)
Definition dynamics_step (orders_by_date : Py.dict string date_stats) (order : Order)
  : Py.dict string date_stats :=
  let date_str := Py.strftime_Ymd (order_date order) in
  let orders_by_date :=
    if Py.dict_in date_str orders_by_date then orders_by_date
    else Py.dict_set date_str {| ds_count := 0; ds_revenue := Q2Qc 0 |}
           orders_by_date in
  let orders_by_date :=
    Py.dict_alter
      (fun r => {| ds_count := ds_count r + 1; ds_revenue := ds_revenue r |})
      date_str orders_by_date in
  Py.dict_alter
    (fun r => {| ds_count := ds_count r;
                 ds_revenue := (ds_revenue r + total_amount order)%Qc |})
    date_str orders_by_date.

(** [get_orders_dynamics]; [None] is the [KeyError] of
    [orders_by_date[date]]. *)
Definition get_orders_dynamics (self : t) : option DataFrame :=
  let orders_by_date := fold_left dynamics_step (orders self) [] in
  let sorted_dates := _recursive_date_sort (Py.dict_keys orders_by_date) in
  rows ← mapM (fun date => Py.dict_get date orders_by_date) sorted_dates;
  Some {| df_date := sorted_dates;
          df_order_count := map ds_count rows;
          df_revenue := map ds_revenue rows |}.

(** The dictionary returned by [generate_sales_report]. *)
Record report := mk_report {
  total_orders : Z;
  total_revenue : Qc;
  total_clients : Z;
  total_products : Z;
  avg_order_value : Qc;
  avg_orders_per_client : Qc;
  top_clients : list client_row;
  top_products : list product_row
}.

(** [generate_sales_report]: the two divisions raise when their divisor
    is zero, and the report is built when both have a value. *)
Definition generate_sales_report (self : t) : Py.arith report :=
  let total_orders := Py.len (orders self) in
  let total_revenue := Py.sum (map total_amount (orders self)) in
  let total_clients := Py.len (clients self) in
  let total_products := Py.len (products self) in
  Py.arith_bind
    (if total_orders >? 0 then Py.truediv total_revenue (Qc_of_Z total_orders)
     else Py.Value (Q2Qc 0))
    (fun avg_order_value =>
  Py.arith_bind
    (if total_clients >? 0
     then Py.truediv (Qc_of_Z total_orders) (Qc_of_Z total_clients)
     else Py.Value (Q2Qc 0))
    (fun avg_orders_per_client =>
  Py.Value
    {| total_orders := total_orders;
       total_revenue := total_revenue;
       total_clients := total_clients;
       total_products := total_products;
       avg_order_value := avg_order_value;
       avg_orders_per_client := avg_orders_per_client;
       top_clients := get_top_clients_by_orders self 5;
       top_products := get_top_products_by_sales self 5 |})).

End DataAnalyzer.

(** ** analysis.py: the graph of [create_clients_network]

    The method builds a graph and draws it.  The graph it has built when
    it starts to draw is given here: the nodes with their attributes
    [label] and [orders], in the order of their creation, and the edges
    with their [weight], each as the pair of nodes of its [add_edge]. *)

Module Network.
Import View DataAnalyzer.

Record graph := mk_graph {
  nodes : Py.dict Z (string * Z);
  edges : list (Z * Z * Z)
}.

(** The set [products_bought] of a client after the two inner loops. *)
Definition products_bought (client : Client) : gset Z :=
  fold_left
    (fun s order =>
       fold_left (fun s item => s ∪ {[ product_id (product item) ]}) (items order) s)
    (View.orders client) ∅.

(** The dictionary [client_products]. *)
Definition client_products_of (clients : list Client) : Py.dict Z (gset Z) :=
  fold_left
    (fun d client => Py.dict_set (client_id client) (products_bought client) d)
    clients [].

(** The nodes after the first loop: [add_node] of a node that exists
    assigns its attributes again. *)
Definition nodes_of (clients : list Client) : Py.dict Z (string * Z) :=
  fold_left
    (fun d client =>
       Py.dict_set (client_id client) (name client, Py.len (View.orders client)) d)
    clients [].

(** [client_products[k]], for a key [k] of the dictionary. *)
Definition products_at (client_products : Py.dict Z (gset Z)) (k : Z) : gset Z :=
  default ∅ (Py.dict_get k client_products).

(** The body of the two loops over [i < j]. *)
Definition edge_between (client_products : Py.dict Z (gset Z)) (a b : Z)
  : list (Z * Z * Z) :=
  let common_products := products_at client_products a ∩ products_at client_products b in
  if decide (common_products = ∅) then []
  else [(a, b, Z.of_nat (size common_products))].

(** The edges added for [i] and every [j > i], over the list
    [client_ids]. *)
Fixpoint edges_from (client_products : Py.dict Z (gset Z)) (client_ids : list Z)
  : list (Z * Z * Z) :=
  match client_ids with
  | [] => []
  | a :: rest =>
      flat_map (edge_between client_products a) rest
      ++ edges_from client_products rest
  end.

Definition create_clients_network (self : DataAnalyzer.t) : graph :=
  let client_products := client_products_of (clients self) in
  let client_ids := Py.dict_keys client_products in
  {| nodes := nodes_of (clients self);
     edges := edges_from client_products client_ids |}.

End Network.

(* ===================================================================== *)
(** * The vocabulary of the properties                                    *)
(* ===================================================================== *)

Import View DataAnalyzer.

(** ** Sorting *)

(** The reference sort of the specification: an ascending sort under the
    lexicographic comparison of strings. *)
Definition reference_date_sort (dates : list string) : list string :=
  merge_sort String.le dates.

Section ordering.
Context {A K : Type} (lt : K -> K -> bool) (key : A -> K).

(** [a] may stand before [b]: the key of [a] is not less. *)
Definition not_below (a b : A) : Prop := lt (key a) (key b) = false.
End ordering.

(** ** Grouping loops *)

Section grouping.
Context {K V X : Type} `{EqDecision K}.

(** One turn of a grouping loop: create the entry of [k] when it is
    missing, then update it. *)
Definition upsert (g : V -> V) (v0 : V) (k : K) (d : Py.dict K V) : Py.dict K V :=
  Py.dict_alter g k (if Py.dict_in k d then d else Py.dict_set k v0 d).

(** A grouping loop over [xs]: the element [x] goes to the entry of
    [kf x], created as [init x] when [x] is the first of its key, and
    updated with [step x]. *)
Definition group_by (kf : X -> K) (init : X -> V) (step : X -> V -> V)
    (xs : list X) : Py.dict K V :=
  fold_left (fun d x => upsert (step x) (init x) (kf x) d) xs [].

Definition group_of (kf : X -> K) (k : K) (xs : list X) : list X :=
  filter (fun x => kf x = k) xs.
End grouping.

(** ** The orders of a date *)

(** The date string of an order, and the orders of a date string. *)
Definition date_of (o : Order) : string := Py.strftime_Ymd (order_date o).

Definition orders_on (date : string) (orders : list Order) : list Order :=
  filter (fun o => date_of o = date) orders.

Definition orders_on_calendar_date (cd : Z * Z * Z) (orders : list Order) : list Order :=
  filter (fun o => Py.calendar_date (order_date o) = cd) orders.

Definition date_stats_step (o : Order) (v : date_stats) : date_stats :=
  {| ds_count := ds_count v + 1;
     ds_revenue := (ds_revenue v + total_amount o)%Qc |}.

Definition date_stats_init (o : Order) : date_stats :=
  {| ds_count := 0; ds_revenue := Q2Qc 0 |}.

(** ** The items of a product *)

(** Every item of every order, in the order of the scan. *)
Definition all_items (orders : list Order) : list OrderItem :=
  concat (map items orders).

Definition product_key (item : OrderItem) : Z := product_id (product item).

(** The items sold of the product [pid]. *)
Definition items_of (pid : Z) (orders : list Order) : list OrderItem :=
  filter (fun item => product_key item = pid) (all_items orders).

Definition sales_init (item : OrderItem) : product_row :=
  {| tp_product := product item; tp_quantity_sold := 0; tp_revenue := Q2Qc 0 |}.

Definition sales_update (item : OrderItem) (r : product_row) : product_row :=
  {| tp_product := tp_product r;
     tp_quantity_sold := tp_quantity_sold r + quantity item;
     tp_revenue := (tp_revenue r + total_price item)%Qc |}.

(** What the record of a product must hold, given all the orders. *)
Definition product_row_ok (orders : list Order) (r : product_row) : Prop :=
  let sold := items_of (product_id (tp_product r)) orders in
  product <$> head sold = Some (tp_product r)
  /\ tp_quantity_sold r = Py.sum_int (map quantity sold)
  /\ tp_revenue r = Py.sum (map total_price sold).

(** ** The invariants of the store *)

(** The [product_id] behind an item of an order. *)
Definition item_product_id (h : heap) (item : loc) : option Z :=
  match h !! item with
  | Some (OItem i) =>
      match h !! _product i with
      | Some (OProduct p) => Some (_product_id p)
      | _ => None
      end
  | _ => None
  end.

(** A client's list of orders holds no order twice, and what it holds
    exists. *)
Definition client_ok (h : heap) (c : client) : Prop :=
  exists l, h !! _orders c = Some (OList l) /\ NoDup l
            /\ forall x, x ∈ l -> is_Some (h !! x).

(** An order holds at most one item per product: the product ids of its
    items are pairwise distinct. *)
Definition order_ok (h : heap) (o : order) : Prop :=
  exists the_items pids,
    h !! _items o = Some (OList the_items)
    /\ Forall2 (fun item pid => item_product_id h item = Some pid) the_items pids
    /\ NoDup pids.

(** No list is at once the orders of a client and the items of an order. *)
Definition separated (h : heap) : Prop :=
  forall cl c ol o,
    h !! cl = Some (OClient c) -> h !! ol = Some (OOrder o) -> _orders c <> _items o.

(** The invariants of the store: every client and every order in it has
    its own, and their lists are apart. *)
Definition wf (h : heap) : Prop :=
  (forall cl c, h !! cl = Some (OClient c) -> client_ok h c)
  /\ (forall ol o, h !! ol = Some (OOrder o) -> order_ok h o)
  /\ separated h.

(** An update keeps the class of an object and the attributes that no
    method assigns. *)
Definition same_key (old new : obj) : Prop :=
  match old, new with
  | OItem i, OItem i' => _product i = _product i'
  | OProduct p, OProduct p' => _product_id p = _product_id p'
  | OClient c, OClient c' => c = c'
  | OOrder _, OOrder _ => True
  | OList _, OList _ => True
  | _, _ => False
  end.

(** The store after a call, when the call is not stuck. *)
Definition after {A} (out : outcome A) : option heap :=
  match out with
  | Done _ h' => Some h'
  | Raised _ h' => Some h'
  | Stuck => None
  end.

(** ** The keys of a grouping loop, in order *)

(** The distinct elements of a list, each at the place of its first
    occurrence. *)
Fixpoint first_occurrences {K} `{EqDecision K} (ks : list K) : list K :=
  match ks with
  | [] => []
  | k :: ks' => k :: filter (fun k' => k' <> k) (first_occurrences ks')
  end.

(** ** The edges of the graph of clients *)

Import Network.

(** The edge of two clients. *)
Definition client_edge (a b : Client) : list (Z * Z * Z) :=
  let common_products := products_bought a ∩ products_bought b in
  if decide (common_products = ∅) then []
  else [(client_id a, client_id b, Z.of_nat (size common_products))].

Fixpoint client_edges (clients : list Client) : list (Z * Z * Z) :=
  match clients with
  | [] => []
  | a :: rest => flat_map (client_edge a) rest ++ client_edges rest
  end.

(** ** What no call changes *)

(** The class of an object and the attributes that none of the calls of
    [Program.call] assigns: everything of a client (its orders are in its
    list), everything of a product but its price, the product of an item,
    everything of an order but the list of its items.  (The setters of
    the names, of [address], [category], [description] and [status] are
    not among the calls.) *)
Definition keeps (old new : obj) : Prop :=
  match old, new with
  | OClient c, OClient c' => c = c'
  | OProduct p, OProduct p' =>
      _product_id p = _product_id p' /\ _product_name p = _product_name p'
      /\ _category p = _category p' /\ _description p = _description p'
  | OItem i, OItem i' => _product i = _product i'
  | OOrder o, OOrder o' =>
      _client o = _client o' /\ _order_date o = _order_date o'
      /\ _order_id o = _order_id o' /\ _status o = _status o'
  | OList _, OList _ => True
  | _, _ => False
  end.

(** A new entity carries its identity as its id. *)
Definition born (l : loc) (new : obj) : Prop :=
  match new with
  | OClient c => _client_id c = id l
  | OProduct p => _product_id p = id l
  | OOrder o => _order_id o = id l
  | _ => True
  end.

(** How a store may change: objects stay, keep what [keeps] says, and the
    new ones are born with their ids. *)
Definition evolves (h h' : heap) : Prop :=
  (forall l old, h !! l = Some old -> exists new, h' !! l = Some new /\ keeps old new)
  /\ (forall l new, h !! l = None -> h' !! l = Some new -> born l new).

(** Every entity of the store has its identity as its id. *)
Definition identified (h : heap) : Prop :=
  forall l x, h !! l = Some x -> born l x.

(** ** The amounts in the store *)

(** The amount of an item: the price of its product times its quantity. *)
Definition item_total (h : heap) (item : loc) : option Qc :=
  match h !! item with
  | Some (OItem i) =>
      match h !! _product i with
      | Some (OProduct p) => Some (_price p * Qc_of_Z (_quantity i))%Qc
      | _ => None
      end
  | _ => None
  end.

(** ** Worked examples *)

Definition demo_P : Product := mk_product 1 "P" (Q2Qc 100) "" "".
Definition demo_Q : Product := mk_product 2 "Q" (Q2Qc 250) "" "".
Definition demo_R : Product := mk_product 3 "R" (Q2Qc 2500) "" "".
Definition demo_S : Product := mk_product 4 "S" (Q2Qc 100) "" "".

Definition demo_order_1 : Order :=
  mk_order 11 1 (Py.mk_datetime 2023 1 3 9 30 0 0) "Новый"
    [mk_item demo_P 1; mk_item demo_Q 1].
Definition demo_order_2 : Order :=
  mk_order 12 1 (Py.mk_datetime 2023 1 1 18 0 0 0) "Новый"
    [mk_item demo_P 2; mk_item demo_S 1].
Definition demo_order_3 : Order :=
  mk_order 13 2 (Py.mk_datetime 2023 1 2 7 15 0 0) "Новый"
    [mk_item demo_R 1].

(** Clients A (two orders, 650 in all), B (one order of 2500) and C (no
    order). *)
Definition demo_A : Client :=
  mk_client 1 "A" "a@example.com" "+7-111-111-11-11" "" [demo_order_1; demo_order_2].
Definition demo_B : Client :=
  mk_client 2 "B" "b@example.com" "+7-222-222-22-22" "" [demo_order_3].
Definition demo_C : Client :=
  mk_client 3 "C" "c@example.com" "+7-333-333-33-33" "" [].

Definition demo_analyzer : DataAnalyzer.t :=
  {| clients := [demo_A; demo_B; demo_C];
     products := [demo_P; demo_Q; demo_R; demo_S];
     orders := [demo_order_1; demo_order_2; demo_order_3] |}.


(** A store built by calls: a client, a product, an order of the client
    and one item of the product in it. *)
Definition demo_now : Py.datetime := Py.mk_datetime 2023 1 3 12 0 0 0.

Definition demo_calls : list Program.call :=
  [ Program.NewClient "A" "a@example.com" "+7-111-111-11-11" "";
    Program.NewProduct "P" (Q2Qc 100) "" "";
    Program.NewOrder 2%positive None;
    Program.AddItem 5%positive 3%positive 1 ].

Definition demo_store : heap :=
  default ∅ (Program.run demo_now demo_calls ∅).

Definition demo_client : client :=
  {| _name := "A"; _email := "a@example.com"; _phone := "+7-111-111-11-11";
     _address := ""; _orders := 1%positive; _client_id := 2 |}.

Definition demo_order : order :=
  {| _client := 2%positive; _order_date := demo_now; _items := 4%positive;
     _order_id := 5; _status := "Новый" |}.

Definition demo_product : Store.product :=
  {| _product_name := "P"; _price := Q2Qc 100; _category := "";
     _description := ""; _product_id := 3 |}.

(** The store before the item is added: the order is empty. *)
Definition demo_store_new_order : heap :=
  default ∅ (Program.run demo_now (take 3 demo_calls) ∅).



(* ===================================================================== *)
(** * Part II: properties                                                 *)
(* ===================================================================== *)

(** ** Strings: the order behind [<] *)

Lemma str_lt_spec (a b : string) :
  Py.str_lt a b = true <-> strict String.le a b.
Proof.
  unfold Py.str_lt, String.ltb, strict, String.le, String.leb.
  rewrite (String.compare_antisym b a).
  destruct (String.compare a b); simpl; intuition (try discriminate; auto).
Qed.

Lemma str_eq_spec (a b : string) : Py.str_eq a b = true <-> a = b.
Proof. apply String.eqb_eq. Qed.

Lemma str_trichotomy (a b : string) :
  (Py.str_lt a b = true /\ Py.str_eq a b = false /\ Py.str_gt a b = false) \/
  (Py.str_lt a b = false /\ Py.str_eq a b = true /\ Py.str_gt a b = false) \/
  (Py.str_lt a b = false /\ Py.str_eq a b = false /\ Py.str_gt a b = true).
Proof.
  unfold Py.str_lt, Py.str_gt, Py.str_eq, String.ltb.
  rewrite (String.compare_antisym b a).
  destruct (String.compare a b) eqn:E; simpl.
  - apply String.compare_eq_iff in E as ->. rewrite String.eqb_refl. auto.
  - left. repeat split. apply String.eqb_neq. intros ->.
    pose proof (str_lt_irrefl b) as Hi. unfold Py.str_lt, String.ltb in Hi.
    rewrite E in Hi. discriminate.
  - right; right. repeat split. apply String.eqb_neq. intros ->.
    pose proof (String.compare_antisym b b) as Ha. rewrite E in Ha. discriminate.
Qed.

(** ** The three-way partition *)

Lemma partition3_Permutation (pivot : string) (l : list string) :
  (List.filter (fun x => Py.str_lt x pivot) l
   ++ List.filter (fun x => Py.str_eq x pivot) l)
  ++ List.filter (fun x => Py.str_gt x pivot) l ≡ₚ l.
Proof.
  induction l as [|a l IH]; simpl; [reflexivity|].
  destruct (str_trichotomy a pivot) as [(-> & -> & ->)|[(-> & -> & ->)|(-> & -> & ->)]];
    simpl.
  - by rewrite IH.
  - rewrite <- app_assoc. simpl. rewrite <- Permutation_middle.
    constructor. rewrite app_assoc. exact IH.
  - rewrite <- Permutation_middle. constructor. exact IH.
Qed.

Lemma recursive_date_sort_unfold (dates : list string) :
  _recursive_date_sort dates =
  if Py.len dates <=? 1 then dates
  else match dates !! Z.to_nat (Py.len dates / 2) with
       | Some pivot =>
           (_recursive_date_sort (List.filter (fun x => Py.str_lt x pivot) dates)
            ++ List.filter (fun x => Py.str_eq x pivot) dates)
           ++ _recursive_date_sort (List.filter (fun x => Py.str_gt x pivot) dates)
       | None => dates
       end.
Proof.
  funelim (_recursive_date_sort dates); clear Heqcall;
    repeat match goal with
    | H : _ = {| pr1 := _; pr2 := _ |} |- _ => clear H
    | H : (Py.len _ <=? 1) = _ |- _ => rewrite H; clear H
    | H : ?l !! _ = _ |- context [?l !! _] => rewrite H; clear H
    end; reflexivity.
Qed.

Lemma pivot_in_range (dates : list string) :
  (Py.len dates <=? 1) = false ->
  is_Some (dates !! Z.to_nat (Py.len dates / 2)).
Proof.
  intros H. apply lookup_lt_is_Some. unfold Py.len in *.
  apply Z.leb_gt in H. 
  apply Nat2Z.inj_lt. rewrite Z2Nat.id by (apply Z.div_pos; lia).
  apply Z.div_lt; lia.
Qed.

Lemma recursive_date_sort_Permutation (dates : list string) :
  _recursive_date_sort dates ≡ₚ dates.
Proof.
  funelim (_recursive_date_sort dates); try reflexivity.
  rewrite H, H0. apply partition3_Permutation.
Qed.

Lemma recursive_date_sort_sorted (dates : list string) :
  StronglySorted String.le (_recursive_date_sort dates).
Proof.
  funelim (_recursive_date_sort dates).
  - clear H Heqcall. destruct dates as [|a [|b l]]; simpl in *.
    + constructor.
    + repeat constructor.
    + unfold Py.len in e. simpl in e. apply Z.leb_le in e. lia.
  - clear Heqcall H1.
    assert (Hl : ∀ x, x ∈ _recursive_date_sort (List.filter (λ x, Py.str_lt x pivot) dates)
                 → strict String.le x pivot).
    { intros x Hx. rewrite recursive_date_sort_Permutation in Hx.
      apply list_elem_of_In, filter_In in Hx as [_ Hx]. by apply str_lt_spec. }
    assert (Hr : ∀ x, x ∈ _recursive_date_sort (List.filter (λ x, Py.str_gt x pivot) dates)
                 → strict String.le pivot x).
    { intros x Hx. rewrite recursive_date_sort_Permutation in Hx.
      apply list_elem_of_In, filter_In in Hx as [_ Hx]. by apply str_lt_spec. }
    assert (Hm : ∀ x, x ∈ List.filter (λ x, Py.str_eq x pivot) dates → x = pivot).
    { intros x Hx. apply list_elem_of_In, filter_In in Hx as [_ Hx]. by apply str_eq_spec. }
    apply StronglySorted_app; split_and!.
    + intros x1 x2 [Hx1|Hx1]%elem_of_app Hx2.
      * destruct (Hl _ Hx1), (Hr _ Hx2). by etrans.
      * rewrite (Hm _ Hx1). by destruct (Hr _ Hx2).
    + apply StronglySorted_app; split_and!; [|done|].
      * intros x1 x2 Hx1 Hx2. rewrite (Hm _ Hx2). by destruct (Hl _ Hx1).
      * induction (List.filter (λ x, Py.str_eq x pivot) dates) as [|a l IH];
          constructor.
        -- apply IH. intros x Hx. apply Hm. by right.
        -- apply Forall_forall. intros x Hx.
           rewrite (Hm a) by left. rewrite (Hm x) by (by right). done.
    + done.
  - exfalso. destruct (pivot_in_range dates) as [x Hx]; [done|]. congruence.
Qed.

(** C4: for every list of date strings, [_recursive_date_sort] (a total
    function: its recursion is well founded on the length of the list)
    returns the same list as the reference ascending sort under the
    lexicographic comparison of strings; the result is sorted and is a
    permutation of the input; and it is computed as a quicksort: a list of
    at most one element is returned as it is, and otherwise the pivot is
    the middle element and the result is the sorted strictly smaller
    elements, then the elements equal to the pivot, then the sorted
    strictly greater elements. *)
Theorem recursive_date_sort_refines_reference (dates : list string) :
  _recursive_date_sort dates = reference_date_sort dates
  /\ StronglySorted String.le (_recursive_date_sort dates)
  /\ _recursive_date_sort dates ≡ₚ dates
  /\ ((Py.len dates <= 1 /\ _recursive_date_sort dates = dates)
      \/ (1 < Py.len dates /\
          exists pivot,
            dates !! Z.to_nat (Py.len dates / 2) = Some pivot /\
            _recursive_date_sort dates =
              (_recursive_date_sort (List.filter (fun x => Py.str_lt x pivot) dates)
               ++ List.filter (fun x => Py.str_eq x pivot) dates)
              ++ _recursive_date_sort (List.filter (fun x => Py.str_gt x pivot) dates))).
Proof.
  split_and!.
  - apply (StronglySorted_unique String.le).
    + apply recursive_date_sort_sorted.
    + apply StronglySorted_merge_sort; apply _.
    + rewrite recursive_date_sort_Permutation.
      symmetry. apply merge_sort_Permutation.
  - apply recursive_date_sort_sorted.
  - apply recursive_date_sort_Permutation.
  - rewrite (recursive_date_sort_unfold dates).
    destruct (Py.len dates <=? 1) eqn:E.
    + left. split; [by apply Z.leb_le | done].
    + right. split; [by apply Z.leb_gt |].
      destruct (pivot_in_range dates E) as [pivot Hp].
      exists pivot. by rewrite Hp.
Qed.

Example recursive_date_sort_scenario :
  _recursive_date_sort ["2023-01-03"; "2023-01-01"; "2023-01-02"]%string
  = ["2023-01-01"; "2023-01-02"; "2023-01-03"]%string.
Proof. vm_compute. reflexivity. Qed.

(** ** [sorted(..., reverse=True)] *)

Section sorted_reverse.
Context {A K : Type} `{EqDecision K} (lt : K -> K -> bool) (key : A -> K).
Hypothesis lt_irrefl : forall a, lt a a = false.
Hypothesis lt_asym : forall a b, lt a b = true -> lt b a = false.
Hypothesis lt_ntrans : forall a b c, lt a b = false -> lt b c = false -> lt a c = false.

Lemma insert_reverse_Permutation (x : A) (l : list A) :
  Py.insert_reverse lt key x l ≡ₚ x :: l.
Proof.
  induction l as [|y l IH]; simpl; [done|].
  destruct (lt (key x) (key y)); [|done].
  rewrite IH. apply perm_swap.
Qed.

Lemma sorted_reverse_Permutation (l : list A) :
  Py.sorted_reverse lt key l ≡ₚ l.
Proof.
  induction l as [|x l IH]; simpl; [done|].
  rewrite insert_reverse_Permutation. by rewrite IH.
Qed.

Lemma insert_reverse_sorted (x : A) (l : list A) :
  StronglySorted (not_below lt key) l ->
  StronglySorted (not_below lt key) (Py.insert_reverse lt key x l).
Proof.
  induction 1 as [|y l Hs IH Hy]; simpl.
  - repeat constructor.
  - destruct (lt (key x) (key y)) eqn:E.
    + constructor; [done|].
      rewrite insert_reverse_Permutation. constructor; [|done].
      by apply lt_asym.
    + constructor; [by constructor|].
      constructor; [done|].
      eapply Forall_impl; [exact Hy|]. intros z Hz. by eapply lt_ntrans.
Qed.

Lemma sorted_reverse_sorted (l : list A) :
  StronglySorted (not_below lt key) (Py.sorted_reverse lt key l).
Proof.
  induction l as [|x l IH]; simpl; [constructor|].
  by apply insert_reverse_sorted.
Qed.

Lemma insert_reverse_stable (k : K) (x : A) (l : list A) :
  filter (fun a => key a = k) (Py.insert_reverse lt key x l)
  = filter (fun a => key a = k) (x :: l).
Proof.
  induction l as [|y l IH]; simpl; [done|].
  destruct (lt (key x) (key y)) eqn:E; [|done].
  rewrite filter_cons, IH, !filter_cons.
  destruct (decide (key y = k)) as [Hy|Hy]; [|done].
  destruct (decide (key x = k)) as [Hx|Hx]; [|done].
  rewrite Hx, Hy, lt_irrefl in E. discriminate.
Qed.

(** Stability: the elements of each key keep their input order. *)
Lemma sorted_reverse_stable (k : K) (l : list A) :
  filter (fun a => key a = k) (Py.sorted_reverse lt key l)
  = filter (fun a => key a = k) l.
Proof.
  induction l as [|x l IH]; simpl; [done|].
  rewrite insert_reverse_stable, !filter_cons, IH. done.
Qed.
End sorted_reverse.

Lemma StronglySorted_weaken {A} (R R' : relation A) (l : list A) :
  (forall a b, R a b -> R' a b) -> StronglySorted R l -> StronglySorted R' l.
Proof.
  intros HR. induction 1 as [|x l Hs IH Hx]; constructor; [done|].
  eapply Forall_impl; [exact Hx|]. intros y. apply HR.
Qed.

Lemma slice_to_take {A} (xs : list A) (n : Z) :
  0 <= n -> Py.slice_to xs n = take (Z.to_nat n) xs.
Proof. intros H. unfold Py.slice_to. by rewrite (proj2 (Z.leb_le 0 n) H). Qed.

Lemma len_take_min {A} (xs : list A) (n : Z) :
  0 <= n -> Py.len (take (Z.to_nat n) xs) = Z.min n (Py.len xs).
Proof. intros H. unfold Py.len. rewrite length_take. lia. Qed.

(** Sorting the images of a list is sorting the list by the key of the
    images. *)
Lemma insert_reverse_map {A B K} (lt : K -> K -> bool) (key : B -> K)
    (f : A -> B) (x : A) (l : list A) :
  Py.insert_reverse lt key (f x) (map f l)
  = map f (Py.insert_reverse lt (fun a => key (f a)) x l).
Proof.
  induction l as [|y l IH]; simpl; [done|].
  destruct (lt (key (f x)) (key (f y))); simpl; [by rewrite IH | done].
Qed.

Lemma sorted_reverse_map {A B K} (lt : K -> K -> bool) (key : B -> K)
    (f : A -> B) (l : list A) :
  Py.sorted_reverse lt key (map f l)
  = map f (Py.sorted_reverse lt (fun a => key (f a)) l).
Proof.
  induction l as [|x l IH]; simpl; [done|].
  by rewrite IH, insert_reverse_map.
Qed.

(** C1: for every list of clients and every positive [top_n],
    [get_top_clients_by_orders] returns records sorted non-increasing by
    [order_count], as many as [min(top_n, number of clients)]; each record
    holds the size of its client's order list and the sum, over that
    client's orders, of the sum of price times quantity of the items; and
    the clients of the records are the head of an arrangement of the
    analyzer's clients, each once, by non-increasing size of the order
    list, in which the clients of equal size keep their input order. *)
Theorem get_top_clients_by_orders_spec (self : DataAnalyzer.t) (top_n : Z) :
  0 < top_n ->
  let result := get_top_clients_by_orders self top_n in
  StronglySorted (fun a b => tc_order_count b <= tc_order_count a) result
  /\ Py.len result = Z.min top_n (Py.len (clients self))
  /\ Forall (fun r =>
       tc_order_count r = Py.len (View.orders (tc_client r)) /\
       tc_total_spent r
       = Py.sum (map (fun order =>
                   Py.sum (map (fun item =>
                             (price (product item) * Qc_of_Z (quantity item))%Qc)
                          (items order)))
                (View.orders (tc_client r))))
       result
  /\ exists rest : list Client,
       map tc_client result ++ rest ≡ₚ clients self
       /\ StronglySorted
            (fun a b => Py.len (View.orders b) <= Py.len (View.orders a))
            (map tc_client result ++ rest)
       /\ forall k,
            filter (fun c => Py.len (View.orders c) = k)
              (map tc_client result ++ rest)
            = filter (fun c => Py.len (View.orders c) = k) (clients self).
Proof.
  intros Hn result.
  set (count := fun c : Client => Py.len (View.orders c)).
  set (ranking := Py.sorted_reverse Z.ltb count (clients self)).
  assert (Hfull : Py.sorted_reverse Z.ltb tc_order_count
                    (map client_row_of (clients self))
                  = map client_row_of ranking).
  { apply (sorted_reverse_map Z.ltb tc_order_count client_row_of). }
  assert (Hres : result = map client_row_of (take (Z.to_nat top_n) ranking)).
  { unfold result, get_top_clients_by_orders. cbv zeta.
    rewrite slice_to_take by lia. rewrite Hfull. by rewrite <- fmap_take. }
  assert (Hclients : map tc_client result = take (Z.to_nat top_n) ranking).
  { rewrite Hres, map_map. apply map_id. }
  assert (Hperm : ranking ≡ₚ clients self) by apply sorted_reverse_Permutation.
  assert (Hsorted : StronglySorted (fun a b => count b <= count a) ranking).
  { eapply StronglySorted_weaken;
      [|apply (sorted_reverse_sorted Z.ltb count)].
    - intros a b Hab. unfold not_below in Hab. apply Z.ltb_ge in Hab. exact Hab.
    - intros a b Hab. apply Z.ltb_lt in Hab. apply Z.ltb_ge. lia.
    - intros a b c Hab Hbc. apply Z.ltb_ge in Hab, Hbc. apply Z.ltb_ge. lia. }
  assert (Hsplit : ranking
                   = take (Z.to_nat top_n) ranking ++ drop (Z.to_nat top_n) ranking).
  { by rewrite take_drop. }
  split_and!.
  - rewrite Hres. apply (StronglySorted_fmap client_row_of
                           (fun a b => count b <= count a)).
    + by intros a b.
    + rewrite Hsplit in Hsorted.
      by apply StronglySorted_app in Hsorted as (_ & ? & _).
  - rewrite Hres. unfold Py.len at 1. rewrite length_map.
    fold (Py.len (take (Z.to_nat top_n) ranking)).
    rewrite len_take_min by lia.
    unfold Py.len. by rewrite Hperm.
  - rewrite Hres. apply Forall_forall. intros r Hr.
    apply list_elem_of_fmap in Hr as (c & -> & _). done.
  - exists (drop (Z.to_nat top_n) ranking). rewrite Hclients, <- Hsplit.
    split_and!; [done..|].
    intros k. apply (sorted_reverse_stable Z.ltb count).
    intros a. apply Z.ltb_irrefl.
Qed.

Lemma get_top_clients_by_orders_spec_witness :
  0 < 2
  /\ Py.len (get_top_clients_by_orders demo_analyzer 2)
     = Z.min 2 (Py.len (clients demo_analyzer))
  /\ Forall (fun r =>
       tc_order_count r = Py.len (View.orders (tc_client r)) /\
       tc_total_spent r
       = Py.sum (map (fun order =>
                   Py.sum (map (fun item =>
                             (price (product item) * Qc_of_Z (quantity item))%Qc)
                          (items order)))
                (View.orders (tc_client r))))
       (get_top_clients_by_orders demo_analyzer 2)
  /\ exists rest : list Client,
       map tc_client (get_top_clients_by_orders demo_analyzer 2) ++ rest
       ≡ₚ clients demo_analyzer.
Proof.
  assert (H : 0 < 2) by lia. split; [exact H|].
  destruct (get_top_clients_by_orders_spec demo_analyzer 2 H)
    as (_ & Hlen & Hrows & rest & Hperm & _).
  split; [exact Hlen|]. split; [exact Hrows|]. exists rest. exact Hperm.
Defined.


Lemma Qc_of_Z_len_nonzero {A} (xs : list A) :
  xs <> [] -> Qc_of_Z (Py.len xs) <> Q2Qc 0.
Proof.
  intros Hne E. rewrite <- Z2Qc_inj_0 in E.
  apply Z2Qc_inj in E. destruct xs; [done|]. unfold Py.len in E. simpl in E. lia.
Qed.

(** The report that [generate_sales_report] returns: under its guards
    no division raises. *)
Lemma generate_sales_report_returns (self : DataAnalyzer.t) :
  generate_sales_report self
  = Py.Value
      {| total_orders := Py.len (orders self);
         total_revenue := Py.sum (map total_amount (orders self));
         total_clients := Py.len (clients self);
         total_products := Py.len (products self);
         avg_order_value :=
           if decide (orders self = []) then Q2Qc 0
           else (Py.sum (map total_amount (orders self))
                 / Qc_of_Z (Py.len (orders self)))%Qc;
         avg_orders_per_client :=
           if decide (clients self = []) then Q2Qc 0
           else (Qc_of_Z (Py.len (orders self))
                 / Qc_of_Z (Py.len (clients self)))%Qc;
         top_clients := get_top_clients_by_orders self 5;
         top_products := get_top_products_by_sales self 5 |}.
Proof.
  unfold generate_sales_report. cbv zeta.
  assert (Hguard : forall {A} (xs : list A) (a : Qc),
            (if Py.len xs >? 0 then Py.truediv a (Qc_of_Z (Py.len xs))
             else Py.Value (Q2Qc 0))
            = Py.Value (if decide (xs = []) then Q2Qc 0
                        else (a / Qc_of_Z (Py.len xs))%Qc)).
  { intros A xs a. destruct (decide (xs = [])) as [->|Hne]; [done|].
    assert ((Py.len xs >? 0) = true) as ->.
    { apply Z.gtb_lt. destruct xs; [done|]. unfold Py.len. simpl. lia. }
    unfold Py.truediv. rewrite decide_False; [done|].
    by apply Qc_of_Z_len_nonzero. }
  by rewrite !Hguard.
Qed.



(** ** Dictionaries *)

Section dict_facts.
Context {K V : Type} `{EqDecision K}.
Implicit Types (d : Py.dict K V) (k : K) (v : V).

Lemma dict_get_None k d : Py.dict_get k d = None <-> k ∉ Py.dict_keys d.
Proof.
  induction d as [|[k' v'] d IH]; simpl.
  - split; [intros _; apply not_elem_of_nil | done].
  - rewrite not_elem_of_cons. destruct (decide (k = k')); [|tauto].
    split; [done | tauto].
Qed.

Lemma dict_in_spec k d : Py.dict_in k d = true <-> k ∈ Py.dict_keys d.
Proof.
  unfold Py.dict_in. pose proof (dict_get_None k d) as Hn.
  destruct (Py.dict_get k d).
  - split; [|done]. intros _. destruct (decide (k ∈ Py.dict_keys d)); [done|].
    by apply Hn in n.
  - split; [done|]. intros Hin. by apply Hn in Hin.
Qed.

Lemma dict_get_set k k' v d :
  Py.dict_get k (Py.dict_set k' v d)
  = if decide (k = k') then Some v else Py.dict_get k d.
Proof.
  induction d as [|[k0 v0] d IH]; simpl.
  - by destruct (decide (k = k')).
  - destruct (decide (k' = k0)) as [->|Hne]; simpl.
    + by destruct (decide (k = k0)).
    + destruct (decide (k = k0)) as [->|Hne']; [|done].
      by rewrite decide_False by done.
Qed.

Lemma dict_get_alter f k k' d :
  Py.dict_get k (Py.dict_alter f k' d)
  = if decide (k = k') then f <$> Py.dict_get k d else Py.dict_get k d.
Proof.
  induction d as [|[k0 v0] d IH]; simpl.
  - by destruct (decide (k = k')).
  - destruct (decide (k' = k0)) as [->|Hne]; simpl.
    + by destruct (decide (k = k0)).
    + destruct (decide (k = k0)) as [->|Hne']; [|done].
      by rewrite decide_False by done.
Qed.

Lemma dict_keys_alter f k d :
  Py.dict_keys (Py.dict_alter f k d) = Py.dict_keys d.
Proof.
  induction d as [|[k0 v0] d IH]; simpl; [done|].
  destruct (decide (k = k0)); simpl; [done|]. by rewrite IH.
Qed.

Lemma dict_keys_set_new k v d :
  k ∉ Py.dict_keys d -> Py.dict_keys (Py.dict_set k v d) = Py.dict_keys d ++ [k].
Proof.
  induction d as [|[k0 v0] d IH]; simpl; [done|].
  rewrite not_elem_of_cons. intros [Hne Hnin].
  rewrite decide_False by done. simpl. by rewrite IH.
Qed.

Lemma dict_alter_alter f g k d :
  Py.dict_alter g k (Py.dict_alter f k d) = Py.dict_alter (g ∘ f) k d.
Proof.
  induction d as [|[k0 v0] d IH]; simpl; [done|].
  destruct (decide (k = k0)) as [->|Hne]; simpl.
  - by rewrite decide_True by done.
  - rewrite decide_False by done. by rewrite IH.
Qed.

Lemma dict_get_elem_of k v d : Py.dict_get k d = Some v -> (k, v) ∈ d.
Proof.
  induction d as [|[k0 v0] d IH]; simpl; [done|].
  destruct (decide (k = k0)) as [->|Hne].
  - intros [= ->]. left.
  - intros Hg. right. by apply IH.
Qed.

Lemma dict_elem_of_get k v d :
  NoDup (Py.dict_keys d) -> (k, v) ∈ d -> Py.dict_get k d = Some v.
Proof.
  induction d as [|[k0 v0] d IH]; simpl.
  - intros _ Hin. by apply elem_of_nil in Hin.
  - intros [Hnin Hnd]%NoDup_cons [Heq|Hin]%elem_of_cons.
    + injection Heq as -> ->. by rewrite decide_True.
    + destruct (decide (k = k0)) as [->|Hne]; [|by apply IH].
      exfalso. apply Hnin. apply list_elem_of_fmap. by exists (k0, v).
Qed.

Lemma dict_get_upsert g v0 k k' d :
  Py.dict_get k' (upsert g v0 k d)
  = if decide (k' = k) then Some (g (default v0 (Py.dict_get k d)))
    else Py.dict_get k' d.
Proof.
  unfold upsert. rewrite dict_get_alter. unfold Py.dict_in.
  destruct (decide (k' = k)) as [->|Hne].
  - destruct (Py.dict_get k d) eqn:E; simpl; [by rewrite E|].
    by rewrite dict_get_set, decide_True.
  - destruct (Py.dict_get k d) eqn:E; [done|].
    by rewrite dict_get_set, decide_False.
Qed.

Lemma dict_keys_upsert_NoDup g v0 k d :
  NoDup (Py.dict_keys d) -> NoDup (Py.dict_keys (upsert g v0 k d)).
Proof.
  intros Hnd. unfold upsert. rewrite dict_keys_alter.
  destruct (Py.dict_in k d) eqn:E; [done|].
  assert (k ∉ Py.dict_keys d) as Hnin.
  { intros Hin. apply dict_in_spec in Hin. congruence. }
  rewrite dict_keys_set_new by done.
  apply NoDup_app. split_and!; [done| |apply NoDup_singleton].
  intros x Hx ->%list_elem_of_singleton. done.
Qed.

Context {X : Type} (kf : X -> K) (init : X -> V) (step : X -> V -> V).

Lemma group_by_get (k : K) (xs : list X) :
  Py.dict_get k (group_by kf init step xs)
  = match group_of kf k xs with
    | [] => None
    | x0 :: _ => Some (fold_left (fun v x => step x v) (group_of kf k xs) (init x0))
    end.
Proof.
  unfold group_by, group_of.
  induction xs as [|x xs IH] using rev_ind; [done|].
  rewrite fold_left_app. simpl. rewrite dict_get_upsert, filter_app, filter_cons.
  destruct (decide (k = kf x)) as [->|Hne].
  - rewrite decide_True by done. rewrite IH.
    destruct (filter _ xs) as [|x0 F]; simpl; [done|].
    by rewrite fold_left_app.
  - rewrite decide_False by done. rewrite filter_nil, app_nil_r. exact IH.
Qed.

Lemma group_by_NoDup (xs : list X) : NoDup (Py.dict_keys (group_by kf init step xs)).
Proof.
  unfold group_by. induction xs as [|x xs IH] using rev_ind; [constructor|].
  rewrite fold_left_app. simpl. by apply dict_keys_upsert_NoDup.
Qed.

Lemma group_by_keys (k : K) (xs : list X) :
  k ∈ Py.dict_keys (group_by kf init step xs) <-> k ∈ kf <$> xs.
Proof.
  destruct (decide (k ∈ Py.dict_keys (group_by kf init step xs))) as [Hin|Hnin].
  - split; [intros _|done].
    destruct (Py.dict_get k (group_by kf init step xs)) eqn:E.
    + rewrite group_by_get in E. unfold group_of in E.
      destruct (filter _ xs) as [|x0 F] eqn:EF; [done|].
      assert (x0 ∈ filter (fun x => kf x = k) xs) as Hx0 by (rewrite EF; left).
      apply list_elem_of_filter in Hx0 as [<- Hx0].
      apply list_elem_of_fmap. by exists x0.
    + by apply dict_get_None in E.
  - split; [done|]. intros (x & -> & Hx)%list_elem_of_fmap. exfalso.
    apply dict_get_None in Hnin. rewrite group_by_get in Hnin.
    unfold group_of in Hnin.
    destruct (filter _ xs) as [|x0 F] eqn:EF; [|done].
    assert (x ∈ filter (fun y => kf y = kf x) xs) as Hx'.
    { by apply list_elem_of_filter. }
    rewrite EF in Hx'. by apply elem_of_nil in Hx'.
Qed.
End dict_facts.

(** ** [strftime('%Y-%m-%d')] *)

Lemma digit_inj (a b : Z) : Py.digit a = Py.digit b -> a mod 10 = b mod 10.
Proof.
  unfold Py.digit. intros H.
  apply (f_equal N_of_ascii) in H.
  assert (0 <= a mod 10 < 10) by (apply Z.mod_pos_bound; lia).
  assert (0 <= b mod 10 < 10) by (apply Z.mod_pos_bound; lia).
  rewrite !N_ascii_embedding in H by lia. lia.
Qed.

Lemma pad2_inj (a b : Z) :
  0 <= a < 100 -> 0 <= b < 100 -> Py.pad2 a = Py.pad2 b -> a = b.
Proof.
  intros Ha Hb [= H1%digit_inj H0%digit_inj].
  Z.div_mod_to_equations. lia.
Qed.

Lemma pad4_inj (a b : Z) :
  0 <= a < 10000 -> 0 <= b < 10000 -> Py.pad4 a = Py.pad4 b -> a = b.
Proof.
  intros Ha Hb [= H3%digit_inj H2%digit_inj H1%digit_inj H0%digit_inj].
  Z.div_mod_to_equations. lia.
Qed.

Lemma strftime_Ymd_calendar_date (d1 d2 : Py.datetime) :
  Py.valid_date d1 -> Py.valid_date d2 ->
  Py.strftime_Ymd d1 = Py.strftime_Ymd d2 <-> Py.calendar_date d1 = Py.calendar_date d2.
Proof.
  intros (Hy1 & Hm1 & Hd1) (Hy2 & Hm2 & Hd2).
  unfold Py.strftime_Ymd, Py.calendar_date. split.
  - intros H. cbn [Py.pad4 Py.pad2 String.append] in H.
    injection H as Y3 Y2 Y1 Y0 M1 M0 D1 D0.
    assert (Py.year d1 = Py.year d2) as ->.
    { apply pad4_inj; [lia..|]. unfold Py.pad4. congruence. }
    assert (Py.month d1 = Py.month d2) as ->.
    { apply pad2_inj; [lia..|]. unfold Py.pad2. congruence. }
    assert (Py.day d1 = Py.day d2) as ->.
    { apply pad2_inj; [lia..|]. unfold Py.pad2. congruence. }
    done.
  - intros [= -> -> ->]. done.
Qed.

(** ** Sums *)

Lemma fold_left_add_shift (l : list Z) (a : Z) :
  fold_left Z.add l a = a + fold_left Z.add l 0.
Proof.
  revert a. induction l as [|b l IH]; intros a; simpl; [lia|].
  rewrite (IH (a + b)), (IH (0 + b)). lia.
Qed.

Lemma sum_int_cons (a : Z) (l : list Z) : Py.sum_int (a :: l) = a + Py.sum_int l.
Proof. unfold Py.sum_int. simpl. apply fold_left_add_shift. Qed.

Lemma sum_int_add {K} (f g : K -> Z) (ks : list K) :
  Py.sum_int (map (fun k => f k + g k) ks)
  = Py.sum_int (map f ks) + Py.sum_int (map g ks).
Proof.
  induction ks as [|k ks IH]; [done|].
  cbn [map]. rewrite !sum_int_cons, IH. lia.
Qed.

Lemma sum_int_indicator {K} `{EqDecision K} (k0 : K) (ks : list K) :
  NoDup ks -> k0 ∈ ks ->
  Py.sum_int (map (fun k => if decide (k0 = k) then 1 else 0) ks) = 1.
Proof.
  induction 1 as [|k ks Hnin Hnd IH]; [by intros ?%elem_of_nil|].
  cbn [map]. rewrite sum_int_cons.
  intros [->|Hin]%elem_of_cons.
  - rewrite decide_True by done.
    assert (Py.sum_int (map (fun k1 => if decide (k = k1) then 1 else 0) ks) = 0) as ->; [|done].
    clear IH Hnd. induction ks as [|k' ks IH]; [done|].
    cbn [map]. rewrite sum_int_cons. apply not_elem_of_cons in Hnin as [Hne Hnin].
    rewrite decide_False by done. by rewrite IH.
  - rewrite decide_False by (intros ->; done). by rewrite IH.
Qed.

(** The groups of a list partition it: their sizes add up to its length. *)
Lemma sum_int_group_sizes {K X} `{EqDecision K} (kf : X -> K) (ks : list K) (xs : list X) :
  NoDup ks -> (forall x, x ∈ xs -> kf x ∈ ks) ->
  Py.sum_int (map (fun k => Py.len (group_of kf k xs)) ks) = Py.len xs.
Proof.
  intros Hnd. induction xs as [|x xs IH]; intros Hks.
  - unfold group_of. simpl. clear. induction ks as [|k ks IH]; [done|].
    cbn [map]. by rewrite sum_int_cons, IH.
  - transitivity
      (Py.sum_int (map (fun k => (if decide (kf x = k) then 1 else 0)
                                 + Py.len (group_of kf k xs)) ks)).
    { f_equal. apply map_ext. intros k. unfold group_of. rewrite filter_cons.
      destruct (decide (kf x = k)); unfold Py.len; simpl; lia. }
    rewrite sum_int_add, sum_int_indicator, IH.
    + unfold Py.len. simpl. lia.
    + intros y Hy. apply Hks. by right.
    + done.
    + apply Hks. left.
Qed.

(** ** [get_orders_dynamics] *)

Lemma dynamics_step_upsert (d : Py.dict string date_stats) (o : Order) :
  dynamics_step d o = upsert (date_stats_step o) (date_stats_init o) (date_of o) d.
Proof. unfold dynamics_step. by rewrite dict_alter_alter. Qed.

Lemma dynamics_fold_group_by (orders : list Order) (d : Py.dict string date_stats) :
  fold_left dynamics_step orders d
  = fold_left (fun d o => upsert (date_stats_step o) (date_stats_init o) (date_of o) d)
      orders d.
Proof.
  revert d. induction orders as [|o orders IH]; intros d; simpl; [done|].
  by rewrite dynamics_step_upsert, IH.
Qed.

Lemma date_stats_fold (F : list Order) (c : Z) (r : Qc) :
  fold_left (fun v o => date_stats_step o v) F {| ds_count := c; ds_revenue := r |}
  = {| ds_count := c + Py.len F;
       ds_revenue := fold_left Qcplus (map total_amount F) r |}.
Proof.
  revert c r. induction F as [|o F IH]; intros c r; simpl.
  - f_equal. unfold Py.len. simpl. lia.
  - unfold date_stats_step at 2. simpl. rewrite IH. f_equal.
    unfold Py.len. simpl length. lia.
Qed.

Lemma mapM_all_Some {A B} (f : A -> option B) (g : A -> B) (l : list A) :
  (forall x, x ∈ l -> f x = Some (g x)) -> mapM f l = Some (map g l).
Proof.
  induction l as [|x l IH]; intros H; [done|].
  simpl. rewrite (H x) by left. simpl.
  rewrite IH by (intros y Hy; apply H; by right). done.
Qed.

Lemma strictly_sorted (l : list string) :
  StronglySorted String.le l -> NoDup l ->
  StronglySorted (fun a b => Py.str_lt a b = true) l.
Proof.
  induction 1 as [|x l Hs IH Hx]; intros Hnd; [constructor|].
  apply NoDup_cons in Hnd as [Hnin Hnd].
  constructor; [by apply IH|].
  apply Forall_forall. intros y Hy. apply str_lt_spec.
  rewrite Forall_forall in Hx. split; [by apply Hx|].
  intros Hyx. assert (x = y) as ->; [|done].
  apply (anti_symm String.le); [by apply Hx | done].
Qed.

Lemma filter_ext_elem_of {A} (P1 P2 : A -> Prop)
    `{!forall x, Decision (P1 x), !forall x, Decision (P2 x)} (l : list A) :
  (forall x, x ∈ l -> P1 x <-> P2 x) -> filter P1 l = filter P2 l.
Proof.
  induction l as [|a l IH]; intros Hext; [done|].
  rewrite !filter_cons.
  rewrite IH by (intros x Hx; apply Hext; by right).
  destruct (decide (P1 a)) as [Ha1|Ha1], (decide (P2 a)) as [Ha2|Ha2]; try done.
  - exfalso. apply Ha2, Hext; [left | done].
  - exfalso. apply Ha1, Hext; [left | done].
Qed.

(** C6: for every list of orders, [get_orders_dynamics] returns a frame (it
    raises no [KeyError]) whose date strings are strictly increasing, whose
    order counts add up to the number of orders, and in which the count and
    the revenue of a date are the number and the summed [total_amount] of
    the orders with that date string; every date of an order has its row
    and no other date has one; and for timestamps within the ranges of
    [datetime], the orders of a date string are the orders of that
    calendar date. *)
Theorem get_orders_dynamics_spec (self : DataAnalyzer.t) :
  exists df,
    get_orders_dynamics self = Some df
    /\ StronglySorted (fun a b => Py.str_lt a b = true) (df_date df)
    /\ Py.sum_int (df_order_count df) = Py.len (orders self)
    /\ df_order_count df
       = map (fun date => Py.len (orders_on date (orders self))) (df_date df)
    /\ df_revenue df
       = map (fun date => Py.sum (map total_amount (orders_on date (orders self))))
           (df_date df)
    /\ (forall date,
          date ∈ df_date df <-> exists o, o ∈ orders self /\ date_of o = date)
    /\ (Forall (fun o => Py.valid_date (order_date o)) (orders self) ->
        forall o, o ∈ orders self ->
          orders_on (date_of o) (orders self)
          = orders_on_calendar_date (Py.calendar_date (order_date o)) (orders self)).
Proof.
  unfold get_orders_dynamics.
  set (D := fold_left dynamics_step (orders self) []).
  assert (HD : D = group_by date_of date_stats_init date_stats_step (orders self)).
  { unfold D, group_by. apply dynamics_fold_group_by. }
  set (sorted_dates := _recursive_date_sort (Py.dict_keys D)).
  assert (Hperm : sorted_dates ≡ₚ Py.dict_keys D)
    by apply recursive_date_sort_Permutation.
  assert (Hnd : NoDup sorted_dates).
  { rewrite Hperm, HD. apply group_by_NoDup. }
  assert (Hkeys : forall date,
            date ∈ sorted_dates <-> exists o, o ∈ orders self /\ date_of o = date).
  { intros date. rewrite Hperm, HD, group_by_keys, list_elem_of_fmap.
    split; intros (o & ? & ?); exists o; done. }
  set (stats := fun date =>
         {| ds_count := Py.len (orders_on date (orders self));
            ds_revenue := Py.sum (map total_amount (orders_on date (orders self))) |}).
  assert (Hget : forall date, date ∈ sorted_dates -> Py.dict_get date D = Some (stats date)).
  { intros date Hin. rewrite HD, group_by_get.
    change (group_of date_of date (orders self)) with (orders_on date (orders self)).
    destruct (orders_on date (orders self)) as [|o0 F] eqn:EF.
    - exfalso. apply Hkeys in Hin as (o & Ho & Hd).
      assert (o ∈ orders_on date (orders self)) as Hin'
        by (by apply list_elem_of_filter).
      rewrite EF in Hin'. by apply elem_of_nil in Hin'.
    - unfold date_stats_init. rewrite date_stats_fold.
      unfold stats. rewrite EF. f_equal. }
  rewrite (mapM_all_Some _ stats) by exact Hget. simpl.
  eexists. split; [reflexivity|]. simpl. rewrite !map_map. simpl.
  split_and!.
  - apply strictly_sorted; [apply recursive_date_sort_sorted | done].
  - apply (sum_int_group_sizes date_of); [done|].
    intros o Ho. apply Hkeys. by exists o.
  - done.
  - done.
  - exact Hkeys.
  - intros Hvalid o Ho. unfold orders_on, orders_on_calendar_date.
    rewrite Forall_forall in Hvalid.
    apply filter_ext_elem_of. intros o' Ho'.
    unfold date_of. apply strftime_Ymd_calendar_date; by apply Hvalid.
Qed.

Lemma get_orders_dynamics_spec_witness :
  Forall (fun o => Py.valid_date (order_date o)) (orders demo_analyzer)
  /\ exists df,
       get_orders_dynamics demo_analyzer = Some df
       /\ Py.sum_int (df_order_count df) = 3
       /\ orders_on (date_of demo_order_1) (orders demo_analyzer)
          = orders_on_calendar_date (2023, 1, 3) (orders demo_analyzer).
Proof.
  assert (Hvalid : Forall (fun o => Py.valid_date (order_date o)) (orders demo_analyzer)).
  { repeat constructor; simpl; lia. }
  split; [exact Hvalid|].
  destruct (get_orders_dynamics_spec demo_analyzer)
    as (df & Hrun & _ & Hsum & _ & _ & _ & Hcal).
  exists df. split_and!; [exact Hrun | exact Hsum |].
  apply (Hcal Hvalid demo_order_1). left.
Defined.

Example demo_scenario_top_clients :
  map (fun r => (name (tc_client r), tc_order_count r))
    (get_top_clients_by_orders demo_analyzer 2)
  = [("A"%string, 2); ("B"%string, 1)].
Proof. vm_compute. reflexivity. Qed.

Example demo_scenario_dynamics :
  (fun df => (df_date df, df_order_count df)) <$> get_orders_dynamics demo_analyzer
  = Some (["2023-01-01"; "2023-01-02"; "2023-01-03"]%string, [1; 1; 1]).
Proof. vm_compute. reflexivity. Qed.



(** ** [get_top_products_by_sales] *)

Lemma num_lt_spec (a b : Qc) : Py.num_lt a b = true <-> (a < b)%Qc.
Proof.
  unfold Py.num_lt, Qclt, Qccompare. rewrite Qlt_alt.
  destruct (this a ?= this b)%Q; split; congruence.
Qed.


Lemma sales_step_upsert (d : Py.dict Z product_row) (item : OrderItem) :
  sales_step d item = upsert (sales_update item) (sales_init item) (product_key item) d.
Proof. unfold sales_step. by rewrite dict_alter_alter. Qed.

Lemma sales_fold_upsert (its : list OrderItem) (d : Py.dict Z product_row) :
  fold_left sales_step its d
  = fold_left (fun d item =>
       upsert (sales_update item) (sales_init item) (product_key item) d) its d.
Proof.
  revert d. induction its as [|item its IH]; intros d; simpl; [done|].
  by rewrite sales_step_upsert, IH.
Qed.

Lemma product_sales_of_group_by (orders : list Order) :
  product_sales_of orders
  = group_by product_key sales_init sales_update (all_items orders).
Proof.
  unfold product_sales_of, group_by, all_items. generalize (@nil (Z * product_row)).
  induction orders as [|o orders IH]; intros d; simpl; [done|].
  rewrite fold_left_app, IH. f_equal. apply sales_fold_upsert.
Qed.

Lemma sales_fold (F : list OrderItem) (p : Product) (c : Z) (r : Qc) :
  fold_left (fun v item => sales_update item v) F
    {| tp_product := p; tp_quantity_sold := c; tp_revenue := r |}
  = {| tp_product := p;
       tp_quantity_sold := fold_left Z.add (map quantity F) c;
       tp_revenue := fold_left Qcplus (map total_price F) r |}.
Proof.
  revert c r. induction F as [|item F IH]; intros c r; simpl; [done|].
  unfold sales_update at 2. simpl. by rewrite IH.
Qed.

Lemma product_sales_of_entry (orders : list Order) (k : Z) (r : product_row) :
  (k, r) ∈ product_sales_of orders ->
  k = product_id (tp_product r) /\ product_row_ok orders r.
Proof.
  intros Hin.
  apply dict_elem_of_get in Hin;
    [|rewrite product_sales_of_group_by; apply group_by_NoDup].
  rewrite product_sales_of_group_by, group_by_get in Hin.
  change (group_of product_key k (all_items orders)) with (items_of k orders) in Hin.
  destruct (items_of k orders) as [|item0 F] eqn:EF; [done|].
  unfold sales_init in Hin. rewrite sales_fold in Hin. injection Hin as <-.
  assert (product_key item0 = k) as Hk.
  { assert (item0 ∈ items_of k orders) as H0 by (rewrite EF; left).
    by apply list_elem_of_filter in H0 as [? _]. }
  unfold product_row_ok. simpl. unfold product_key in Hk.
  rewrite Hk, EF. done.
Qed.

Lemma product_sales_of_keys (orders : list Order) :
  map (fun r => product_id (tp_product r)) (Py.dict_values (product_sales_of orders))
  = Py.dict_keys (product_sales_of orders).
Proof.
  unfold Py.dict_values, Py.dict_keys. rewrite map_map.
  apply map_ext_in. intros [k r] Hin%list_elem_of_In. simpl.
  by apply product_sales_of_entry in Hin as [-> _].
Qed.





(** ** The object store *)

Ltac unfold_M :=
  unfold mbind, M_bind, bind, mret, M_ret, ret, raise, alloc, store,
    get_client, get_product, get_item, get_order, get_list in *.

Lemma fresh_not_allocated (h : heap) (l : loc) (o : obj) :
  h !! l = Some o -> l <> fresh (dom h).
Proof.
  intros Hl ->. apply (is_fresh (dom h)). apply elem_of_dom. by exists o.
Qed.

Lemma lookup_fresh (h : heap) : h !! fresh (dom h) = None.
Proof. apply not_elem_of_dom, is_fresh. Qed.

(** C2: the code at the failing input.  [OrderItem.__init__] assigns
    [quantity] without the check of the setter: constructing an item with
    quantity 0 returns a new item of quantity 0 and raises nothing. *)
Theorem OrderItem_init_accepts_quantity_zero (h : heap) (product : loc) :
  OrderItem.__init__ product 0 h
  = Done (fresh (dom h))
      (<[fresh (dom h) := OItem {| _product := product; _quantity := 0 |}]> h).
Proof. reflexivity. Qed.

Lemma OrderItem_init_quantity_one (h : heap) (product : loc) :
  OrderItem.__init__ product 1 h
  = Done (fresh (dom h))
      (<[fresh (dom h) := OItem {| _product := product; _quantity := 1 |}]> h).
Proof. reflexivity. Qed.

Lemma OrderItem_set_quantity_spec (h : heap) (self : loc) (i : order_item) (value : Z) :
  h !! self = Some (OItem i) ->
  OrderItem.set_quantity self value h
  = if decide (value < 1) then Raised (ValueError QuantityBelowOne) h
    else Done tt (<[self := OItem {| _product := _product i; _quantity := value |}]> h).
Proof.
  intros Hs. unfold OrderItem.set_quantity. unfold_M. rewrite Hs.
  destruct (decide (value < 1)) as [Hlt|Hge].
  - by rewrite (proj2 (Z.ltb_lt _ _) Hlt).
  - by rewrite (proj2 (Z.ltb_ge _ _)) by lia.
Qed.

(** C3: the code at the failing input.  [Product.__init__] assigns [price]
    without the check of the setter: constructing a product with price
    -0.01 returns a new product of that price and raises nothing. *)
Theorem Product_init_accepts_negative_price (h : heap) (name category description : string) :
  Product.__init__ name (Q2Qc (-1 # 100)) category description h
  = Done (fresh (dom h))
      (<[fresh (dom h) :=
           OProduct {| _product_name := name; _price := Q2Qc (-1 # 100);
                       _category := category; _description := description;
                       _product_id := id (fresh (dom h)) |}]> h).
Proof. reflexivity. Qed.

Lemma Product_set_price_spec (h : heap) (self : loc) (p : Store.product) (value : Qc) :
  h !! self = Some (OProduct p) ->
  Product.set_price self value h
  = if decide (value < Q2Qc 0)%Qc then Raised (ValueError NegativePrice) h
    else Done tt
           (<[self := OProduct {| _product_name := _product_name p; _price := value;
                                  _category := _category p;
                                  _description := _description p;
                                  _product_id := _product_id p |}]> h).
Proof.
  intros Hs. unfold Product.set_price. unfold_M. rewrite Hs.
  destruct (decide (value < Q2Qc 0)%Qc) as [Hlt|Hge].
  - by rewrite (proj2 (num_lt_spec _ _) Hlt).
  - destruct (Py.num_lt value (Q2Qc 0)) eqn:E; [|done].
    by apply num_lt_spec in E.
Qed.

(** ** The accessors [orders] and [items] *)

Lemma Client_orders_spec (h : heap) (self : loc) (c : client) (l : list loc) :
  h !! self = Some (OClient c) -> h !! _orders c = Some (OList l) ->
  Client.orders self h = Done (fresh (dom h)) (<[fresh (dom h) := OList l]> h).
Proof. intros Hs Hl. unfold Client.orders. unfold_M. by rewrite Hs, Hl. Qed.

Lemma Order_items_spec (h : heap) (self : loc) (o : order) (l : list loc) :
  h !! self = Some (OOrder o) -> h !! _items o = Some (OList l) ->
  Order.items self h = Done (fresh (dom h)) (<[fresh (dom h) := OList l]> h).
Proof. intros Hs Hl. unfold Order.items. unfold_M. by rewrite Hs, Hl. Qed.

Lemma mutate_list_many_spec (r : loc) (ops : list Program.list_op) (h : heap) (xs : list loc) :
  h !! r = Some (OList xs) ->
  exists xs', Program.mutate_list_many r ops h = Done tt (<[r := OList xs']> h).
Proof.
  revert h xs. induction ops as [|op ops IH]; intros h xs Hr; simpl.
  - exists xs. unfold_M. by rewrite insert_id.
  - unfold Program.mutate_list. unfold_M. rewrite Hr.
    destruct (IH (<[r := OList (Program.apply_list_op op xs)]> h)
                 (Program.apply_list_op op xs)) as [xs' Hxs'].
    { apply lookup_insert_eq. }
    exists xs'. unfold_M. rewrite Hxs'. by rewrite insert_insert_eq.
Qed.

(** What a caller does to the list it has received leaves every object
    that existed before the call as it was. *)
Lemma copy_then_mutate_frame (h : heap) (l : list loc) (ops : list Program.list_op) :
  let copy := fresh (dom h) in
  exists h2,
    Program.mutate_list_many copy ops (<[copy := OList l]> h) = Done tt h2
    /\ forall x, x ∈ dom h -> h2 !! x = h !! x.
Proof.
  intros copy.
  destruct (mutate_list_many_spec copy ops (<[copy := OList l]> h) l) as [xs' Hxs'].
  { apply lookup_insert_eq. }
  eexists. split; [exact Hxs'|].
  intros x Hx. rewrite insert_insert_eq. apply lookup_insert_ne.
  intros <-. by apply (is_fresh (dom h)).
Qed.

(** C10: [Client.orders] and [Order.items] return a new list with the
    content of the stored one, and change no object; whatever the caller
    then does to the returned list (append, remove, pop, clear, insert,
    reverse, any number of times), the entity and its stored list are as
    they were, and so is every object that existed before the call. *)
Theorem accessors_return_a_fresh_copy (h : heap) (ops : list Program.list_op) :
  (forall self c l,
     h !! self = Some (OClient c) -> h !! _orders c = Some (OList l) ->
     exists copy h1 h2,
       Client.orders self h = Done copy h1
       /\ (copy ∉ dom h)
       /\ h1 !! copy = Some (OList l)
       /\ (forall x, x ∈ dom h -> h1 !! x = h !! x)
       /\ Program.mutate_list_many copy ops h1 = Done tt h2
       /\ h2 !! self = Some (OClient c)
       /\ h2 !! _orders c = Some (OList l)
       /\ (forall x, x ∈ dom h -> h2 !! x = h !! x))
  /\
  (forall self o l,
     h !! self = Some (OOrder o) -> h !! _items o = Some (OList l) ->
     exists copy h1 h2,
       Order.items self h = Done copy h1
       /\ (copy ∉ dom h)
       /\ h1 !! copy = Some (OList l)
       /\ (forall x, x ∈ dom h -> h1 !! x = h !! x)
       /\ Program.mutate_list_many copy ops h1 = Done tt h2
       /\ h2 !! self = Some (OOrder o)
       /\ h2 !! _items o = Some (OList l)
       /\ (forall x, x ∈ dom h -> h2 !! x = h !! x)).
Proof.
  split; intros self e l Hs Hl;
    destruct (copy_then_mutate_frame h l ops) as (h2 & Hmut & Hframe);
    exists (fresh (dom h)), (<[fresh (dom h) := OList l]> h), h2.
  - rewrite (Client_orders_spec h self e l Hs Hl). split_and!; try done.
    + apply is_fresh.
    + apply lookup_insert_eq.
    + intros x Hx. apply lookup_insert_ne. intros <-. by apply (is_fresh (dom h)).
    + rewrite Hframe; [done|]. apply elem_of_dom. by eexists.
    + rewrite Hframe; [done|]. apply elem_of_dom. by eexists.
  - rewrite (Order_items_spec h self e l Hs Hl). split_and!; try done.
    + apply is_fresh.
    + apply lookup_insert_eq.
    + intros x Hx. apply lookup_insert_ne. intros <-. by apply (is_fresh (dom h)).
    + rewrite Hframe; [done|]. apply elem_of_dom. by eexists.
    + rewrite Hframe; [done|]. apply elem_of_dom. by eexists.
Qed.

Lemma accessors_return_a_fresh_copy_witness :
  demo_store !! 2%positive = Some (OClient demo_client)
  /\ demo_store !! 1%positive = Some (OList [5%positive])
  /\ exists copy h1 h2,
       Client.orders 2%positive demo_store = Done copy h1
       /\ Program.mutate_list_many copy [Program.Append 9%positive; Program.Remove 5%positive] h1
          = Done tt h2
       /\ h2 !! 1%positive = Some (OList [5%positive]).
Proof.
  assert (Hc : demo_store !! 2%positive = Some (OClient demo_client)) by (vm_compute; reflexivity).
  assert (Hl : demo_store !! _orders demo_client = Some (OList [5%positive])) by (vm_compute; reflexivity).
  split; [exact Hc|]. split; [exact Hl|].
  destruct (proj1 (accessors_return_a_fresh_copy demo_store
                     [Program.Append 9%positive; Program.Remove 5%positive])
              2%positive demo_client [5%positive] Hc Hl)
    as (copy & h1 & h2 & Hrun & _ & _ & _ & Hmut & _ & Hl2 & _).
  exists copy, h1, h2. split_and!; [exact Hrun | exact Hmut | exact Hl2].
Defined.


(** ** The invariants survive every update *)

Lemma item_product_id_insert (h : heap) (r : loc) (x : obj) (item : loc) (pid : Z) :
  (forall old, h !! r = Some old -> same_key old x) ->
  item_product_id h item = Some pid ->
  item_product_id (<[r := x]> h) item = Some pid.
Proof.
  intros Hkey. unfold item_product_id.
  destruct (h !! item) as [[| |i| |]|] eqn:Hi; try done.
  destruct (h !! _product i) as [[|p| | |]|] eqn:Hp; try done.
  intros [= <-].
  destruct (decide (r = item)) as [->|Hne].
  - rewrite lookup_insert_eq. specialize (Hkey _ Hi).
    destruct x as [| |i'| |]; simpl in Hkey; try done.
    rewrite <- Hkey.
    destruct (decide (item = _product i)) as [Heq|Hne'].
    + rewrite <- Heq in Hp. congruence.
    + by rewrite lookup_insert_ne, Hp.
  - rewrite lookup_insert_ne, Hi by done.
    destruct (decide (r = _product i)) as [->|Hne'].
    + rewrite lookup_insert_eq. specialize (Hkey _ Hp).
      destruct x as [|p'| | |]; simpl in Hkey; try done. by rewrite Hkey.
    + by rewrite lookup_insert_ne, Hp.
Qed.

Lemma Forall2_item_product_id_insert (h : heap) (r : loc) (x : obj)
    (the_items : list loc) (pids : list Z) :
  (forall old, h !! r = Some old -> same_key old x) ->
  Forall2 (fun item pid => item_product_id h item = Some pid) the_items pids ->
  Forall2 (fun item pid => item_product_id (<[r := x]> h) item = Some pid)
    the_items pids.
Proof.
  intros Hkey HF. eapply Forall2_impl; [exact HF|].
  intros item pid. by apply item_product_id_insert.
Qed.

(** The one lemma behind every step: the invariants survive the update of
    a cell (or the creation of one) when the new object has its own
    invariant and the lists that are referred to keep theirs. *)
Lemma wf_insert (h : heap) (r : loc) (x : obj) :
  wf h ->
  (forall old, h !! r = Some old -> same_key old x) ->
  (forall c, x = OClient c ->
     client_ok (<[r := x]> h) c
     /\ forall ol o, h !! ol = Some (OOrder o) -> _orders c <> _items o) ->
  (forall o, x = OOrder o ->
     order_ok (<[r := x]> h) o
     /\ forall cl c, h !! cl = Some (OClient c) -> _orders c <> _items o) ->
  (forall xs, x = OList xs ->
     (forall cl c, h !! cl = Some (OClient c) -> _orders c = r ->
        NoDup xs /\ forall y, y ∈ xs -> is_Some (<[r := x]> h !! y))
     /\ (forall ol o, h !! ol = Some (OOrder o) -> _items o = r ->
           exists pids,
             Forall2 (fun item pid => item_product_id (<[r := x]> h) item = Some pid)
               xs pids
             /\ NoDup pids)) ->
  wf (<[r := x]> h).
Proof.
  intros (Hc & Ho & Hsep) Hkey Hxc Hxo Hxl.
  assert (Hold_c : forall cl c, (<[r := x]> h) !! cl = Some (OClient c) ->
            cl <> r -> h !! cl = Some (OClient c)).
  { intros cl c Hl Hne. by rewrite lookup_insert_ne in Hl. }
  assert (Hold_o : forall ol o, (<[r := x]> h) !! ol = Some (OOrder o) ->
            ol <> r -> h !! ol = Some (OOrder o)).
  { intros ol o Hl Hne. by rewrite lookup_insert_ne in Hl. }
  split_and!.
  - intros cl c Hl. destruct (decide (cl = r)) as [->|Hne].
    + rewrite lookup_insert_eq in Hl. injection Hl as ->. by apply Hxc.
    + apply Hold_c in Hl; [|done].
      destruct (Hc _ _ Hl) as (l & Hlst & Hnd & Hcl).
      destruct (decide (_orders c = r)) as [Heq|Hne'].
      * specialize (Hkey _ (eq_ind_r (fun z => h !! z = _) Hlst (eq_sym Heq))).
        destruct x as [| | | |xs]; simpl in Hkey; try done.
        exists xs. split; [by rewrite Heq, lookup_insert_eq|].
        by eapply (proj1 (Hxl xs eq_refl)).
      * exists l. split_and!; [by rewrite lookup_insert_ne|done|].
        intros y Hy. apply lookup_insert_is_Some'. right. by apply Hcl.
  - intros ol o Hl. destruct (decide (ol = r)) as [->|Hne].
    + rewrite lookup_insert_eq in Hl. injection Hl as ->. by apply Hxo.
    + apply Hold_o in Hl; [|done].
      destruct (Ho _ _ Hl) as (its & pids & Hlst & HF & Hnd).
      destruct (decide (_items o = r)) as [Heq|Hne'].
      * specialize (Hkey _ (eq_ind_r (fun z => h !! z = _) Hlst (eq_sym Heq))).
        destruct x as [| | | |xs]; simpl in Hkey; try done.
        destruct (proj2 (Hxl xs eq_refl) _ _ Hl Heq) as (pids' & HF' & Hnd').
        exists xs, pids'. split_and!; [by rewrite Heq, lookup_insert_eq|done..].
      * exists its, pids. split_and!; [by rewrite lookup_insert_ne| |done].
        by apply Forall2_item_product_id_insert.
  - intros cl c ol o Hcl Hol.
    destruct (decide (cl = r)) as [->|Hne].
    + rewrite lookup_insert_eq in Hcl. injection Hcl as ->.
      destruct (decide (ol = r)) as [->|Hne'].
      * by rewrite lookup_insert_eq in Hol.
      * apply (proj2 (Hxc c eq_refl) ol). by apply Hold_o.
    + destruct (decide (ol = r)) as [->|Hne'].
      * rewrite lookup_insert_eq in Hol. injection Hol as ->.
        apply (proj2 (Hxo o eq_refl) cl). by apply Hold_c.
      * eapply Hsep; [by apply Hold_c | by apply Hold_o].
Qed.

Lemma wf_empty : wf ∅.
Proof.
  split_and!.
  - intros cl c Hl. by rewrite lookup_empty in Hl.
  - intros ol o Hl. by rewrite lookup_empty in Hl.
  - intros cl c ol o Hl. by rewrite lookup_empty in Hl.
Qed.

Lemma wf_client_list_allocated (h : heap) (cl : loc) (c : client) :
  wf h -> h !! cl = Some (OClient c) -> _orders c <> fresh (dom h).
Proof.
  intros (Hc & _) Hl. destruct (Hc _ _ Hl) as (l & Hlst & _).
  by eapply fresh_not_allocated.
Qed.

Lemma wf_order_list_allocated (h : heap) (ol : loc) (o : order) :
  wf h -> h !! ol = Some (OOrder o) -> _items o <> fresh (dom h).
Proof.
  intros (_ & Ho & _) Hl. destruct (Ho _ _ Hl) as (l & pids & Hlst & _).
  by eapply fresh_not_allocated.
Qed.

(** A new list, a new product and a new item are referred to by nothing. *)
Lemma wf_alloc_unreferenced (h : heap) (x : obj) :
  wf h ->
  match x with OList _ | OProduct _ | OItem _ => True | _ => False end ->
  wf (<[fresh (dom h) := x]> h).
Proof.
  intros Hwf Hx. apply wf_insert; [done|..].
  - intros old Hold. by rewrite lookup_fresh in Hold.
  - intros c ->. done.
  - intros o ->. done.
  - intros xs ->. split.
    + intros cl c Hcl Heq. by apply (wf_client_list_allocated h cl c) in Heq.
    + intros ol o Hol Heq. by apply (wf_order_list_allocated h ol o) in Heq.
Qed.

Lemma wf_Client_init (h h' : heap) (name email phone address : string) :
  wf h -> after (Client.__init__ name email phone address h) = Some h' -> wf h'.
Proof.
  intros Hwf [= <-].
  set (r1 := fresh (dom h)). set (h1 := <[r1 := OList []]> h).
  assert (Hwf1 : wf h1) by (by apply wf_alloc_unreferenced).
  apply wf_insert; [done|..].
  - intros old Hold. by rewrite lookup_fresh in Hold.
  - intros c [= <-]. simpl. split.
    + exists []. split_and!; [|constructor|by intros x ?%elem_of_nil].
      rewrite lookup_insert_ne; [apply lookup_insert_eq|].
      apply not_eq_sym. eapply fresh_not_allocated. apply lookup_insert_eq.
    + intros ol o Hol Heq.
      assert (ol <> r1) as Hne.
      { intros ->. unfold h1 in Hol. by rewrite lookup_insert_eq in Hol. }
      unfold h1 in Hol. rewrite lookup_insert_ne in Hol by done.
      by apply (wf_order_list_allocated h ol o).
  - intros o [=].
  - intros xs [=].
Qed.

Lemma wf_Product_init (h h' : heap) (name : string) (price : Qc)
    (category description : string) :
  wf h -> after (Product.__init__ name price category description h) = Some h' ->
  wf h'.
Proof. intros Hwf [= <-]. by apply wf_alloc_unreferenced. Qed.

Lemma wf_add_order (h h' : heap) (self order : loc) :
  wf h -> is_Some (h !! order) ->
  after (Client.add_order self order h) = Some h' -> wf h'.
Proof.
  intros Hwf Horder. unfold Client.add_order. unfold_M.
  destruct (h !! self) as [[c| | | |]|] eqn:Hs; try done.
  destruct (h !! _orders c) as [[| | | |l]|] eqn:Hl; try done.
  destruct (bool_decide (order ∈ l)) eqn:Hin; intros [= <-]; [done|].
  apply bool_decide_eq_false in Hin.
  apply wf_insert; [done|..].
  - intros old Hold. rewrite Hl in Hold. by injection Hold as <-.
  - intros c' [=].
  - intros o [=].
  - intros xs [= <-]. destruct Hwf as (Hc & Ho & Hsep). split.
    + intros cl c' Hcl Heq. destruct (Hc _ _ Hcl) as (l' & Hl' & Hnd & Hclosed).
      rewrite Heq, Hl in Hl'. injection Hl' as <-. split.
      * apply NoDup_app. split_and!; [done| |apply NoDup_singleton].
        intros x Hx ->%list_elem_of_singleton. done.
      * intros y Hy. apply lookup_insert_is_Some'. right.
        apply elem_of_app in Hy as [Hy|Hy]; [by apply Hclosed|].
        by apply list_elem_of_singleton in Hy as ->.
    + intros ol o Hol Heq. exfalso. by apply (Hsep self c ol o).
Qed.

Lemma Order_init_unfold (h : heap) (now : Py.datetime) (client : loc)
    (order_date : option Py.datetime) :
  let r1 := fresh (dom h) in
  let h1 := <[r1 := OList []]> h in
  let r2 := fresh (dom h1) in
  let o := {| _client := client; _order_date := default now order_date;
              _items := r1; _order_id := id r2; _status := "Новый" |} in
  Order.__init__ now client order_date h
  = match Client.add_order client r2 (<[r2 := OOrder o]> h1) with
    | Done _ h3 => Done r2 h3
    | Raised e h3 => Raised e h3
    | Stuck => Stuck
    end.
Proof. reflexivity. Qed.

Lemma wf_Order_init (h h' : heap) (now : Py.datetime) (client : loc)
    (order_date : option Py.datetime) :
  wf h -> after (Order.__init__ now client order_date h) = Some h' -> wf h'.
Proof.
  intros Hwf. rewrite Order_init_unfold.
  set (r1 := fresh (dom h)). set (h1 := <[r1 := OList []]> h).
  assert (Hwf1 : wf h1) by (by apply wf_alloc_unreferenced).
  set (r2 := fresh (dom h1)).
  set (o := {| _client := client; _order_date := default now order_date;
               _items := r1; _order_id := id r2; _status := "Новый" |}).
  set (h2 := <[r2 := OOrder o]> h1).
  assert (Hwf2 : wf h2).
  { apply wf_insert; [done|..].
    - intros old Hold. unfold r2 in Hold. by rewrite lookup_fresh in Hold.
    - intros c [=].
    - intros o' [= <-]. split.
      + exists [], []. split_and!; [|constructor..].
        simpl. rewrite lookup_insert_ne; [apply lookup_insert_eq|].
        apply not_eq_sym. eapply fresh_not_allocated. apply lookup_insert_eq.
      + intros cl c Hcl. simpl.
        assert (cl <> r1) as Hne.
        { intros ->. unfold h1 in Hcl. by rewrite lookup_insert_eq in Hcl. }
        unfold h1 in Hcl. rewrite lookup_insert_ne in Hcl by done.
        by apply (wf_client_list_allocated h cl c).
    - intros xs [=]. }
  pose proof (wf_add_order h2) as Hadd.
  assert (Hr2 : is_Some (h2 !! r2)).
  { unfold h2. rewrite lookup_insert_eq. by eexists. }
  destruct (Client.add_order client r2 h2) as [[] h3|e h3|] eqn:E;
    simpl; intros [= <-]; apply (Hadd h3 client r2 Hwf2 Hr2); by rewrite E.
Qed.

Lemma wf_Client_orders (h h' : heap) (self : loc) :
  wf h -> after (Client.orders self h) = Some h' -> wf h'.
Proof.
  intros Hwf. unfold Client.orders. unfold_M.
  destruct (h !! self) as [[c| | | |]|]; try done.
  destruct (h !! _orders c) as [[| | | |l]|]; try done.
  intros [= <-]. by apply wf_alloc_unreferenced.
Qed.

Lemma wf_Order_items (h h' : heap) (self : loc) :
  wf h -> after (Order.items self h) = Some h' -> wf h'.
Proof.
  intros Hwf. unfold Order.items. unfold_M.
  destruct (h !! self) as [[| | |o|]|]; try done.
  destruct (h !! _items o) as [[| | | |l]|]; try done.
  intros [= <-]. by apply wf_alloc_unreferenced.
Qed.

Lemma wf_update_item (h : heap) (self : loc) (i i' : order_item) :
  wf h -> h !! self = Some (OItem i) -> _product i' = _product i ->
  wf (<[self := OItem i']> h).
Proof.
  intros Hwf Hs Hp. apply wf_insert; [done|..].
  - intros old Hold. rewrite Hs in Hold. injection Hold as <-. by simpl.
  - intros c [=].
  - intros o [=].
  - intros xs [=].
Qed.

Lemma wf_set_quantity (h h' : heap) (self : loc) (value : Z) :
  wf h -> after (OrderItem.set_quantity self value h) = Some h' -> wf h'.
Proof.
  intros Hwf. destruct (h !! self) as [[| |i| |]|] eqn:Hs;
    try (unfold OrderItem.set_quantity; unfold_M; by rewrite Hs).
  rewrite (OrderItem_set_quantity_spec h self i value Hs).
  destruct (decide (value < 1)); intros [= <-]; [done|].
  by apply (wf_update_item h self i).
Qed.

Lemma wf_set_price (h h' : heap) (self : loc) (value : Qc) :
  wf h -> after (Product.set_price self value h) = Some h' -> wf h'.
Proof.
  intros Hwf. destruct (h !! self) as [[|p| | |]|] eqn:Hs;
    try (unfold Product.set_price; unfold_M; by rewrite Hs).
  rewrite (Product_set_price_spec h self p value Hs).
  destruct (decide (value < Q2Qc 0)%Qc); intros [= <-]; [done|].
  apply wf_insert; [done|..].
  - intros old Hold. rewrite Hs in Hold. injection Hold as <-. by simpl.
  - intros c [=].
  - intros o [=].
  - intros xs [=].
Qed.

(** ** [Order.add_item] *)

(** The loop of [add_item], read off the product ids of the items: it
    runs to the end when no item is of the product, and otherwise stops
    at the first item of the product and assigns its quantity. *)
Lemma add_item_loop_spec (h : heap) (the_items : list loc) (pids : list Z)
    (product : loc) (p : Store.product) (quantity : Z) :
  h !! product = Some (OProduct p) ->
  Forall2 (fun item pid => item_product_id h item = Some pid) the_items pids ->
  ((_product_id p ∉ pids)
   /\ Order.add_item_loop the_items product quantity h = Done false h)
  \/ (exists item i,
        item ∈ the_items
        /\ h !! item = Some (OItem i)
        /\ item_product_id h item = Some (_product_id p)
        /\ Order.add_item_loop the_items product quantity h
           = if decide (_quantity i + quantity < 1)
             then Raised (ValueError QuantityBelowOne) h
             else Done true
                    (<[item := OItem {| _product := _product i;
                                        _quantity := _quantity i + quantity |}]> h)).
Proof.
  intros Hp. induction 1 as [|item pid its pids Hpid HF IH].
  - left. split; [apply not_elem_of_nil | done].
  - pose proof Hpid as Hpid'. unfold item_product_id in Hpid'.
    destruct (h !! item) as [[| |i| |]|] eqn:Hi; try done.
    destruct (h !! _product i) as [[|ip| | |]|] eqn:Hip; try done.
    injection Hpid' as <-.
    destruct (decide (_product_id ip = _product_id p)) as [Heq|Hne].
    + right. exists item, i. split_and!; [left|done|by rewrite Hpid, Heq|].
      simpl. unfold OrderItem.quantity. unfold_M. rewrite Hi, Hip, Hp.
      rewrite decide_True by done. rewrite Hi.
      fold (OrderItem.set_quantity item (_quantity i + quantity) h).
      rewrite (OrderItem_set_quantity_spec h item i _ Hi).
      by destruct (decide (_quantity i + quantity < 1)).
    + assert (Hstep : Order.add_item_loop (item :: its) product quantity h
                      = Order.add_item_loop its product quantity h).
      { simpl. unfold_M. rewrite Hi, Hip, Hp. by rewrite decide_False. }
      rewrite Hstep.
      destruct IH as [[Hnin Hrun]|(item' & i' & Hin & Hi' & Hpid' & Hrun)].
      * left. split; [|done]. apply not_elem_of_cons. split; [congruence|done].
      * right. exists item', i'. split_and!; [by right|done..].
Qed.

(** [add_item] on an order whose items have the product ids [pids]. *)
Lemma Order_add_item_spec (h : heap) (self : loc) (o : order)
    (the_items : list loc) (pids : list Z)
    (product : loc) (p : Store.product) (quantity : Z) :
  h !! self = Some (OOrder o) ->
  h !! _items o = Some (OList the_items) ->
  h !! product = Some (OProduct p) ->
  Forall2 (fun item pid => item_product_id h item = Some pid) the_items pids ->
  ((_product_id p ∉ pids)
   /\ Order.add_item self product quantity h
      = Done tt
          (<[_items o := OList (the_items ++ [fresh (dom h)])]>
             (<[fresh (dom h) := OItem {| _product := product;
                                          _quantity := quantity |}]> h)))
  \/ (exists item i,
        item ∈ the_items
        /\ h !! item = Some (OItem i)
        /\ item_product_id h item = Some (_product_id p)
        /\ Order.add_item self product quantity h
           = if decide (_quantity i + quantity < 1)
             then Raised (ValueError QuantityBelowOne) h
             else Done tt
                    (<[item := OItem {| _product := _product i;
                                        _quantity := _quantity i + quantity |}]> h)).
Proof.
  intros Hs Hl Hp HF.
  assert (Hunfold : Order.add_item self product quantity h
            = match Order.add_item_loop the_items product quantity h with
              | Done true h' => Done tt h'
              | Done false h' =>
                  Done tt
                    (<[_items o := OList (the_items ++ [fresh (dom h')])]>
                       (<[fresh (dom h') := OItem {| _product := product;
                                                     _quantity := quantity |}]> h'))
              | Raised e h' => Raised e h'
              | Stuck => Stuck
              end).
  { unfold Order.add_item, OrderItem.__init__. unfold_M. rewrite Hs, Hl.
    by destruct (Order.add_item_loop the_items product quantity h) as [[] ?| |]. }
  rewrite Hunfold.
  destruct (add_item_loop_spec h the_items pids product p quantity Hp HF)
    as [[Hnin Hrun]|(item & i & Hin & Hi & Hpid & Hrun)]; rewrite Hrun.
  - by left.
  - right. exists item, i. split_and!; [done..|].
    by destruct (decide (_quantity i + quantity < 1)).
Qed.

Lemma wf_add_item (h h' : heap) (self product : loc) (p : Store.product) (quantity : Z) :
  wf h -> h !! product = Some (OProduct p) ->
  after (Order.add_item self product quantity h) = Some h' -> wf h'.
Proof.
  intros Hwf Hp.
  destruct (h !! self) as [[| | |o|]|] eqn:Hs;
    try (unfold Order.add_item; unfold_M; by rewrite Hs).
  destruct Hwf as (Hc & Ho & Hsep).
  destruct (Ho _ _ Hs) as (its & pids & Hl & HF & Hnd).
  assert (Hwf : wf h) by done.
  destruct (Order_add_item_spec h self o its pids product p quantity Hs Hl Hp HF)
    as [[Hnin Hrun]|(item & i & Hin & Hi & Hpid & Hrun)]; rewrite Hrun.
  - intros [= <-].
    set (r := fresh (dom h)).
    set (h1 := <[r := OItem {| _product := product; _quantity := quantity |}]> h).
    assert (Hwf1 : wf h1) by (by apply wf_alloc_unreferenced).
    assert (Hr_items : _items o <> r) by (by eapply fresh_not_allocated).
    assert (Hr_product : product <> r) by (by eapply fresh_not_allocated).
    assert (Hl1 : h1 !! _items o = Some (OList its)).
    { unfold h1. by rewrite lookup_insert_ne. }
    apply wf_insert; [done|..].
    + intros old Hold. rewrite Hl1 in Hold. by injection Hold as <-.
    + intros c [=].
    + intros o' [=].
    + intros xs [= <-]. split.
      * intros cl c Hcl Heq. exfalso.
        assert (cl <> r) as Hne.
        { intros ->. unfold h1 in Hcl. by rewrite lookup_insert_eq in Hcl. }
        unfold h1 in Hcl. rewrite lookup_insert_ne in Hcl by done.
        by apply (Hsep cl c self o).
      * intros ol o' Hol Heq. exists (pids ++ [_product_id p]). split.
        -- apply Forall2_app.
           ++ apply Forall2_item_product_id_insert.
              { intros old Hold. rewrite Hl1 in Hold. by injection Hold as <-. }
              apply Forall2_item_product_id_insert; [|done].
              intros old Hold. fold r in Hold. unfold r in Hold.
              by rewrite lookup_fresh in Hold.
           ++ constructor; [|constructor]. unfold item_product_id.
              rewrite lookup_insert_ne by done. unfold h1.
              rewrite lookup_insert_eq. simpl.
              rewrite lookup_insert_ne by (intros Heq'; rewrite Heq' in Hl; congruence).
              rewrite lookup_insert_ne by done. by rewrite Hp.
        -- apply NoDup_app. split_and!; [done| |apply NoDup_singleton].
           intros x Hx ->%list_elem_of_singleton. done.
  - destruct (decide (_quantity i + quantity < 1)); intros [= <-]; [done|].
    by apply (wf_update_item h item i).
Qed.

(** ** [Order.remove_item] *)

Lemma remove_item_loop_spec (h : heap) (the_items : list loc) (pids : list Z)
    (product : loc) (p : Store.product) :
  h !! product = Some (OProduct p) ->
  Forall2 (fun item pid => item_product_id h item = Some pid) the_items pids ->
  exists kept pids',
    Order.remove_item_loop the_items product h = Done kept h
    /\ Forall2 (fun item pid => item_product_id h item = Some pid) kept pids'
    /\ sublist pids' pids
    /\ kept = filter (fun item => item_product_id h item <> Some (_product_id p))
                the_items.
Proof.
  intros Hp. induction 1 as [|item pid its pids Hpid HF IH].
  - exists [], []. split_and!; [done|constructor|done|done].
  - destruct IH as (kept & pids' & Hrun & HF' & Hsub & Hkept).
    pose proof Hpid as Hpid'. unfold item_product_id in Hpid'.
    destruct (h !! item) as [[| |i| |]|] eqn:Hi; try done.
    destruct (h !! _product i) as [[|ip| | |]|] eqn:Hip; try done.
    injection Hpid' as <-.
    assert (Hstep : Order.remove_item_loop (item :: its) product h
              = if decide (_product_id ip <> _product_id p)
                then Done (item :: kept) h else Done kept h).
    { simpl. unfold_M. rewrite Hi, Hip, Hp, Hrun.
      by destruct (decide (_product_id ip <> _product_id p)). }
    rewrite Hstep, filter_cons, Hpid.
    destruct (decide (_product_id ip <> _product_id p)) as [Hne|Heq].
    + exists (item :: kept), (_product_id ip :: pids').
      rewrite decide_True by congruence.
      split_and!; [done|by constructor|by constructor|by rewrite Hkept].
    + exists kept, pids'.
      rewrite decide_False by (intros Hn; apply Heq; congruence).
      split_and!; [done|done|by constructor|done].
Qed.

Lemma wf_remove_item (h h' : heap) (self product : loc) (p : Store.product) :
  wf h -> h !! product = Some (OProduct p) ->
  after (Order.remove_item self product h) = Some h' -> wf h'.
Proof.
  intros Hwf Hp.
  destruct (h !! self) as [[| | |o|]|] eqn:Hs;
    try (unfold Order.remove_item; unfold_M; by rewrite Hs).
  pose proof Hwf as (Hc & Ho & Hsep).
  destruct (Ho _ _ Hs) as (its & pids & Hl & HF & Hnd).
  destruct (remove_item_loop_spec h its pids product p Hp HF)
    as (kept & pids' & Hrun & HF' & Hsub & _).
  unfold Order.remove_item. unfold_M. rewrite Hs, Hl, Hrun.
  intros [= <-].
  set (r := fresh (dom h)). set (h1 := <[r := OList kept]> h).
  assert (Hwf1 : wf h1) by (by apply wf_alloc_unreferenced).
  assert (Hself : self <> r) by (by eapply fresh_not_allocated).
  apply wf_insert; [done|..].
  - intros old Hold. unfold h1 in Hold. rewrite lookup_insert_ne in Hold by done.
    rewrite Hs in Hold. by injection Hold as <-.
  - intros c [=].
  - intros o' [= <-]. simpl. split.
    + exists kept, pids'. simpl. split_and!.
      * rewrite lookup_insert_ne by done. apply lookup_insert_eq.
      * apply Forall2_item_product_id_insert.
        { intros old Hold. unfold h1 in Hold.
          rewrite lookup_insert_ne in Hold by done.
          rewrite Hs in Hold. by injection Hold as <-. }
        apply Forall2_item_product_id_insert; [|done].
        intros old Hold. unfold r in Hold. by rewrite lookup_fresh in Hold.
      * by eapply sublist_NoDup.
    + intros cl c Hcl.
      assert (cl <> r) as Hne.
      { intros ->. unfold h1 in Hcl. by rewrite lookup_insert_eq in Hcl. }
      unfold h1 in Hcl. rewrite lookup_insert_ne in Hcl by done.
      by apply (wf_client_list_allocated h cl c).
  - intros xs [=].
Qed.

(** ** Programs keep the invariants *)

Lemma after_then_ret {A} (m : M A) (h : heap) :
  after ((m ≫= fun _ => mret tt) h) = after (m h).
Proof. unfold_M. by destruct (m h). Qed.

Lemma wf_exec (now : Py.datetime) (c : Program.call) (h h' : heap) :
  wf h -> after (Program.exec now c h) = Some h' -> wf h'.
Proof.
  intros Hwf.
  destruct c as [nm em ph ad | nm pr ca de | cl od | cl ord | cl | pd v | it v
                 | ord | ord pd q | ord pd]; unfold Program.exec.
  - rewrite after_then_ret. by apply wf_Client_init.
  - rewrite after_then_ret. by apply wf_Product_init.
  - unfold mbind at 1, M_bind at 1, bind at 1, get_client.
    destruct (h !! cl) as [[]|]; try done.
    rewrite after_then_ret. by apply wf_Order_init.
  - unfold mbind at 1, M_bind at 1, bind at 1, get_client.
    destruct (h !! cl) as [[]|]; try done.
    unfold mbind at 1, M_bind at 1, bind at 1, get_order.
    destruct (h !! ord) as [[]|] eqn:Hord; try done.
    apply wf_add_order; [done|]. by rewrite Hord.
  - rewrite after_then_ret. by apply wf_Client_orders.
  - by apply wf_set_price.
  - by apply wf_set_quantity.
  - rewrite after_then_ret. by apply wf_Order_items.
  - unfold mbind at 1, M_bind at 1, bind at 1, get_order.
    destruct (h !! ord) as [[]|]; try done.
    unfold mbind at 1, M_bind at 1, bind at 1, get_product.
    destruct (h !! pd) as [[|p| | |]|] eqn:Hp; try done.
    by apply (wf_add_item h h' ord pd p).
  - unfold mbind at 1, M_bind at 1, bind at 1, get_order.
    destruct (h !! ord) as [[]|]; try done.
    unfold mbind at 1, M_bind at 1, bind at 1, get_product.
    destruct (h !! pd) as [[|p| | |]|] eqn:Hp; try done.
    by apply (wf_remove_item h h' ord pd p).
Qed.

Lemma wf_run (now : Py.datetime) (calls : list Program.call) (h h' : heap) :
  wf h -> Program.run now calls h = Some h' -> wf h'.
Proof.
  revert h. induction calls as [|c calls IH]; intros h Hwf; simpl.
  - by intros [= <-].
  - pose proof (wf_exec now c h) as Hstep.
    destruct (Program.exec now c h) as [[] h1|e h1|]; [| |done];
      intros Hrun; apply (IH h1); try done; by apply Hstep.
Qed.

(** ** The store of the worked example *)

Lemma demo_store_run : Program.run demo_now demo_calls ∅ = Some demo_store.
Proof. vm_compute. reflexivity. Qed.

Lemma demo_store_wf : wf demo_store.
Proof. eapply wf_run; [apply wf_empty | apply demo_store_run]. Qed.

Lemma demo_store_client : demo_store !! 2%positive = Some (OClient demo_client).
Proof. vm_compute. reflexivity. Qed.

Lemma demo_store_order : demo_store !! 5%positive = Some (OOrder demo_order).
Proof. vm_compute. reflexivity. Qed.

Lemma demo_store_product : demo_store !! 3%positive = Some (OProduct demo_product).
Proof. vm_compute. reflexivity. Qed.

(** ** [Client.add_order] and [Order.__init__] *)

Lemma Client_add_order_spec (h : heap) (self order : loc) (c : client) (l : list loc) :
  h !! self = Some (OClient c) -> h !! _orders c = Some (OList l) ->
  Client.add_order self order h
  = if decide (order ∈ l) then Done tt h
    else Done tt (<[_orders c := OList (l ++ [order])]> h).
Proof.
  intros Hs Hl. unfold Client.add_order. unfold_M. rewrite Hs, Hl.
  destruct (decide (order ∈ l)) as [Hin|Hnin].
  - by rewrite bool_decide_eq_true_2.
  - by rewrite bool_decide_eq_false_2.
Qed.

Lemma Order_init_spec (h : heap) (now : Py.datetime) (client : loc)
    (order_date : option Py.datetime) (c : Store.client) (l : list loc) :
  h !! client = Some (OClient c) -> h !! _orders c = Some (OList l) ->
  (forall x, x ∈ l -> is_Some (h !! x)) ->
  exists self the_items h',
    Order.__init__ now client order_date h = Done self h'
    /\ h !! self = None
    /\ h' !! self
       = Some (OOrder {| _client := client;
                         _order_date := default now order_date;
                         _items := the_items; _order_id := id self;
                         _status := "Новый" |})
    /\ h' !! the_items = Some (OList [])
    /\ h' !! client = Some (OClient c)
    /\ h' !! _orders c = Some (OList (l ++ [self])).
Proof.
  intros Hc Hl Hclosed. rewrite Order_init_unfold.
  set (r1 := fresh (dom h)). set (h1 := <[r1 := OList []]> h).
  set (r2 := fresh (dom h1)).
  set (o := {| _client := client; _order_date := default now order_date;
               _items := r1; _order_id := id r2; _status := "Новый" |}).
  set (h2 := <[r2 := OOrder o]> h1).
  assert (Hr1 : h !! r1 = None) by apply lookup_fresh.
  assert (Hr2 : h1 !! r2 = None) by apply lookup_fresh.
  assert (Hr12 : r1 <> r2).
  { intros Heq. rewrite <- Heq in Hr2. unfold h1 in Hr2.
    by rewrite lookup_insert_eq in Hr2. }
  assert (Hr2h : h !! r2 = None).
  { unfold h1 in Hr2. by rewrite lookup_insert_ne in Hr2. }
  assert (Hframe : forall x v, h !! x = Some v -> h2 !! x = Some v).
  { intros x v Hx. unfold h2, h1.
    rewrite !lookup_insert_ne by congruence. done. }
  rewrite (Client_add_order_spec h2 client r2 c l) by (by apply Hframe).
  rewrite decide_False.
  2:{ intros Hin. apply Hclosed in Hin as [v Hv]. congruence. }
  exists r2, r1. eexists. split; [reflexivity|]. split_and!.
  - done.
  - rewrite lookup_insert_ne by (intros Heq; rewrite Heq in Hl; congruence).
    apply lookup_insert_eq.
  - rewrite lookup_insert_ne by (intros Heq; rewrite Heq in Hl; congruence).
    unfold h2, h1. rewrite lookup_insert_ne by done. apply lookup_insert_eq.
  - rewrite lookup_insert_ne by (intros Heq; rewrite <- Heq in Hc; congruence).
    by apply Hframe.
  - apply lookup_insert_eq.
Qed.

(** C9: constructing an [Order] for a client creates the order and appends
    it to the client's order list; [add_order] with an order that is in the
    list leaves the store as it was, and with one that is not, appends it;
    and after every sequence of calls from the empty store the order list
    of every client holds no order twice. *)
Theorem client_order_list_has_no_duplicates (now : Py.datetime) :
  (forall h client order_date c,
     wf h -> h !! client = Some (OClient c) ->
     exists l self the_items h',
       h !! _orders c = Some (OList l)
       /\ Order.__init__ now client order_date h = Done self h'
       /\ h !! self = None
       /\ h' !! self
          = Some (OOrder {| _client := client;
                            _order_date := default now order_date;
                            _items := the_items; _order_id := id self;
                            _status := "Новый" |})
       /\ h' !! _orders c = Some (OList (l ++ [self]))
       /\ wf h')
  /\ (forall h client order c l,
        h !! client = Some (OClient c) -> h !! _orders c = Some (OList l) ->
        order ∈ l ->
        Client.add_order client order h = Done tt h)
  /\ (forall h client order c l,
        h !! client = Some (OClient c) -> h !! _orders c = Some (OList l) ->
        order ∉ l ->
        Client.add_order client order h
        = Done tt (<[_orders c := OList (l ++ [order])]> h))
  /\ (forall calls h client c,
        Program.run now calls ∅ = Some h ->
        h !! client = Some (OClient c) ->
        exists l, h !! _orders c = Some (OList l) /\ NoDup l).
Proof.
  split_and!.
  - intros h client order_date c Hwf Hc.
    destruct (proj1 Hwf _ _ Hc) as (l & Hl & Hnd & Hclosed).
    destruct (Order_init_spec h now client order_date c l Hc Hl Hclosed)
      as (self & its & h' & Hrun & Hfresh & Hself & _ & _ & Hl').
    exists l, self, its, h'. split_and!; try done.
    apply (wf_Order_init h h' now client order_date Hwf). by rewrite Hrun.
  - intros h client order c l Hc Hl Hin.
    rewrite (Client_add_order_spec h client order c l Hc Hl).
    by rewrite decide_True.
  - intros h client order c l Hc Hl Hnin.
    rewrite (Client_add_order_spec h client order c l Hc Hl).
    by rewrite decide_False.
  - intros calls h client c Hrun Hc.
    assert (Hwf : wf h) by (eapply wf_run; [apply wf_empty | exact Hrun]).
    destruct (proj1 Hwf _ _ Hc) as (l & Hl & Hnd & _). by exists l.
Qed.

Lemma client_order_list_has_no_duplicates_witness :
  Program.run demo_now demo_calls ∅ = Some demo_store
  /\ demo_store !! 2%positive = Some (OClient demo_client)
  /\ (exists l, demo_store !! _orders demo_client = Some (OList l) /\ NoDup l)
  /\ wf demo_store
  /\ exists l self h',
       demo_store !! _orders demo_client = Some (OList l)
       /\ Order.__init__ demo_now 2%positive None demo_store = Done self h'
       /\ h' !! _orders demo_client = Some (OList (l ++ [self])).
Proof.
  assert (Hrun : Program.run demo_now demo_calls ∅ = Some demo_store) by (vm_compute; reflexivity).
  assert (Hc : demo_store !! 2%positive = Some (OClient demo_client)) by (vm_compute; reflexivity).
  assert (Hwf : wf demo_store) by exact demo_store_wf.
  split; [exact Hrun|]. split; [exact Hc|]. split.
  { exact (proj2 (proj2 (proj2 (client_order_list_has_no_duplicates demo_now)))
             demo_calls demo_store 2%positive demo_client Hrun Hc). }
  split; [exact Hwf|].
  destruct (proj1 (client_order_list_has_no_duplicates demo_now)
              demo_store 2%positive None demo_client Hwf Hc)
    as (l & self & the_items & h' & Hl & Hinit & _ & _ & Hl' & _).
  exists l, self, h'. split_and!; [exact Hl | exact Hinit | exact Hl'].
Defined.


(** C8: after every sequence of calls from the empty store, every order
    holds at most one item per product id.  And in a store with the
    invariants, [add_item] on an order and a product either finds no item
    of the product and appends exactly one new item of it, or finds the
    item of the product and adds the given amount to its quantity, the
    list of items unchanged, unless the resulting quantity is below 1, in
    which case it raises [ValueError] and changes nothing; the invariants
    hold again afterwards. *)
Theorem order_has_one_item_per_product (now : Py.datetime) :
  (forall calls h ol o,
     Program.run now calls ∅ = Some h -> h !! ol = Some (OOrder o) ->
     order_ok h o)
  /\ (forall h self product quantity o p,
        wf h -> h !! self = Some (OOrder o) -> h !! product = Some (OProduct p) ->
        exists the_items pids,
          h !! _items o = Some (OList the_items)
          /\ Forall2 (fun item pid => item_product_id h item = Some pid)
               the_items pids
          /\ NoDup pids
          /\ (((_product_id p ∉ pids)
               /\ exists item h',
                    Order.add_item self product quantity h = Done tt h'
                    /\ h !! item = None
                    /\ h' !! item = Some (OItem {| _product := product;
                                                   _quantity := quantity |})
                    /\ h' !! _items o = Some (OList (the_items ++ [item]))
                    /\ wf h')
              \/ (exists item i,
                    item ∈ the_items
                    /\ h !! item = Some (OItem i)
                    /\ item_product_id h item = Some (_product_id p)
                    /\ ((_quantity i + quantity < 1
                         /\ Order.add_item self product quantity h
                            = Raised (ValueError QuantityBelowOne) h)
                        \/ (1 <= _quantity i + quantity
                            /\ exists h',
                                 Order.add_item self product quantity h = Done tt h'
                                 /\ h' !! item
                                    = Some (OItem {| _product := _product i;
                                                     _quantity := _quantity i + quantity |})
                                 /\ h' !! _items o = Some (OList the_items)
                                 /\ wf h'))))).
Proof.
  split.
  - intros calls h ol o Hrun Hol.
    assert (Hwf : wf h) by (eapply wf_run; [apply wf_empty | exact Hrun]).
    by apply (proj1 (proj2 Hwf) ol).
  - intros h self product quantity o p Hwf Hs Hp.
    destruct (proj1 (proj2 Hwf) _ _ Hs) as (its & pids & Hl & HF & Hnd).
    exists its, pids. split_and!; [done..|].
    pose proof (wf_add_item h) as Hpres.
    destruct (Order_add_item_spec h self o its pids product p quantity Hs Hl Hp HF)
      as [[Hnin Hrun]|(item & i & Hin & Hi & Hpid & Hrun)].
    + left. split; [done|].
      assert (Hne : _items o <> fresh (dom h)) by (by eapply fresh_not_allocated).
      eexists _, _. split_and!; [exact Hrun|apply lookup_fresh| | |].
      * rewrite lookup_insert_ne by done. apply lookup_insert_eq.
      * apply lookup_insert_eq.
      * apply (Hpres _ self product p quantity Hwf Hp). by rewrite Hrun.
    + right. exists item, i. split_and!; [done..|].
      destruct (decide (_quantity i + quantity < 1)) as [Hlt|Hge].
      * left. done.
      * right. split; [lia|]. eexists. split_and!; [exact Hrun| | |].
        -- apply lookup_insert_eq.
        -- rewrite lookup_insert_ne by (intros Heq; rewrite Heq in Hi; congruence).
           done.
        -- apply (Hpres _ self product p quantity Hwf Hp). by rewrite Hrun.
Qed.

Lemma order_has_one_item_per_product_witness :
  Program.run demo_now demo_calls ∅ = Some demo_store
  /\ demo_store !! 5%positive = Some (OOrder demo_order)
  /\ order_ok demo_store demo_order
  /\ wf demo_store
  /\ demo_store !! 3%positive = Some (OProduct demo_product)
  /\ exists the_items pids,
       demo_store !! _items demo_order = Some (OList the_items)
       /\ Forall2 (fun item pid => item_product_id demo_store item = Some pid)
            the_items pids
       /\ NoDup pids.
Proof.
  assert (Hrun : Program.run demo_now demo_calls ∅ = Some demo_store) by (vm_compute; reflexivity).
  assert (Ho : demo_store !! 5%positive = Some (OOrder demo_order)) by (vm_compute; reflexivity).
  assert (Hwf : wf demo_store) by exact demo_store_wf.
  assert (Hp : demo_store !! 3%positive = Some (OProduct demo_product))
    by exact demo_store_product.
  split; [exact Hrun|]. split; [exact Ho|]. split.
  { exact (proj1 (order_has_one_item_per_product demo_now)
             demo_calls demo_store 5%positive demo_order Hrun Ho). }
  split; [exact Hwf|]. split; [exact Hp|].
  destruct (proj2 (order_has_one_item_per_product demo_now)
              demo_store 5%positive 3%positive 2 demo_order demo_product Hwf Ho Hp)
    as (the_items & pids & Hl & HF & Hnd & _).
  exists the_items, pids. split_and!; [exact Hl | exact HF | exact Hnd].
Defined.

(* ===================================================================== *)
(** * Part III: further properties                                        *)
(* ===================================================================== *)

(** ** Slices *)

Lemma slice_to_negative {A} (xs : list A) (n : Z) :
  n < 0 -> Py.slice_to xs n = take (length xs - Z.to_nat (- n)) xs.
Proof.
  intros Hn. unfold Py.slice_to, Py.len.
  rewrite (proj2 (Z.leb_gt 0 n)) by lia. f_equal. lia.
Qed.

Lemma slice_to_all {A} (xs : list A) (n : Z) :
  Py.len xs <= n -> Py.slice_to xs n = xs.
Proof.
  intros Hn. unfold Py.len in Hn. rewrite slice_to_take by lia.
  apply take_ge. lia.
Qed.

(** ** Sums of amounts *)

Lemma fold_left_Qcplus_shift (l : list Qc) (a : Qc) :
  fold_left Qcplus l a = (a + fold_left Qcplus l (Q2Qc 0))%Qc.
Proof.
  revert a. induction l as [|b l IH]; intros a; simpl.
  - by rewrite Qcplus_0_r.
  - rewrite (IH (a + b)%Qc), (IH (Q2Qc 0 + b)%Qc).
    rewrite Qcplus_0_l. by rewrite Qcplus_assoc.
Qed.

Lemma sum_cons (a : Qc) (l : list Qc) : Py.sum (a :: l) = (a + Py.sum l)%Qc.
Proof.
  unfold Py.sum. simpl. rewrite fold_left_Qcplus_shift.
  by rewrite Qcplus_0_l.
Qed.

Lemma sum_nil : Py.sum [] = Q2Qc 0.
Proof. reflexivity. Qed.

Lemma sum_app (l1 l2 : list Qc) : Py.sum (l1 ++ l2) = (Py.sum l1 + Py.sum l2)%Qc.
Proof.
  induction l1 as [|a l1 IH]; simpl.
  - by rewrite sum_nil, Qcplus_0_l.
  - by rewrite !sum_cons, IH, Qcplus_assoc.
Qed.

Lemma sum_Permutation (l1 l2 : list Qc) : l1 ≡ₚ l2 -> Py.sum l1 = Py.sum l2.
Proof.
  induction 1 as [|x l1 l2 _ IH|x y l|l1 l2 l3 _ IH1 _ IH2].
  - done.
  - by rewrite !sum_cons, IH.
  - rewrite !sum_cons, !Qcplus_assoc. f_equal. apply Qcplus_comm.
  - by rewrite IH1.
Qed.

Lemma sum_int_app (l1 l2 : list Z) :
  Py.sum_int (l1 ++ l2) = Py.sum_int l1 + Py.sum_int l2.
Proof.
  induction l1 as [|a l1 IH]; simpl; [done|].
  rewrite !sum_int_cons, IH. lia.
Qed.

Lemma sum_int_Permutation (l1 l2 : list Z) :
  l1 ≡ₚ l2 -> Py.sum_int l1 = Py.sum_int l2.
Proof.
  induction 1 as [|x l1 l2 _ IH|x y l|l1 l2 l3 _ IH1 _ IH2].
  - done.
  - by rewrite !sum_int_cons, IH.
  - rewrite !sum_int_cons. lia.
  - by rewrite IH1.
Qed.

(** The groups of a list partition it: the sums over the groups add up to
    the sum over the list. *)
Lemma sum_groups {K X} `{EqDecision K} (kf : X -> K) (f : X -> Qc)
    (ks : list K) (xs : list X) :
  NoDup ks -> (forall x, x ∈ xs -> kf x ∈ ks) ->
  Py.sum (map (fun k => Py.sum (map f (group_of kf k xs))) ks) = Py.sum (map f xs).
Proof.
  intros Hnd. induction xs as [|x xs IH]; intros Hks.
  - unfold group_of. simpl. clear. induction ks as [|k ks IH]; [done|].
    cbn [map]. by rewrite sum_cons, IH, sum_nil, Qcplus_0_l.
  - assert (Hx : kf x ∈ ks) by (apply Hks; left).
    assert (Hxs : forall y, y ∈ xs -> kf y ∈ ks) by (intros y Hy; apply Hks; by right).
    specialize (IH Hxs). cbn [map]. rewrite sum_cons, <- IH.
    clear IH Hks Hxs. induction Hnd as [|k ks Hnin Hnd IHks].
    + by apply elem_of_nil in Hx.
    + cbn [map]. rewrite !sum_cons. unfold group_of at 1. rewrite filter_cons.
      destruct (decide (kf x = k)) as [Hk|Hk].
      * cbn [map]. rewrite sum_cons. fold (group_of kf k xs).
        rewrite <- !Qcplus_assoc. f_equal. f_equal.
        apply (f_equal Py.sum). apply map_ext_in. intros k' Hk'%list_elem_of_In.
        unfold group_of. rewrite filter_cons.
        rewrite decide_False; [done|]. intros Heq. apply Hnin. congruence.
      * fold (group_of kf k xs). rewrite IHks.
        -- rewrite !Qcplus_assoc. f_equal. apply Qcplus_comm.
        -- apply elem_of_cons in Hx as [Hx|Hx]; [congruence|done].
Qed.

Lemma sum_int_groups {K X} `{EqDecision K} (kf : X -> K) (f : X -> Z)
    (ks : list K) (xs : list X) :
  NoDup ks -> (forall x, x ∈ xs -> kf x ∈ ks) ->
  Py.sum_int (map (fun k => Py.sum_int (map f (group_of kf k xs))) ks)
  = Py.sum_int (map f xs).
Proof.
  intros Hnd. induction xs as [|x xs IH]; intros Hks.
  - unfold group_of. simpl. clear. induction ks as [|k ks IH]; [done|].
    cbn [map]. by rewrite sum_int_cons, IH.
  - assert (Hx : kf x ∈ ks) by (apply Hks; left).
    assert (Hxs : forall y, y ∈ xs -> kf y ∈ ks) by (intros y Hy; apply Hks; by right).
    specialize (IH Hxs). cbn [map]. rewrite sum_int_cons, <- IH.
    clear IH Hks Hxs. induction Hnd as [|k ks Hnin Hnd IHks].
    + by apply elem_of_nil in Hx.
    + cbn [map]. rewrite !sum_int_cons. unfold group_of at 1. rewrite filter_cons.
      destruct (decide (kf x = k)) as [Hk|Hk].
      * cbn [map]. rewrite sum_int_cons. fold (group_of kf k xs).
        assert (map (fun k0 => Py.sum_int (map f (group_of kf k0 (x :: xs)))) ks
                = map (fun k0 => Py.sum_int (map f (group_of kf k0 xs))) ks) as ->; [|lia].
        apply map_ext_in. intros k' Hk'%list_elem_of_In.
        unfold group_of. rewrite filter_cons.
        rewrite decide_False; [done|]. intros Heq. apply Hnin. congruence.
      * fold (group_of kf k xs). rewrite IHks; [lia|].
        apply elem_of_cons in Hx as [Hx|Hx]; [congruence|done].
Qed.

Lemma sum_concat (ls : list (list Qc)) :
  Py.sum (concat ls) = Py.sum (map Py.sum ls).
Proof.
  induction ls as [|l ls IH]; simpl; [done|].
  by rewrite sum_app, sum_cons, IH.
Qed.

(** ** The frame of [get_orders_dynamics], written out *)

Lemma get_orders_dynamics_eq (self : DataAnalyzer.t) :
  let sorted_dates :=
    _recursive_date_sort
      (Py.dict_keys (group_by date_of date_stats_init date_stats_step (orders self))) in
  get_orders_dynamics self
  = Some {| df_date := sorted_dates;
            df_order_count :=
              map (fun date => Py.len (orders_on date (orders self))) sorted_dates;
            df_revenue :=
              map (fun date => Py.sum (map total_amount (orders_on date (orders self))))
                sorted_dates |}.
Proof.
  intros sorted_dates. unfold get_orders_dynamics.
  assert (HD : fold_left dynamics_step (orders self) []
               = group_by date_of date_stats_init date_stats_step (orders self)).
  { unfold group_by. apply dynamics_fold_group_by. }
  rewrite HD. fold sorted_dates.
  set (stats := fun date =>
         {| ds_count := Py.len (orders_on date (orders self));
            ds_revenue := Py.sum (map total_amount (orders_on date (orders self))) |}).
  rewrite (mapM_all_Some _ stats).
  - simpl. by rewrite !map_map.
  - intros date Hin. unfold sorted_dates in Hin.
    rewrite recursive_date_sort_Permutation in Hin.
    rewrite group_by_get.
    change (group_of date_of date (orders self)) with (orders_on date (orders self)).
    destruct (orders_on date (orders self)) as [|o0 F] eqn:EF.
    + exfalso. apply group_by_keys, list_elem_of_fmap in Hin as (o & Hd & Ho).
      assert (o ∈ orders_on date (orders self)) as Hin'
        by (by apply list_elem_of_filter).
      rewrite EF in Hin'. by apply elem_of_nil in Hin'.
    + unfold date_stats_init. rewrite date_stats_fold.
      unfold stats. rewrite EF. f_equal.
Qed.

Lemma total_price_all_items (orders : list Order) :
  Py.sum (map total_price (all_items orders)) = Py.sum (map total_amount orders).
Proof.
  unfold all_items. induction orders as [|o orders IH]; simpl; [done|].
  by rewrite map_app, sum_app, sum_cons, IH.
Qed.

Lemma dict_alter_length {K V} `{EqDecision K} (f : V -> V) (k : K) (d : Py.dict K V) :
  length (Py.dict_alter f k d) = length d.
Proof.
  induction d as [|[k0 v0] d IH]; simpl; [done|].
  destruct (decide (k = k0)); simpl; [done|]. by rewrite IH.
Qed.

Lemma dict_set_length {K V} `{EqDecision K} (k : K) (v : V) (d : Py.dict K V) :
  (length (Py.dict_set k v d) <= S (length d))%nat.
Proof.
  induction d as [|[k0 v0] d IH]; simpl; [lia|].
  destruct (decide (k = k0)); simpl; lia.
Qed.

Lemma group_by_length {K V X} `{EqDecision K} (kf : X -> K) (init : X -> V)
    (step : X -> V -> V) (xs : list X) :
  (length (group_by kf init step xs) <= length xs)%nat.
Proof.
  unfold group_by. induction xs as [|x xs IH] using rev_ind; [done|].
  rewrite fold_left_app, length_app. cbn [fold_left length].
  match goal with
  | |- context [fold_left ?f xs []] => set (d := fold_left f xs []) in *
  end.
  unfold upsert. rewrite dict_alter_length.
  destruct (Py.dict_in (kf x) d).
  - lia.
  - etrans; [apply dict_set_length|]. lia.
Qed.

Lemma product_rows_by_key (orders : list Order) (f : product_row -> Qc) (g : Z -> Qc) :
  (forall k r, (k, r) ∈ product_sales_of orders -> f r = g k) ->
  map f (Py.dict_values (product_sales_of orders))
  = map g (Py.dict_keys (product_sales_of orders)).
Proof.
  intros H. unfold Py.dict_values, Py.dict_keys. rewrite !map_map.
  apply map_ext_in. intros [k r] Hin%list_elem_of_In. simpl. by apply H.
Qed.

Lemma product_rows_by_key_int (orders : list Order) (f : product_row -> Z) (g : Z -> Z) :
  (forall k r, (k, r) ∈ product_sales_of orders -> f r = g k) ->
  map f (Py.dict_values (product_sales_of orders))
  = map g (Py.dict_keys (product_sales_of orders)).
Proof.
  intros H. unfold Py.dict_values, Py.dict_keys. rewrite !map_map.
  apply map_ext_in. intros [k r] Hin%list_elem_of_In. simpl. by apply H.
Qed.

(** The whole ranking of the products, when [top_n] leaves nothing out. *)
Lemma get_top_products_by_sales_all (self : DataAnalyzer.t) (top_n : Z) :
  Py.len (all_items (orders self)) <= top_n ->
  get_top_products_by_sales self top_n
  = Py.sorted_reverse Py.num_lt tp_revenue
      (Py.dict_values (product_sales_of (orders self))).
Proof.
  intros Hn. unfold get_top_products_by_sales. apply slice_to_all.
  etrans; [|exact Hn]. unfold Py.len. apply inj_le.
  rewrite (Permutation_length (sorted_reverse_Permutation _ _ _)).
  unfold Py.dict_values. rewrite length_map, product_sales_of_group_by.
  apply group_by_length.
Qed.

(** X1: the revenues of the dates add up to the total revenue of the
    sales report. *)
Theorem dynamics_revenue_adds_up (self : DataAnalyzer.t) :
  exists df r,
    get_orders_dynamics self = Some df
    /\ generate_sales_report self = Py.Value r
    /\ Py.sum (df_revenue df) = total_revenue r.
Proof.
  eexists. eexists. split; [apply get_orders_dynamics_eq|].
  split; [apply generate_sales_report_returns|]. simpl.
  rewrite (sum_Permutation _
    (map (fun date => Py.sum (map total_amount (orders_on date (orders self))))
       (Py.dict_keys (group_by date_of date_stats_init date_stats_step (orders self))))).
  - apply (sum_groups date_of total_amount).
    + apply group_by_NoDup.
    + intros o Ho. apply group_by_keys, list_elem_of_fmap. by exists o.
  - apply Permutation_map, recursive_date_sort_Permutation.
Qed.

(** X2: when [top_n] covers every product sold, the revenues of the
    product records add up to the total revenue of the sales report and
    their quantities to the quantity of all the items. *)
Theorem product_sales_add_up (self : DataAnalyzer.t) (top_n : Z) :
  Py.len (all_items (orders self)) <= top_n ->
  exists r,
    generate_sales_report self = Py.Value r
    /\ Py.sum (map tp_revenue (get_top_products_by_sales self top_n))
       = total_revenue r
    /\ Py.sum_int (map tp_quantity_sold (get_top_products_by_sales self top_n))
       = Py.sum_int (map quantity (all_items (orders self))).
Proof.
  intros Hn. eexists. split; [apply generate_sales_report_returns|].
  cbn [total_revenue]. rewrite get_top_products_by_sales_all by done.
  set (D := product_sales_of (orders self)).
  assert (Hperm : Py.sorted_reverse Py.num_lt tp_revenue (Py.dict_values D)
                  ≡ₚ Py.dict_values D) by apply sorted_reverse_Permutation.
  assert (Hnd : NoDup (Py.dict_keys D)).
  { unfold D. rewrite product_sales_of_group_by. apply group_by_NoDup. }
  assert (Hcover : forall item, item ∈ all_items (orders self) ->
                     product_key item ∈ Py.dict_keys D).
  { intros item Hitem. unfold D. rewrite product_sales_of_group_by.
    apply group_by_keys, list_elem_of_fmap. by exists item. }
  split.
  - rewrite (sum_Permutation _ (map tp_revenue (Py.dict_values D)))
      by (by apply Permutation_map).
    unfold D. rewrite (product_rows_by_key _ _
      (fun k => Py.sum (map total_price (items_of k (orders self))))).
    + simpl. rewrite <- total_price_all_items.
      by apply (sum_groups product_key total_price).
    + intros k r Hin. apply product_sales_of_entry in Hin as [-> (_ & _ & Hrev)].
      exact Hrev.
  - rewrite (sum_int_Permutation _ (map tp_quantity_sold (Py.dict_values D)))
      by (by apply Permutation_map).
    unfold D. rewrite (product_rows_by_key_int _ _
      (fun k => Py.sum_int (map quantity (items_of k (orders self))))).
    + by apply (sum_int_groups product_key quantity).
    + intros k r Hin. apply product_sales_of_entry in Hin as [-> (_ & Hq & _)].
      exact Hq.
Qed.

Lemma product_sales_add_up_witness :
  Py.len (all_items (orders demo_analyzer)) <= 5
  /\ exists r,
       generate_sales_report demo_analyzer = Py.Value r
       /\ Py.sum (map tp_revenue (get_top_products_by_sales demo_analyzer 5))
          = total_revenue r.
Proof.
  assert (H : Py.len (all_items (orders demo_analyzer)) <= 5)
    by (vm_compute; discriminate).
  split; [exact H|].
  destruct (product_sales_add_up demo_analyzer 5 H) as (r & Hr & Hrev & _).
  exists r. split; [exact Hr | exact Hrev].
Defined.

(** ** The keys of a grouping loop, in order *)

Lemma first_occurrences_elem_of {K} `{EqDecision K} (k : K) (ks : list K) :
  k ∈ first_occurrences ks <-> k ∈ ks.
Proof.
  induction ks as [|a ks IH]; simpl; [done|].
  rewrite !elem_of_cons, list_elem_of_filter, IH.
  destruct (decide (k = a)) as [->|Hne]; [by split; left|].
  split; [intros [?|[_ ?]]; [done | by right] | intros [?|?]; [done | by right]].
Qed.

Lemma first_occurrences_snoc {K} `{EqDecision K} (ks : list K) (k : K) :
  first_occurrences (ks ++ [k])
  = first_occurrences ks ++ (if decide (k ∈ ks) then [] else [k]).
Proof.
  induction ks as [|a ks IH].
  - cbn [app first_occurrences].
    destruct (decide (k ∈ [])) as [Hin|_]; [by apply elem_of_nil in Hin | done].
  - cbn [app first_occurrences]. rewrite IH, filter_app. f_equal. f_equal.
    destruct (decide (k ∈ ks)) as [Hin|Hnin].
    + destruct (decide (k ∈ a :: ks)) as [_|Hn]; [done|].
      exfalso. apply Hn. by right.
    + destruct (decide (k = a)) as [->|Hne].
      * destruct (decide (a ∈ a :: ks)) as [_|Hn]; [|exfalso; apply Hn; left].
        rewrite filter_cons.
        destruct (decide (a <> a)) as [Hn|_]; [by exfalso; apply Hn | done].
      * destruct (decide (k ∈ a :: ks)) as [Hin|_].
        -- apply elem_of_cons in Hin as [?|?]; done.
        -- rewrite filter_cons. by rewrite decide_True.
Qed.

Lemma group_by_keys_in_order {K V X} `{EqDecision K} (kf : X -> K)
    (init : X -> V) (step : X -> V -> V) (xs : list X) :
  Py.dict_keys (group_by kf init step xs) = first_occurrences (map kf xs).
Proof.
  unfold group_by. induction xs as [|x xs IH] using rev_ind; [done|].
  rewrite fold_left_app, map_app. cbn [fold_left map].
  rewrite first_occurrences_snoc, <- IH.
  match goal with
  | |- context [fold_left ?f xs []] => set (d := fold_left f xs []) in *
  end.
  unfold upsert. rewrite dict_keys_alter.
  destruct (Py.dict_in (kf x) d) eqn:E.
  - apply dict_in_spec in E. rewrite IH in E.
    rewrite first_occurrences_elem_of in E.
    rewrite decide_True by done. by rewrite app_nil_r.
  - assert (kf x ∉ Py.dict_keys d) as Hnin.
    { intros Hin. apply dict_in_spec in Hin. congruence. }
    rewrite dict_keys_set_new by done.
    rewrite decide_False; [done|].
    intros Hin. apply Hnin. rewrite IH. by apply first_occurrences_elem_of.
Qed.

Lemma filter_fmap_commute {A B} (f : A -> B) (P : B -> Prop)
    `{!forall b, Decision (P b)} (l : list A) :
  map f (filter (fun a => P (f a)) l) = filter P (map f l).
Proof.
  induction l as [|a l IH]; [done|].
  cbn [map]. rewrite !filter_cons. destruct (decide (P (f a))); simpl; by rewrite IH.
Qed.

(** X3: when [top_n] covers every product sold, the records of one revenue
    stand in the ranking in the order in which their products were first
    met in the scan of the orders. *)
Theorem product_ties_keep_order_of_first_sale (self : DataAnalyzer.t)
    (top_n : Z) (revenue : Qc) :
  Py.len (all_items (orders self)) <= top_n ->
  map (fun r => product_id (tp_product r))
    (filter (fun r => tp_revenue r = revenue) (get_top_products_by_sales self top_n))
  = filter (fun pid => Py.sum (map total_price (items_of pid (orders self))) = revenue)
      (first_occurrences (map product_key (all_items (orders self)))).
Proof.
  intros Hn. rewrite get_top_products_by_sales_all by done.
  rewrite (sorted_reverse_stable Py.num_lt tp_revenue).
  2:{ intros a. destruct (Py.num_lt a a) eqn:E; [|done].
      apply num_lt_spec in E. by apply Qclt_not_eq in E. }
  rewrite <- group_by_keys_in_order with (init := sales_init) (step := sales_update).
  rewrite <- product_sales_of_group_by, <- product_sales_of_keys.
  rewrite <- (filter_fmap_commute (fun r => product_id (tp_product r))
    (fun pid => Py.sum (map total_price (items_of pid (orders self))) = revenue)).
  f_equal. apply filter_ext_elem_of. intros r Hr.
  apply list_elem_of_fmap in Hr as ([k r'] & -> & Hin). simpl.
  apply product_sales_of_entry in Hin as [_ (_ & _ & Hrev)].
  by rewrite Hrev.
Qed.

Lemma product_ties_keep_order_of_first_sale_witness :
  Py.len (all_items (orders demo_analyzer)) <= 5
  /\ map (fun r => product_id (tp_product r))
       (filter (fun r => tp_revenue r = Q2Qc 100)
          (get_top_products_by_sales demo_analyzer 5))
     = filter (fun pid =>
                 Py.sum (map total_price (items_of pid (orders demo_analyzer)))
                 = Q2Qc 100)
         (first_occurrences (map product_key (all_items (orders demo_analyzer)))).
Proof.
  assert (H : Py.len (all_items (orders demo_analyzer)) <= 5)
    by (vm_compute; discriminate).
  split; [exact H|].
  exact (product_ties_keep_order_of_first_sale demo_analyzer 5 (Q2Qc 100) H).
Defined.

(** X4: [top_n = 0] gives no record; a [top_n] of at least the number of
    clients gives the whole ranking, which holds the record of every
    client; a negative [top_n] drops that many records from the end of
    the ranking. *)
Theorem get_top_clients_by_orders_bounds (self : DataAnalyzer.t) :
  let ranking := get_top_clients_by_orders self (Py.len (clients self)) in
  get_top_clients_by_orders self 0 = []
  /\ ranking ≡ₚ map client_row_of (clients self)
  /\ (forall top_n, Py.len (clients self) <= top_n ->
        get_top_clients_by_orders self top_n = ranking)
  /\ (forall top_n, top_n < 0 ->
        get_top_clients_by_orders self top_n
        = take (length (clients self) - Z.to_nat (- top_n)) ranking).
Proof.
  intros ranking.
  set (full := Py.sorted_reverse Z.ltb tc_order_count (map client_row_of (clients self))).
  assert (Hlen : length full = length (clients self)).
  { unfold full. rewrite (Permutation_length (sorted_reverse_Permutation _ _ _)).
    apply length_map. }
  assert (Hall : forall top_n, Py.len (clients self) <= top_n ->
            get_top_clients_by_orders self top_n = full).
  { intros top_n Hn. unfold get_top_clients_by_orders. apply slice_to_all.
    unfold Py.len in *. fold full. lia. }
  assert (Hranking : ranking = full) by (apply Hall; lia).
  split_and!.
  - done.
  - rewrite Hranking. apply sorted_reverse_Permutation.
  - intros top_n Hn. by rewrite Hranking, Hall.
  - intros top_n Hn. rewrite Hranking. unfold get_top_clients_by_orders.
    fold full. rewrite slice_to_negative by done. by rewrite Hlen.
Qed.

Lemma get_top_clients_by_orders_bounds_witness :
  Py.len (clients demo_analyzer) <= 5
  /\ get_top_clients_by_orders demo_analyzer 5
     = get_top_clients_by_orders demo_analyzer (Py.len (clients demo_analyzer)).
Proof.
  assert (H : Py.len (clients demo_analyzer) <= 5) by (vm_compute; discriminate).
  split; [exact H|].
  exact (proj1 (proj2 (proj2 (get_top_clients_by_orders_bounds demo_analyzer))) 5 H).
Defined.

(** X5: sorting dates twice is sorting them once, a sorted list of dates is
    returned as it is, and no date is lost or added. *)
Theorem recursive_date_sort_idempotent (dates : list string) :
  _recursive_date_sort (_recursive_date_sort dates) = _recursive_date_sort dates
  /\ (StronglySorted String.le dates -> _recursive_date_sort dates = dates)
  /\ length (_recursive_date_sort dates) = length dates.
Proof.
  split_and!.
  - apply (StronglySorted_unique String.le).
    + apply recursive_date_sort_sorted.
    + apply recursive_date_sort_sorted.
    + apply recursive_date_sort_Permutation.
  - intros Hs. apply (StronglySorted_unique String.le).
    + apply recursive_date_sort_sorted.
    + done.
    + apply recursive_date_sort_Permutation.
  - apply Permutation_length, recursive_date_sort_Permutation.
Qed.

Lemma recursive_date_sort_idempotent_witness :
  StronglySorted String.le ["2023-01-01"; "2023-01-02"]%string
  /\ _recursive_date_sort ["2023-01-01"; "2023-01-02"]%string
     = ["2023-01-01"; "2023-01-02"]%string.
Proof.
  assert (H : StronglySorted String.le ["2023-01-01"; "2023-01-02"]%string).
  { repeat constructor. }
  split; [exact H|].
  exact (proj1 (proj2 (recursive_date_sort_idempotent _)) H).
Defined.

(** ** The clients and the orders of one analyzer *)

Lemma sum_int_lengths {A} (ls : list (list A)) :
  Py.sum_int (map Py.len ls) = Py.len (concat ls).
Proof.
  induction ls as [|l ls IH]; [done|].
  cbn [map concat]. rewrite sum_int_cons, IH. unfold Py.len.
  rewrite length_app. lia.
Qed.

(** X6: when the orders given to the analyzer are those of its clients,
    each once, and [top_n] covers every client, the [total_spent] of the
    client records add up to the total revenue of the sales report, and
    their [order_count] to its number of orders. *)
Theorem client_spending_adds_up (self : DataAnalyzer.t) (top_n : Z) :
  orders self ≡ₚ concat (map View.orders (clients self)) ->
  Py.len (clients self) <= top_n ->
  exists r,
    generate_sales_report self = Py.Value r
    /\ Py.sum (map tc_total_spent (get_top_clients_by_orders self top_n))
       = total_revenue r
    /\ Py.sum_int (map tc_order_count (get_top_clients_by_orders self top_n))
       = total_orders r.
Proof.
  intros Hsame Hn. eexists. split; [apply generate_sales_report_returns|].
  assert (Hall : get_top_clients_by_orders self top_n
                 ≡ₚ map client_row_of (clients self)).
  { unfold get_top_clients_by_orders. rewrite slice_to_all.
    - apply sorted_reverse_Permutation.
    - unfold Py.len in *.
      rewrite (Permutation_length (sorted_reverse_Permutation _ _ _)), length_map.
      exact Hn. }
  split.
  - rewrite (sum_Permutation _ _ (Permutation_map tc_total_spent Hall)).
    cbn [total_revenue].
    rewrite (sum_Permutation _ _ (Permutation_map total_amount Hsame)).
    rewrite map_map. cbn [client_row_of tc_total_spent].
    unfold get_total_spent.
    rewrite <- (map_map View.orders (fun os => Py.sum (map total_amount os))).
    rewrite <- (map_map (map total_amount) Py.sum), <- sum_concat.
    by rewrite concat_map.
  - rewrite (sum_int_Permutation _ _ (Permutation_map tc_order_count Hall)).
    cbn [total_orders].
    rewrite map_map. cbn [client_row_of tc_order_count].
    rewrite <- (map_map View.orders Py.len), sum_int_lengths.
    unfold Py.len. by rewrite (Permutation_length Hsame).
Qed.

Lemma client_spending_adds_up_witness :
  orders demo_analyzer ≡ₚ concat (map View.orders (clients demo_analyzer))
  /\ Py.len (clients demo_analyzer) <= 5
  /\ exists r,
       generate_sales_report demo_analyzer = Py.Value r
       /\ Py.sum (map tc_total_spent (get_top_clients_by_orders demo_analyzer 5))
          = total_revenue r.
Proof.
  assert (H1 : orders demo_analyzer
               ≡ₚ concat (map View.orders (clients demo_analyzer))) by reflexivity.
  assert (H2 : Py.len (clients demo_analyzer) <= 5) by (vm_compute; discriminate).
  split; [exact H1|]. split; [exact H2|].
  destruct (client_spending_adds_up demo_analyzer 5 H1 H2) as (r & Hr & Hrev & _).
  exists r. split; [exact Hr | exact Hrev].
Defined.

(** ** [create_clients_network] *)

Lemma products_bought_spec (client : Client) (pid : Z) :
  pid ∈ products_bought client
  <-> exists order item,
        order ∈ View.orders client /\ item ∈ items order
        /\ product_id (product item) = pid.
Proof.
  unfold products_bought.
  assert (Hinner : forall its (s : gset Z),
    pid ∈ fold_left (fun s item => s ∪ {[ product_id (product item) ]}) its s
    <-> pid ∈ s \/ exists item, item ∈ its /\ product_id (product item) = pid).
  { induction its as [|item its IH]; intros s; simpl.
    - split; [by left | intros [?|(? & ?%elem_of_nil & _)]; done].
    - rewrite IH, elem_of_union, elem_of_singleton. split.
      + intros [[?|?]|(i & ? & ?)]; [by left| |].
        * right. exists item. split; [left | done].
        * right. exists i. split; [by right | done].
      + intros [?|(i & [->|?]%elem_of_cons & ?)].
        * by left; left.
        * by left; right.
        * right. by exists i. }
  assert (Houter : forall os (s : gset Z),
    pid ∈ fold_left
            (fun s order =>
               fold_left (fun s item => s ∪ {[ product_id (product item) ]})
                 (items order) s) os s
    <-> pid ∈ s \/ exists order item,
          order ∈ os /\ item ∈ items order /\ product_id (product item) = pid).
  { induction os as [|o os IH]; intros s; simpl.
    - split; [by left | intros [?|(? & ? & ?%elem_of_nil & _)]; done].
    - rewrite IH, Hinner. split.
      + intros [[?|(i & ? & ?)]|(o' & i & ? & ? & ?)]; [by left| |].
        * right. exists o, i. split_and!; [left | done..].
        * right. exists o', i. split_and!; [by right | done..].
      + intros [?|(o' & i & [->|?]%elem_of_cons & ? & ?)].
        * by left; left.
        * left; right. by exists i.
        * right. by exists o', i. }
  rewrite Houter. split; [intros [?%elem_of_empty|?]; done | by right].
Qed.

(** With distinct client ids, no entry of a dictionary of the clients is
    assigned twice. *)
Lemma dict_set_fold_distinct {V} (f : Client -> V) (clients : list Client)
    (d : Py.dict Z V) :
  NoDup (Py.dict_keys d ++ map client_id clients) ->
  fold_left (fun d client => Py.dict_set (client_id client) (f client) d) clients d
  = d ++ map (fun client => (client_id client, f client)) clients.
Proof.
  revert d. induction clients as [|c clients IH]; intros d Hnd; simpl.
  - by rewrite app_nil_r.
  - assert (Hset : Py.dict_set (client_id c) (f c) d = d ++ [(client_id c, f c)]).
    { assert (Hnin : client_id c ∉ Py.dict_keys d).
      { apply NoDup_app in Hnd as (_ & Hdisj & _). intros Hin.
        apply (Hdisj _ Hin). left. }
      clear -Hnin. induction d as [|[k v] d IHd]; simpl; [done|].
      simpl in Hnin. apply not_elem_of_cons in Hnin as [Hne Hnin].
      rewrite decide_False by done. by rewrite IHd. }
    rewrite Hset, IH.
    + by rewrite <- app_assoc.
    + unfold Py.dict_keys in *. rewrite map_app. simpl.
      rewrite <- app_assoc. exact Hnd.
Qed.

Lemma client_products_of_distinct (clients : list Client) :
  NoDup (map client_id clients) ->
  client_products_of clients
  = map (fun client => (client_id client, products_bought client)) clients.
Proof. intros Hnd. unfold client_products_of. by rewrite dict_set_fold_distinct. Qed.

Lemma nodes_of_distinct (clients : list Client) :
  NoDup (map client_id clients) ->
  nodes_of clients
  = map (fun client => (client_id client, (name client, Py.len (View.orders client))))
      clients.
Proof. intros Hnd. unfold nodes_of. by rewrite dict_set_fold_distinct. Qed.

Lemma products_at_client (clients : list Client) (client : Client) :
  NoDup (map client_id clients) -> client ∈ clients ->
  products_at (client_products_of clients) (client_id client)
  = products_bought client.
Proof.
  intros Hnd Hin. unfold products_at.
  rewrite (dict_elem_of_get (client_id client) (products_bought client)); [done| |].
  - rewrite client_products_of_distinct by done.
    unfold Py.dict_keys. rewrite map_map. exact Hnd.
  - rewrite client_products_of_distinct by done.
    apply list_elem_of_fmap. by exists client.
Qed.

Lemma edges_from_clients (cp : Py.dict Z (gset Z)) (clients : list Client) :
  (forall client, client ∈ clients ->
     products_at cp (client_id client) = products_bought client) ->
  edges_from cp (map client_id clients) = client_edges clients.
Proof.
  induction clients as [|a rest IH]; intros Hcp; [done|].
  cbn [map edges_from client_edges]. f_equal.
  - assert (Ha : products_at cp (client_id a) = products_bought a) by (apply Hcp; left).
    assert (Hrest : forall b, b ∈ rest -> products_at cp (client_id b) = products_bought b)
      by (intros b Hb; apply Hcp; by right).
    clear IH Hcp. induction rest as [|b rest IH]; [done|].
    cbn [map flat_map]. f_equal.
    + unfold edge_between, client_edge. rewrite Ha, (Hrest b) by left. done.
    + apply IH. intros b' Hb'. apply Hrest. by right.
  - apply IH. intros b Hb. apply Hcp. by right.
Qed.

Lemma client_edges_elem_of (clients : list Client) (e : Z * Z * Z) :
  e ∈ client_edges clients
  <-> exists a b, sublist [a; b] clients /\ e ∈ client_edge a b.
Proof.
  induction clients as [|c rest IH].
  - simpl. split; [by intros ?%elem_of_nil|].
    intros (a & b & Hsub & _). by apply sublist_nil_r in Hsub.
  - cbn [client_edges]. rewrite elem_of_app, IH. split.
    + intros [Hin|(a & b & Hsub & He)].
      * apply list_elem_of_In, in_flat_map in Hin as (b & Hb%list_elem_of_In & He%list_elem_of_In).
        exists c, b. split; [|done]. apply sublist_skip.
        by apply singleton_sublist_l.
      * exists a, b. split; [by apply sublist_cons | done].
    + intros (a & b & Hsub & He).
      apply sublist_cons_r in Hsub as [Hsub|(l' & Heq & Hsub)].
      * right. by exists a, b.
      * injection Heq as -> <-. left.
        apply list_elem_of_In, in_flat_map. exists b.
        split; apply list_elem_of_In; [|done].
        by apply singleton_sublist_l.
Qed.

Lemma client_edge_elem_of (a b : Client) (u v w : Z) :
  (u, v, w) ∈ client_edge a b
  <-> u = client_id a /\ v = client_id b
      /\ products_bought a ∩ products_bought b <> ∅
      /\ w = Z.of_nat (size (products_bought a ∩ products_bought b)).
Proof.
  unfold client_edge.
  destruct (decide (products_bought a ∩ products_bought b = ∅)) as [He|Hne].
  - split; [by intros ?%elem_of_nil | by intros (_ & _ & ? & _)].
  - rewrite list_elem_of_singleton. split.
    + by intros [= -> -> ->].
    + by intros (-> & -> & _ & ->).
Qed.

Lemma sublist_pair_ids (clients : list Client) (a b : Client) :
  sublist [a; b] clients -> sublist [client_id a; client_id b] (map client_id clients).
Proof. intros Hsub. by apply (fmap_sublist client_id) in Hsub. Qed.

Lemma sublist_pair_swap {A} (l : list A) (x y : A) :
  NoDup l -> sublist [x; y] l -> sublist [y; x] l -> False.
Proof.
  induction 1 as [|c l Hnin Hnd IH]; intros H1 H2.
  - by apply sublist_nil_r in H1.
  - apply sublist_cons_r in H1 as [H1|(l1 & Heq1 & H1)];
      apply sublist_cons_r in H2 as [H2|(l2 & Heq2 & H2)].
    + by apply IH.
    + injection Heq2 as -> <-. apply Hnin.
      eapply elem_of_sublist; [|exact H1]. set_solver.
    + injection Heq1 as -> <-. apply Hnin.
      eapply elem_of_sublist; [|exact H2]. set_solver.
    + injection Heq1 as -> <-. injection Heq2 as -> _.
      apply Hnin. eapply elem_of_sublist; [|exact H1]. set_solver.
Qed.

Lemma client_edges_pairs_NoDup (clients : list Client) :
  NoDup (map client_id clients) ->
  NoDup (map (fun e : Z * Z * Z => (e.1.1, e.1.2)) (client_edges clients)).
Proof.
  induction clients as [|c rest IH]; intros Hnd; [constructor|].
  cbn [map] in Hnd. apply NoDup_cons in Hnd as [Hnin Hnd].
  cbn [client_edges]. rewrite map_app. apply NoDup_app. split_and!.
  - clear IH Hnin. induction rest as [|b rest IHr]; [constructor|].
    cbn [map] in Hnd. apply NoDup_cons in Hnd as [Hb Hnd].
    cbn [flat_map]. rewrite map_app. apply NoDup_app. split_and!.
    + unfold client_edge. destruct (decide _); [constructor|].
      apply NoDup_singleton.
    + intros [u v] Hin1 Hin2.
      apply list_elem_of_fmap in Hin1 as ([[u1 v1] w1] & [= -> ->] & Hin1).
      apply client_edge_elem_of in Hin1 as (_ & -> & _).
      apply list_elem_of_fmap in Hin2 as ([[u2 v2] w2] & [= -> Hv] & Hin2).
      apply list_elem_of_In, in_flat_map in Hin2 as (b' & Hb'%list_elem_of_In & He%list_elem_of_In).
      apply client_edge_elem_of in He as (_ & -> & _).
      apply Hb. rewrite Hv. apply list_elem_of_fmap. by exists b'.
    + by apply IHr.
  - intros [u v] Hin1 Hin2.
    apply list_elem_of_fmap in Hin1 as ([[u1 v1] w1] & [= -> ->] & Hin1).
    apply list_elem_of_In, in_flat_map in Hin1 as (b' & Hb'%list_elem_of_In & He%list_elem_of_In).
    apply client_edge_elem_of in He as (-> & _).
    apply list_elem_of_fmap in Hin2 as ([[u2 v2] w2] & [= Hu Hv] & Hin2).
    apply client_edges_elem_of in Hin2 as (a & b & Hsub & He).
    apply client_edge_elem_of in He as (-> & _).
    apply Hnin. rewrite Hu. apply list_elem_of_fmap. exists a. split; [done|].
    eapply elem_of_sublist; [|exact Hsub]. left.
  - by apply IH.
Qed.

(** X7: the graph of clients with distinct ids.  Its nodes are the clients
    in their order, labelled with the name and the number of orders.  Its
    edges join exactly the pairs of clients (the earlier one first) that
    have bought a common product, each once, and the weight of an edge is
    the number of distinct products that the two have in common; the
    products that a client has bought are those of the items of its
    orders. *)
Theorem create_clients_network_spec (self : DataAnalyzer.t) :
  NoDup (map client_id (clients self)) ->
  let G := create_clients_network self in
  nodes G
  = map (fun client => (client_id client, (name client, Py.len (View.orders client))))
      (clients self)
  /\ (forall u v w,
        (u, v, w) ∈ edges G
        <-> exists a b,
              sublist [a; b] (clients self)
              /\ u = client_id a /\ v = client_id b
              /\ products_bought a ∩ products_bought b <> ∅
              /\ w = Z.of_nat (size (products_bought a ∩ products_bought b)))
  /\ NoDup (map (fun e => (e.1.1, e.1.2)) (edges G))
  /\ (forall u v w, (u, v, w) ∈ edges G -> u <> v /\ 1 <= w
                    /\ forall w', (v, u, w') ∉ edges G)
  /\ (forall client pid,
        pid ∈ products_bought client
        <-> exists order item,
              order ∈ View.orders client /\ item ∈ items order
              /\ product_id (product item) = pid).
Proof.
  intros Hnd G.
  assert (Hedges : edges G = client_edges (clients self)).
  { unfold G, create_clients_network. cbn [edges].
    rewrite client_products_of_distinct at 2 by done.
    unfold Py.dict_keys. rewrite map_map. cbn [fst].
    apply edges_from_clients. intros client Hin. by apply products_at_client. }
  assert (Hiff : forall u v w,
            (u, v, w) ∈ edges G
            <-> exists a b,
                  sublist [a; b] (clients self)
                  /\ u = client_id a /\ v = client_id b
                  /\ products_bought a ∩ products_bought b <> ∅
                  /\ w = Z.of_nat (size (products_bought a ∩ products_bought b))).
  { intros u v w. rewrite Hedges, client_edges_elem_of. split.
    - intros (a & b & Hsub & He). exists a, b. split; [done|].
      by apply client_edge_elem_of.
    - intros (a & b & Hsub & He). exists a, b. split; [done|].
      by apply client_edge_elem_of. }
  split_and!.
  - unfold G, create_clients_network. cbn [nodes]. by apply nodes_of_distinct.
  - exact Hiff.
  - rewrite Hedges. by apply client_edges_pairs_NoDup.
  - intros u v w Hin. apply Hiff in Hin as (a & b & Hsub & -> & -> & Hne & ->).
    apply sublist_pair_ids in Hsub. split_and!.
    + pose proof (sublist_NoDup _ _ Hnd Hsub) as Hnd2.
      apply NoDup_cons in Hnd2 as [Hnin _]. intros Heq. apply Hnin.
      rewrite Heq. left.
    + assert (size (products_bought a ∩ products_bought b) <> 0%nat); [|lia].
      intros Hz. by apply size_empty_iff, leibniz_equiv in Hz.
    + intros w' Hin'. apply Hiff in Hin' as (a' & b' & Hsub' & Ha & Hb & _).
      apply sublist_pair_ids in Hsub'. rewrite <- Ha, <- Hb in Hsub'.
      by apply (sublist_pair_swap _ _ _ Hnd Hsub).
  - apply products_bought_spec.
Qed.

Lemma create_clients_network_spec_witness :
  NoDup (map client_id (clients demo_analyzer))
  /\ nodes (create_clients_network demo_analyzer)
     = map (fun client =>
              (client_id client, (name client, Py.len (View.orders client))))
         (clients demo_analyzer).
Proof.
  assert (H : NoDup (map client_id (clients demo_analyzer))).
  { simpl. apply (bool_decide_unpack (NoDup [1; 2; 3])). exact I. }
  split; [exact H|]. exact (proj1 (create_clients_network_spec demo_analyzer H)).
Defined.

(** ** What no call changes *)

Lemma keeps_refl (x : obj) : keeps x x.
Proof. by destruct x. Qed.

Lemma keeps_trans (x y z : obj) : keeps x y -> keeps y z -> keeps x z.
Proof.
  destruct x, y, z; simpl; try done.
  - congruence.
  - intros (? & ? & ? & ?) (? & ? & ? & ?). split_and!; congruence.
  - congruence.
  - intros (? & ? & ? & ?) (? & ? & ? & ?). split_and!; congruence.
Qed.

Lemma keeps_born (l : loc) (x y : obj) : keeps x y -> born l x -> born l y.
Proof.
  destruct x, y; simpl; try done.
  - by intros ->.
  - intros (<- & _). done.
  - intros (_ & _ & <- & _). done.
Qed.

Lemma evolves_refl (h : heap) : evolves h h.
Proof.
  split.
  - intros l old Hl. exists old. split; [done | apply keeps_refl].
  - intros l new Hn Hs. congruence.
Qed.

Lemma evolves_trans (h1 h2 h3 : heap) :
  evolves h1 h2 -> evolves h2 h3 -> evolves h1 h3.
Proof.
  intros [Ha1 Hb1] [Ha2 Hb2]. split.
  - intros l old Hl. destruct (Ha1 _ _ Hl) as (mid & Hm & Hk1).
    destruct (Ha2 _ _ Hm) as (new & Hn & Hk2).
    exists new. split; [done | by eapply keeps_trans].
  - intros l new Hn Hs. destruct (h2 !! l) as [mid|] eqn:Hm.
    + destruct (Ha2 _ _ Hm) as (new' & Hn' & Hk).
      rewrite Hs in Hn'. injection Hn' as <-.
      eapply keeps_born; [exact Hk|]. by apply Hb1.
    + by apply Hb2.
Qed.

Lemma evolves_alloc (h : heap) (x : obj) :
  born (fresh (dom h)) x -> evolves h (<[fresh (dom h) := x]> h).
Proof.
  intros Hb. split.
  - intros l old Hl. exists old. split; [|apply keeps_refl].
    rewrite lookup_insert_ne; [done|]. apply not_eq_sym. by eapply fresh_not_allocated.
  - intros l new Hn Hs. destruct (decide (l = fresh (dom h))) as [->|Hne].
    + rewrite lookup_insert_eq in Hs. by injection Hs as <-.
    + rewrite lookup_insert_ne in Hs by done. congruence.
Qed.

Lemma evolves_update (h : heap) (r : loc) (old x : obj) :
  h !! r = Some old -> keeps old x -> evolves h (<[r := x]> h).
Proof.
  intros Hr Hk. split.
  - intros l old' Hl. destruct (decide (l = r)) as [->|Hne].
    + exists x. rewrite lookup_insert_eq. split; [done|]. congruence.
    + exists old'. rewrite lookup_insert_ne by done. split; [done|apply keeps_refl].
  - intros l new Hn Hs. destruct (decide (l = r)) as [->|Hne]; [congruence|].
    rewrite lookup_insert_ne in Hs by done. congruence.
Qed.

Lemma identified_evolves (h h' : heap) :
  identified h -> evolves h h' -> identified h'.
Proof.
  intros Hid [Ha Hb] l x Hl. destruct (h !! l) as [old|] eqn:Hold.
  - destruct (Ha _ _ Hold) as (new & Hn & Hk).
    rewrite Hl in Hn. injection Hn as <-.
    eapply keeps_born; [exact Hk|]. by apply Hid.
  - by apply Hb.
Qed.

Lemma identified_empty : identified ∅.
Proof. intros l x Hl. by rewrite lookup_empty in Hl. Qed.

(** *** Each method, as a change of the store *)

Lemma evolves_Client_init (h h' : heap) (nm em ph ad : string) :
  after (Client.__init__ nm em ph ad h) = Some h' -> evolves h h'.
Proof.
  intros [= <-]. eapply evolves_trans; [apply (evolves_alloc h (OList [])); done|].
  by apply evolves_alloc.
Qed.

Lemma evolves_Product_init (h h' : heap) (nm : string) (pr : Qc) (ca de : string) :
  after (Product.__init__ nm pr ca de h) = Some h' -> evolves h h'.
Proof. intros [= <-]. by apply evolves_alloc. Qed.

Lemma evolves_add_order (h h' : heap) (self order : loc) :
  after (Client.add_order self order h) = Some h' -> evolves h h'.
Proof.
  unfold Client.add_order. unfold_M.
  destruct (h !! self) as [[c| | | |]|] eqn:Hs; try done.
  destruct (h !! _orders c) as [[| | | |l]|] eqn:Hl; try done.
  destruct (bool_decide (order ∈ l)); intros [= <-]; [apply evolves_refl|].
  by eapply evolves_update.
Qed.

Lemma evolves_Order_init (h h' : heap) (now : Py.datetime) (client : loc)
    (order_date : option Py.datetime) :
  after (Order.__init__ now client order_date h) = Some h' -> evolves h h'.
Proof.
  rewrite Order_init_unfold. cbv zeta.
  set (h1 := <[fresh (dom h) := OList []]> h).
  set (o := OOrder _). set (h2 := <[fresh (dom h1) := o]> h1).
  assert (H12 : evolves h h2).
  { eapply evolves_trans; [apply (evolves_alloc h (OList [])); done|].
    by apply evolves_alloc. }
  pose proof (evolves_add_order h2) as Hadd.
  destruct (Client.add_order client (fresh (dom h1)) h2) as [[] h3|e h3|] eqn:E;
    simpl; intros [= <-]; (eapply evolves_trans; [exact H12|]);
    apply (Hadd h3 client (fresh (dom h1))); by rewrite E.
Qed.

Lemma evolves_Client_orders (h h' : heap) (self : loc) :
  after (Client.orders self h) = Some h' -> evolves h h'.
Proof.
  unfold Client.orders. unfold_M.
  destruct (h !! self) as [[c| | | |]|]; try done.
  destruct (h !! _orders c) as [[| | | |l]|]; try done.
  intros [= <-]. by apply evolves_alloc.
Qed.

Lemma evolves_Order_items (h h' : heap) (self : loc) :
  after (Order.items self h) = Some h' -> evolves h h'.
Proof.
  unfold Order.items. unfold_M.
  destruct (h !! self) as [[| | |o|]|]; try done.
  destruct (h !! _items o) as [[| | | |l]|]; try done.
  intros [= <-]. by apply evolves_alloc.
Qed.

Lemma evolves_set_quantity (h h' : heap) (self : loc) (value : Z) :
  after (OrderItem.set_quantity self value h) = Some h' -> evolves h h'.
Proof.
  destruct (h !! self) as [[| |i| |]|] eqn:Hs;
    try (unfold OrderItem.set_quantity; unfold_M; by rewrite Hs).
  rewrite (OrderItem_set_quantity_spec h self i value Hs).
  destruct (decide (value < 1)); intros [= <-]; [apply evolves_refl|].
  by eapply evolves_update.
Qed.

Lemma evolves_set_price (h h' : heap) (self : loc) (value : Qc) :
  after (Product.set_price self value h) = Some h' -> evolves h h'.
Proof.
  destruct (h !! self) as [[|p| | |]|] eqn:Hs;
    try (unfold Product.set_price; unfold_M; by rewrite Hs).
  rewrite (Product_set_price_spec h self p value Hs).
  destruct (decide (value < Q2Qc 0)%Qc); intros [= <-]; [apply evolves_refl|].
  eapply evolves_update; [exact Hs|]. by repeat split.
Qed.

Lemma evolves_add_item (h h' : heap) (self product : loc) (p : Store.product)
    (quantity : Z) :
  wf h -> h !! product = Some (OProduct p) ->
  after (Order.add_item self product quantity h) = Some h' -> evolves h h'.
Proof.
  intros Hwf Hp.
  destruct (h !! self) as [[| | |o|]|] eqn:Hs;
    try (unfold Order.add_item; unfold_M; by rewrite Hs).
  destruct (proj1 (proj2 Hwf) _ _ Hs) as (its & pids & Hl & HF & Hnd).
  destruct (Order_add_item_spec h self o its pids product p quantity Hs Hl Hp HF)
    as [[Hnin Hrun]|(item & i & Hin & Hi & Hpid & Hrun)]; rewrite Hrun.
  - intros [= <-].
    eapply evolves_trans;
      [by apply (evolves_alloc h (OItem {| _product := product;
                                           _quantity := quantity |}))|].
    apply (evolves_update _ _ (OList its)); [|done].
    rewrite lookup_insert_ne; [exact Hl|]. apply not_eq_sym.
    by eapply fresh_not_allocated.
  - destruct (decide (_quantity i + quantity < 1)); intros [= <-];
      [apply evolves_refl|]. by eapply evolves_update.
Qed.

Lemma evolves_remove_item (h h' : heap) (self product : loc) (p : Store.product) :
  wf h -> h !! product = Some (OProduct p) ->
  after (Order.remove_item self product h) = Some h' -> evolves h h'.
Proof.
  intros Hwf Hp.
  destruct (h !! self) as [[| | |o|]|] eqn:Hs;
    try (unfold Order.remove_item; unfold_M; by rewrite Hs).
  destruct (proj1 (proj2 Hwf) _ _ Hs) as (its & pids & Hl & HF & Hnd).
  destruct (remove_item_loop_spec h its pids product p Hp HF)
    as (kept & pids' & Hrun & _).
  unfold Order.remove_item. unfold_M. rewrite Hs, Hl, Hrun.
  intros [= <-]. eapply evolves_trans; [by apply (evolves_alloc h (OList kept))|].
  eapply evolves_update.
  - rewrite lookup_insert_ne; [exact Hs|]. apply not_eq_sym.
    by eapply fresh_not_allocated.
  - by repeat split.
Qed.

Lemma evolves_exec (now : Py.datetime) (c : Program.call) (h h' : heap) :
  wf h -> after (Program.exec now c h) = Some h' -> evolves h h'.
Proof.
  intros Hwf.
  destruct c as [nm em ph ad | nm pr ca de | cl od | cl ord | cl | pd v | it v
                 | ord | ord pd q | ord pd]; unfold Program.exec.
  - rewrite after_then_ret. apply evolves_Client_init.
  - rewrite after_then_ret. apply evolves_Product_init.
  - unfold mbind at 1, M_bind at 1, bind at 1, get_client.
    destruct (h !! cl) as [[]|]; try done.
    rewrite after_then_ret. apply evolves_Order_init.
  - unfold mbind at 1, M_bind at 1, bind at 1, get_client.
    destruct (h !! cl) as [[]|]; try done.
    unfold mbind at 1, M_bind at 1, bind at 1, get_order.
    destruct (h !! ord) as [[]|] eqn:Hord; try done.
    apply evolves_add_order.
  - rewrite after_then_ret. apply evolves_Client_orders.
  - apply evolves_set_price.
  - apply evolves_set_quantity.
  - rewrite after_then_ret. apply evolves_Order_items.
  - unfold mbind at 1, M_bind at 1, bind at 1, get_order.
    destruct (h !! ord) as [[]|]; try done.
    unfold mbind at 1, M_bind at 1, bind at 1, get_product.
    destruct (h !! pd) as [[|p| | |]|] eqn:Hp; try done.
    by apply (evolves_add_item h h' ord pd p).
  - unfold mbind at 1, M_bind at 1, bind at 1, get_order.
    destruct (h !! ord) as [[]|]; try done.
    unfold mbind at 1, M_bind at 1, bind at 1, get_product.
    destruct (h !! pd) as [[|p| | |]|] eqn:Hp; try done.
    by apply (evolves_remove_item h h' ord pd p).
Qed.

Lemma evolves_run (now : Py.datetime) (calls : list Program.call) (h h' : heap) :
  wf h -> Program.run now calls h = Some h' -> evolves h h'.
Proof.
  revert h. induction calls as [|c calls IH]; intros h Hwf; simpl.
  - intros [= <-]. apply evolves_refl.
  - pose proof (evolves_exec now c h) as Hstep.
    pose proof (wf_exec now c h) as Hwfstep.
    destruct (Program.exec now c h) as [[] h1|e h1|]; [| |done];
      intros Hrun; (eapply evolves_trans; [by apply Hstep|]);
      apply IH; [by apply Hwfstep | done | by apply Hwfstep | done].
Qed.

(** ** The stores of the worked examples *)

Lemma demo_store_items : demo_store !! 4%positive = Some (OList [6%positive]).
Proof. vm_compute. reflexivity. Qed.



Lemma demo_store_orders : demo_store !! 1%positive = Some (OList [5%positive]).
Proof. vm_compute. reflexivity. Qed.

Lemma demo_store_product_ids (l : loc) (q : Store.product) :
  demo_store !! l = Some (OProduct q) -> _product_id q = id l.
Proof.
  intros Hl.
  assert (Hid : identified demo_store).
  { eapply identified_evolves; [apply identified_empty|].
    eapply evolves_run; [apply wf_empty | apply demo_store_run]. }
  exact (Hid _ _ Hl).
Qed.

Lemma demo_store_new_order_run :
  Program.run demo_now (take 3 demo_calls) ∅ = Some demo_store_new_order.
Proof. vm_compute. reflexivity. Qed.

Lemma demo_store_new_order_wf : wf demo_store_new_order.
Proof. eapply wf_run; [apply wf_empty | apply demo_store_new_order_run]. Qed.

Lemma demo_store_new_order_order :
  demo_store_new_order !! 5%positive = Some (OOrder demo_order).
Proof. vm_compute. reflexivity. Qed.

Lemma demo_store_new_order_product :
  demo_store_new_order !! 3%positive = Some (OProduct demo_product).
Proof. vm_compute. reflexivity. Qed.

Lemma demo_store_new_order_items :
  demo_store_new_order !! _items demo_order = Some (OList []).
Proof. vm_compute. reflexivity. Qed.

(** ** What a sequence of calls leaves as it was *)



(** X9: in a store that the calls of [Program.call] have built from
    nothing, the [client_id] of every client, the [product_id] of every
    product and the [order_id] of every order is the identity of the
    object, as [__init__] has set it: no call assigns an id.  (Nothing is
    said of an identity that is given again after its object is freed.) *)
Theorem ids_are_identities (now : Py.datetime) (calls : list Program.call)
    (h : heap) :
  Program.run now calls ∅ = Some h ->
  (forall l c, h !! l = Some (OClient c) -> _client_id c = id l)
  /\ (forall l p, h !! l = Some (OProduct p) -> _product_id p = id l)
  /\ (forall l o, h !! l = Some (OOrder o) -> _order_id o = id l).
Proof.
  intros Hrun.
  assert (Hid : identified h).
  { eapply identified_evolves; [apply identified_empty|].
    eapply evolves_run; [apply wf_empty | exact Hrun]. }
  split_and!.
  - intros l c Hl. exact (Hid _ _ Hl).
  - intros l p Hl. exact (Hid _ _ Hl).
  - intros l o Hl. exact (Hid _ _ Hl).
Qed.

Lemma ids_are_identities_witness :
  Program.run demo_now demo_calls ∅ = Some demo_store
  /\ demo_store !! 2%positive = Some (OClient demo_client)
  /\ _client_id demo_client = id 2%positive
  /\ demo_store !! 3%positive = Some (OProduct demo_product)
  /\ _product_id demo_product = id 3%positive
  /\ demo_store !! 5%positive = Some (OOrder demo_order)
  /\ _order_id demo_order = id 5%positive.
Proof.
  destruct (ids_are_identities demo_now demo_calls demo_store demo_store_run)
    as (Hclient & Hproduct & Horder).
  split; [exact demo_store_run|].
  split; [exact demo_store_client|].
  split; [exact (Hclient _ _ demo_store_client)|].
  split; [exact demo_store_product|].
  split; [exact (Hproduct _ _ demo_store_product)|].
  split; [exact demo_store_order|].
  exact (Horder _ _ demo_store_order).
Defined.

(** ** [remove_item], written out *)

Lemma Order_remove_item_spec (h : heap) (self product : loc) (o : order)
    (p : Store.product) (the_items : list loc) (pids : list Z) :
  h !! self = Some (OOrder o) ->
  h !! _items o = Some (OList the_items) ->
  h !! product = Some (OProduct p) ->
  Forall2 (fun item pid => item_product_id h item = Some pid) the_items pids ->
  Order.remove_item self product h
  = Done tt
      (<[self := OOrder {| _client := _client o; _order_date := _order_date o;
                           _items := fresh (dom h); _order_id := _order_id o;
                           _status := _status o |}]>
         (<[fresh (dom h) :=
              OList (filter (fun item =>
                       item_product_id h item <> Some (_product_id p)) the_items)]> h)).
Proof.
  intros Hs Hl Hp HF.
  destruct (remove_item_loop_spec h the_items pids product p Hp HF)
    as (kept & pids' & Hrun & _ & _ & ->).
  unfold Order.remove_item. unfold_M. by rewrite Hs, Hl, Hrun.
Qed.

Lemma item_product_id_insert_other (h : heap) (r : loc) (x : obj) (item : loc)
    (i : order_item) :
  h !! item = Some (OItem i) -> r <> item -> r <> _product i ->
  item_product_id (<[r := x]> h) item = item_product_id h item.
Proof.
  intros Hi Hne1 Hne2. unfold item_product_id.
  rewrite lookup_insert_ne, Hi by done. by rewrite lookup_insert_ne.
Qed.

Lemma item_product_id_typed (h : heap) (item : loc) (pid : Z) :
  item_product_id h item = Some pid ->
  exists i ip, h !! item = Some (OItem i) /\ h !! _product i = Some (OProduct ip)
               /\ _product_id ip = pid.
Proof.
  unfold item_product_id. intros H.
  destruct (h !! item) as [[| |i| |]|] eqn:Hi; try done.
  destruct (h !! _product i) as [[|ip| | |]|] eqn:Hip; try done.
  injection H as <-. by exists i, ip.
Qed.

(** X10: in a store with the invariants, [remove_item] never raises.  It
    gives the order a new list, which holds the items of the other
    products in their order; no item of the product is left in it; the
    list that the order had and every item are as they were; and the
    invariants hold again. *)
Theorem remove_item_removes_the_line (h : heap) (self product : loc)
    (o : order) (p : Store.product) :
  wf h -> h !! self = Some (OOrder o) -> h !! product = Some (OProduct p) ->
  exists the_items new_list h',
    h !! _items o = Some (OList the_items)
    /\ Order.remove_item self product h = Done tt h'
    /\ h !! new_list = None
    /\ h' !! self
       = Some (OOrder {| _client := _client o; _order_date := _order_date o;
                         _items := new_list; _order_id := _order_id o;
                         _status := _status o |})
    /\ h' !! new_list
       = Some (OList (filter (fun item =>
                        item_product_id h item <> Some (_product_id p)) the_items))
    /\ (forall item, item ∈ the_items ->
          h' !! item = h !! item
          /\ item_product_id h' item = item_product_id h item)
    /\ h' !! _items o = Some (OList the_items)
    /\ wf h'.
Proof.
  intros Hwf Hs Hp.
  destruct (proj1 (proj2 Hwf) _ _ Hs) as (its & pids & Hl & HF & Hnd).
  pose proof (Order_remove_item_spec h self product o p its pids Hs Hl Hp HF) as Hrun.
  assert (Hself : self <> fresh (dom h)) by (by eapply fresh_not_allocated).
  assert (Hlist : _items o <> fresh (dom h)) by (by eapply fresh_not_allocated).
  exists its, (fresh (dom h)). eexists. split_and!; [done|exact Hrun|..].
  - apply lookup_fresh.
  - apply lookup_insert_eq.
  - rewrite lookup_insert_ne by done. apply lookup_insert_eq.
  - intros item Hin.
    apply list_elem_of_lookup in Hin as [n Hn].
    destruct (Forall2_lookup_l _ _ _ _ _ HF Hn) as (pid & _ & Hpid).
    destruct (item_product_id_typed _ _ _ Hpid) as (i & ip & Hi & Hip & _).
    assert (item <> self) by congruence.
    assert (item <> fresh (dom h)) by (by eapply fresh_not_allocated).
    assert (_product i <> self) by congruence.
    assert (_product i <> fresh (dom h)) by (by eapply fresh_not_allocated).
    split.
    + by rewrite !lookup_insert_ne.
    + rewrite (item_product_id_insert_other _ self _ item i); [|
        by rewrite lookup_insert_ne | done | done].
      by rewrite (item_product_id_insert_other _ _ _ item i).
  - rewrite lookup_insert_ne by congruence. by rewrite lookup_insert_ne.
  - apply (wf_remove_item h _ self product p Hwf Hp). by rewrite Hrun.
Qed.

Lemma remove_item_removes_the_line_witness :
  wf demo_store
  /\ demo_store !! 5%positive = Some (OOrder demo_order)
  /\ demo_store !! 3%positive = Some (OProduct demo_product)
  /\ exists the_items new_list h',
       demo_store !! _items demo_order = Some (OList the_items)
       /\ Order.remove_item 5%positive 3%positive demo_store = Done tt h'
       /\ demo_store !! new_list = None
       /\ h' !! 5%positive
          = Some (OOrder {| _client := _client demo_order;
                            _order_date := _order_date demo_order;
                            _items := new_list;
                            _order_id := _order_id demo_order;
                            _status := _status demo_order |})
       /\ h' !! new_list
          = Some (OList (filter (fun item =>
                           item_product_id demo_store item
                           <> Some (_product_id demo_product)) the_items))
       /\ (forall item, item ∈ the_items ->
             h' !! item = demo_store !! item
             /\ item_product_id h' item = item_product_id demo_store item)
       /\ h' !! _items demo_order = Some (OList the_items)
       /\ wf h'.
Proof.
  split; [exact demo_store_wf|]. split; [exact demo_store_order|].
  split; [exact demo_store_product|].
  exact (remove_item_removes_the_line demo_store 5%positive 3%positive demo_order
           demo_product demo_store_wf demo_store_order demo_store_product).
Defined.

(** ** [add_item] of a product that the order has not *)

Lemma filter_all {A} (P : A -> Prop) `{!forall x, Decision (P x)} (xs : list A) :
  (forall x, x ∈ xs -> P x) -> filter P xs = xs.
Proof.
  induction xs as [|x xs IH]; intros HP; [done|].
  rewrite filter_cons_True by (apply HP; left).
  f_equal. apply IH. intros y Hy. apply HP. by right.
Qed.

(** The store after [add_item] of a product that is in no item of the
    order: a new item at the end of the list. *)
Lemma Order_add_item_new (h : heap) (self product : loc) (o : order)
    (p : Store.product) (the_items : list loc) (quantity : Z) :
  wf h -> h !! self = Some (OOrder o) -> h !! product = Some (OProduct p) ->
  h !! _items o = Some (OList the_items) ->
  (forall item, item ∈ the_items ->
     item_product_id h item <> Some (_product_id p)) ->
  Order.add_item self product quantity h
  = Done tt
      (<[_items o := OList (the_items ++ [fresh (dom h)])]>
         (<[fresh (dom h) := OItem {| _product := product;
                                      _quantity := quantity |}]> h)).
Proof.
  intros Hwf Hs Hp Hl Hnone.
  destruct (proj1 (proj2 Hwf) _ _ Hs) as (its & pids & Hl' & HF & Hnd).
  assert (its = the_items) as -> by congruence.
  destruct (Order_add_item_spec h self o the_items pids product p quantity
              Hs Hl Hp HF) as [[_ Hrun]|(item & i & Hin & _ & Hpid & _)];
    [exact Hrun|].
  by destruct (Hnone item Hin).
Qed.

(** The product ids of the items that were there do not change. *)
Lemma add_item_new_old_items (h : heap) (product : loc) (p : Store.product)
    (l : loc) (the_items : list loc) (pids : list Z) (quantity : Z) (x : obj)
    (item : loc) :
  h !! l = Some (OList the_items) ->
  Forall2 (fun item pid => item_product_id h item = Some pid) the_items pids ->
  item ∈ the_items ->
  item_product_id
    (<[l := x]>
       (<[fresh (dom h) := OItem {| _product := product;
                                    _quantity := quantity |}]> h)) item
  = item_product_id h item.
Proof.
  intros Hl HF Hin.
  apply list_elem_of_lookup in Hin as [n Hn].
  destruct (Forall2_lookup_l _ _ _ _ _ HF Hn) as (pid & _ & Hpid).
  destruct (item_product_id_typed _ _ _ Hpid) as (i & ip & Hi & Hip & _).
  assert (fresh (dom h) <> item) by (apply not_eq_sym; by eapply fresh_not_allocated).
  assert (fresh (dom h) <> _product i)
    by (apply not_eq_sym; by eapply fresh_not_allocated).
  rewrite (item_product_id_insert_other _ l _ item i).
  - by apply (item_product_id_insert_other _ _ _ item i).
  - by rewrite lookup_insert_ne.
  - congruence.
  - congruence.
Qed.

(** X11: [add_item] of a product that the order has not, then [remove_item]
    of the product: neither raises, and the order has the items that it
    had, in a new list; the quantity is not looked at. *)
Theorem add_item_then_remove_item (h : heap) (self product : loc) (o : order)
    (p : Store.product) (the_items : list loc) (quantity : Z) :
  wf h -> h !! self = Some (OOrder o) -> h !! product = Some (OProduct p) ->
  h !! _items o = Some (OList the_items) ->
  (forall item, item ∈ the_items ->
     item_product_id h item <> Some (_product_id p)) ->
  exists h1 h2 new_list,
    Order.add_item self product quantity h = Done tt h1
    /\ Order.remove_item self product h1 = Done tt h2
    /\ h1 !! new_list = None
    /\ h2 !! self
       = Some (OOrder {| _client := _client o; _order_date := _order_date o;
                         _items := new_list; _order_id := _order_id o;
                         _status := _status o |})
    /\ h2 !! new_list = Some (OList the_items)
    /\ (forall item, item ∈ the_items -> h2 !! item = h !! item)
    /\ wf h2.
Proof.
  intros Hwf Hs Hp Hl Hnone.
  pose proof (Order_add_item_new h self product o p the_items quantity
                Hwf Hs Hp Hl Hnone) as Hadd.
  destruct (proj1 (proj2 Hwf) _ _ Hs) as (its & pids & Hl' & HF & Hnd).
  assert (its = the_items) as -> by congruence. clear Hl'.
  set (r := fresh (dom h)) in *.
  set (h1 := <[_items o := OList (the_items ++ [r])]>
               (<[r := OItem {| _product := product; _quantity := quantity |}]> h))
    in *.
  assert (Hr : h !! r = None) by apply lookup_fresh.
  assert (Hrs : r <> self) by (intros E; rewrite E in Hr; congruence).
  assert (Hrl : r <> _items o) by (intros E; rewrite E in Hr; congruence).
  assert (Hrp : r <> product) by (intros E; rewrite E in Hr; congruence).
  assert (Hls : _items o <> self) by congruence.
  assert (Hlp : _items o <> product) by congruence.
  assert (Hwf1 : wf h1).
  { apply (wf_add_item h h1 self product p quantity Hwf Hp). by rewrite Hadd. }
  assert (Hs1 : h1 !! self = Some (OOrder o)).
  { unfold h1. by rewrite !lookup_insert_ne. }
  assert (Hp1 : h1 !! product = Some (OProduct p)).
  { unfold h1. by rewrite !lookup_insert_ne. }
  assert (Hl1 : h1 !! _items o = Some (OList (the_items ++ [r]))).
  { unfold h1. by rewrite lookup_insert_eq. }
  assert (Hnew : item_product_id h1 r = Some (_product_id p)).
  { unfold item_product_id, h1.
    rewrite lookup_insert_ne, lookup_insert_eq by done. simpl.
    by rewrite !lookup_insert_ne, Hp. }
  assert (Hold : forall item, item ∈ the_items ->
                   item_product_id h1 item = item_product_id h item).
  { intros item Hin. by eapply add_item_new_old_items. }
  assert (HF1 : Forall2 (fun item pid => item_product_id h1 item = Some pid)
                  (the_items ++ [r]) (pids ++ [_product_id p])).
  { apply Forall2_app; [|by constructor].
    unfold h1. apply Forall2_item_product_id_insert.
    { intros old. rewrite lookup_insert_ne by done. rewrite Hl. by intros [= <-]. }
    apply Forall2_item_product_id_insert; [|exact HF].
    intros old. fold r. by rewrite Hr. }
  pose proof (Order_remove_item_spec h1 self product o p _ _ Hs1 Hl1 Hp1 HF1) as Hrem.
  assert (Hkept : filter (fun item => item_product_id h1 item <> Some (_product_id p))
                    (the_items ++ [r]) = the_items).
  { rewrite filter_app, filter_cons_False, filter_nil, app_nil_r
      by (intros E; by apply E).
    apply filter_all. intros item Hin. rewrite (Hold item Hin). by apply Hnone. }
  rewrite Hkept in Hrem.
  set (n := fresh (dom h1)) in *.
  assert (Hn : h1 !! n = None) by apply lookup_fresh.
  assert (Hns : n <> self) by (intros E; rewrite E in Hn; congruence).
  exists h1. eexists. exists n. split_and!; [exact Hadd | exact Hrem | exact Hn|..].
  - apply lookup_insert_eq.
  - rewrite lookup_insert_ne by done. apply lookup_insert_eq.
  - intros item Hin.
    apply list_elem_of_lookup in Hin as [k Hk].
    destruct (Forall2_lookup_l _ _ _ _ _ HF Hk) as (pid & _ & Hpid).
    destruct (item_product_id_typed _ _ _ Hpid) as (i & ip & Hi & _).
    assert (H1 : h1 !! item = Some (OItem i)).
    { unfold h1. rewrite !lookup_insert_ne; [done| |]; congruence. }
    rewrite !lookup_insert_ne; [by rewrite H1, Hi| |]; congruence.
  - apply (wf_remove_item h1 _ self product p Hwf1 Hp1). by rewrite Hrem.
Qed.

Lemma add_item_then_remove_item_witness :
  wf demo_store_new_order
  /\ demo_store_new_order !! 5%positive = Some (OOrder demo_order)
  /\ demo_store_new_order !! 3%positive = Some (OProduct demo_product)
  /\ demo_store_new_order !! _items demo_order = Some (OList [])
  /\ (forall item, item ∈ ([] : list loc) ->
        item_product_id demo_store_new_order item
        <> Some (_product_id demo_product))
  /\ exists h1 h2 new_list,
       Order.add_item 5%positive 3%positive 2 demo_store_new_order = Done tt h1
       /\ Order.remove_item 5%positive 3%positive h1 = Done tt h2
       /\ h1 !! new_list = None
       /\ h2 !! 5%positive
          = Some (OOrder {| _client := _client demo_order;
                            _order_date := _order_date demo_order;
                            _items := new_list;
                            _order_id := _order_id demo_order;
                            _status := _status demo_order |})
       /\ h2 !! new_list = Some (OList [])
       /\ (forall item, item ∈ ([] : list loc) ->
             h2 !! item = demo_store_new_order !! item)
       /\ wf h2.
Proof.
  assert (Hnone : forall item, item ∈ ([] : list loc) ->
            item_product_id demo_store_new_order item
            <> Some (_product_id demo_product)).
  { intros item Hin. by apply elem_of_nil in Hin. }
  split; [exact demo_store_new_order_wf|].
  split; [exact demo_store_new_order_order|].
  split; [exact demo_store_new_order_product|].
  split; [exact demo_store_new_order_items|].
  split; [exact Hnone|].
  exact (add_item_then_remove_item demo_store_new_order 5%positive 3%positive
           demo_order demo_product [] 2 demo_store_new_order_wf
           demo_store_new_order_order demo_store_new_order_product
           demo_store_new_order_items Hnone).
Defined.

(** X12: [add_item] of a product that the order has not creates an item
    with the quantity as it is given, be it zero or negative: only the
    setter checks.  A second [add_item] of the product adds to that item:
    it raises [ValueError] and changes nothing when the sum is below 1,
    and otherwise the item, and no other object, has the sum. *)
Theorem add_item_twice_adds_the_quantities (h : heap) (self product : loc)
    (o : order) (p : Store.product) (the_items : list loc) (a b : Z) :
  wf h -> h !! self = Some (OOrder o) -> h !! product = Some (OProduct p) ->
  h !! _items o = Some (OList the_items) ->
  (forall item, item ∈ the_items ->
     item_product_id h item <> Some (_product_id p)) ->
  exists item h1,
    Order.add_item self product a h = Done tt h1
    /\ h !! item = None
    /\ h1 !! _items o = Some (OList (the_items ++ [item]))
    /\ h1 !! item = Some (OItem {| _product := product; _quantity := a |})
    /\ (a + b < 1 ->
        Order.add_item self product b h1 = Raised (ValueError QuantityBelowOne) h1)
    /\ (1 <= a + b ->
        exists h2,
          Order.add_item self product b h1 = Done tt h2
          /\ h2 !! item = Some (OItem {| _product := product; _quantity := a + b |})
          /\ forall l, l <> item -> h2 !! l = h1 !! l).
Proof.
  intros Hwf Hs Hp Hl Hnone.
  pose proof (Order_add_item_new h self product o p the_items a
                Hwf Hs Hp Hl Hnone) as Hadd.
  destruct (proj1 (proj2 Hwf) _ _ Hs) as (its & pids & Hl' & HF & Hnd).
  assert (its = the_items) as -> by congruence. clear Hl'.
  set (r := fresh (dom h)) in *.
  set (h1 := <[_items o := OList (the_items ++ [r])]>
               (<[r := OItem {| _product := product; _quantity := a |}]> h))
    in *.
  assert (Hr : h !! r = None) by apply lookup_fresh.
  assert (Hrs : r <> self) by (intros E; rewrite E in Hr; congruence).
  assert (Hrl : r <> _items o) by (intros E; rewrite E in Hr; congruence).
  assert (Hrp : r <> product) by (intros E; rewrite E in Hr; congruence).
  assert (Hls : _items o <> self) by congruence.
  assert (Hlp : _items o <> product) by congruence.
  assert (Hs1 : h1 !! self = Some (OOrder o)).
  { unfold h1. by rewrite !lookup_insert_ne. }
  assert (Hp1 : h1 !! product = Some (OProduct p)).
  { unfold h1. by rewrite !lookup_insert_ne. }
  assert (Hl1 : h1 !! _items o = Some (OList (the_items ++ [r]))).
  { unfold h1. by rewrite lookup_insert_eq. }
  assert (Hr1 : h1 !! r = Some (OItem {| _product := product; _quantity := a |})).
  { unfold h1. by rewrite lookup_insert_ne, lookup_insert_eq. }
  assert (Hnew : item_product_id h1 r = Some (_product_id p)).
  { unfold item_product_id. rewrite Hr1. simpl. by rewrite Hp1. }
  assert (Hold : forall item, item ∈ the_items ->
                   item_product_id h1 item = item_product_id h item).
  { intros item Hin. by eapply add_item_new_old_items. }
  assert (HF1 : Forall2 (fun item pid => item_product_id h1 item = Some pid)
                  (the_items ++ [r]) (pids ++ [_product_id p])).
  { apply Forall2_app; [|by constructor].
    unfold h1. apply Forall2_item_product_id_insert.
    { intros old. rewrite lookup_insert_ne by done. rewrite Hl. by intros [= <-]. }
    apply Forall2_item_product_id_insert; [|exact HF].
    intros old. fold r. by rewrite Hr. }
  assert (Hsecond :
    Order.add_item self product b h1
    = if decide (a + b < 1) then Raised (ValueError QuantityBelowOne) h1
      else Done tt (<[r := OItem {| _product := product; _quantity := a + b |}]> h1)).
  { destruct (Order_add_item_spec h1 self o _ _ product p b Hs1 Hl1 Hp1 HF1)
      as [[Hnin _]|(item & i & Hin & Hi & Hpid & Hrun)].
    - destruct Hnin. set_solver.
    - apply elem_of_app in Hin as [Hin|Hin].
      + rewrite (Hold item Hin) in Hpid. by destruct (Hnone item Hin).
      + apply list_elem_of_singleton in Hin as ->.
        rewrite Hr1 in Hi. injection Hi as <-. exact Hrun. }
  exists r, h1. split_and!; [exact Hadd | exact Hr | exact Hl1 | exact Hr1 | |].
  - intros Hlt. rewrite Hsecond. by rewrite decide_True.
  - intros Hge. eexists. rewrite Hsecond, decide_False by lia.
    split_and!; [reflexivity | apply lookup_insert_eq |].
    intros l Hne. by rewrite lookup_insert_ne.
Qed.

Lemma add_item_twice_adds_the_quantities_witness :
  wf demo_store_new_order
  /\ demo_store_new_order !! 5%positive = Some (OOrder demo_order)
  /\ demo_store_new_order !! 3%positive = Some (OProduct demo_product)
  /\ demo_store_new_order !! _items demo_order = Some (OList [])
  /\ (forall item, item ∈ ([] : list loc) ->
        item_product_id demo_store_new_order item
        <> Some (_product_id demo_product))
  /\ exists item h1,
       Order.add_item 5%positive 3%positive 0 demo_store_new_order = Done tt h1
       /\ demo_store_new_order !! item = None
       /\ h1 !! _items demo_order = Some (OList ([] ++ [item]))
       /\ h1 !! item = Some (OItem {| _product := 3%positive; _quantity := 0 |})
       /\ (0 + 0 < 1 ->
           Order.add_item 5%positive 3%positive 0 h1
           = Raised (ValueError QuantityBelowOne) h1)
       /\ (1 <= 0 + 0 ->
           exists h2,
             Order.add_item 5%positive 3%positive 0 h1 = Done tt h2
             /\ h2 !! item
                = Some (OItem {| _product := 3%positive; _quantity := 0 + 0 |})
             /\ forall l, l <> item -> h2 !! l = h1 !! l).
Proof.
  assert (Hnone : forall item, item ∈ ([] : list loc) ->
            item_product_id demo_store_new_order item
            <> Some (_product_id demo_product)).
  { intros item Hin. by apply elem_of_nil in Hin. }
  split; [exact demo_store_new_order_wf|].
  split; [exact demo_store_new_order_order|].
  split; [exact demo_store_new_order_product|].
  split; [exact demo_store_new_order_items|].
  split; [exact Hnone|].
  exact (add_item_twice_adds_the_quantities demo_store_new_order 5%positive
           3%positive demo_order demo_product [] 0 0 demo_store_new_order_wf
           demo_store_new_order_order demo_store_new_order_product
           demo_store_new_order_items Hnone).
Defined.

(** ** Two orders of a client *)

(** [Order.__init__] with all that it leaves as it was. *)
Lemma Order_init_frame (h : heap) (now : Py.datetime) (client : loc)
    (order_date : option Py.datetime) (c : Store.client) (l : list loc) :
  h !! client = Some (OClient c) -> h !! _orders c = Some (OList l) ->
  (forall x, x ∈ l -> is_Some (h !! x)) ->
  exists self the_items h',
    Order.__init__ now client order_date h = Done self h'
    /\ h !! self = None /\ h !! the_items = None /\ self <> the_items
    /\ h' !! self
       = Some (OOrder {| _client := client;
                         _order_date := default now order_date;
                         _items := the_items; _order_id := id self;
                         _status := "Новый" |})
    /\ h' !! the_items = Some (OList [])
    /\ h' !! _orders c = Some (OList (l ++ [self]))
    /\ (forall x v, h !! x = Some v -> x <> _orders c -> h' !! x = Some v).
Proof.
  intros Hc Hl Hclosed. rewrite Order_init_unfold.
  set (r1 := fresh (dom h)). set (h1 := <[r1 := OList []]> h).
  set (r2 := fresh (dom h1)).
  set (o := {| _client := client; _order_date := default now order_date;
               _items := r1; _order_id := id r2; _status := "Новый" |}).
  set (h2 := <[r2 := OOrder o]> h1).
  assert (Hr1 : h !! r1 = None) by apply lookup_fresh.
  assert (Hr2 : h1 !! r2 = None) by apply lookup_fresh.
  assert (Hr12 : r1 <> r2).
  { intros Heq. rewrite <- Heq in Hr2. unfold h1 in Hr2.
    by rewrite lookup_insert_eq in Hr2. }
  assert (Hr2h : h !! r2 = None).
  { unfold h1 in Hr2. by rewrite lookup_insert_ne in Hr2. }
  assert (Hframe : forall x v, h !! x = Some v -> h2 !! x = Some v).
  { intros x v Hx. unfold h2, h1.
    rewrite !lookup_insert_ne by congruence. done. }
  rewrite (Client_add_order_spec h2 client r2 c l) by (by apply Hframe).
  rewrite decide_False.
  2:{ intros Hin. apply Hclosed in Hin as [v Hv]. congruence. }
  exists r2, r1. eexists. split; [reflexivity|]. split_and!.
  - done.
  - done.
  - done.
  - rewrite lookup_insert_ne by (intros Heq; rewrite Heq in Hl; congruence).
    apply lookup_insert_eq.
  - rewrite lookup_insert_ne by (intros Heq; rewrite Heq in Hl; congruence).
    unfold h2, h1. rewrite lookup_insert_ne by done. apply lookup_insert_eq.
  - apply lookup_insert_eq.
  - intros x v Hx Hne. rewrite lookup_insert_ne by done. by apply Hframe.
Qed.

(** X13: two orders created for a client one after the other are two
    objects with two ids and two lists of items, both empty; the client's
    list has them at its end in the order of their creation; each has
    the date it was given, or the present one; and every object that was
    in the store but the client's list is as it was. *)
Theorem orders_are_registered_in_creation_order (h : heap) (now : Py.datetime)
    (client : loc) (c : Store.client) (l : list loc)
    (date1 date2 : option Py.datetime) :
  wf h -> h !! client = Some (OClient c) -> h !! _orders c = Some (OList l) ->
  exists order1 order2 items1 items2 h1 h2,
    Order.__init__ now client date1 h = Done order1 h1
    /\ Order.__init__ now client date2 h1 = Done order2 h2
    /\ h2 !! _orders c = Some (OList (l ++ [order1; order2]))
    /\ NoDup (l ++ [order1; order2])
    /\ h2 !! order1
       = Some (OOrder {| _client := client; _order_date := default now date1;
                         _items := items1; _order_id := id order1;
                         _status := "Новый" |})
    /\ h2 !! order2
       = Some (OOrder {| _client := client; _order_date := default now date2;
                         _items := items2; _order_id := id order2;
                         _status := "Новый" |})
    /\ id order1 <> id order2
    /\ items1 <> items2
    /\ h2 !! items1 = Some (OList [])
    /\ h2 !! items2 = Some (OList [])
    /\ (forall x v, h !! x = Some v -> x <> _orders c -> h2 !! x = Some v)
    /\ wf h2.
Proof.
  intros Hwf Hc Hl.
  destruct (proj1 Hwf _ _ Hc) as (l0 & Hl0 & Hnd & Hclosed).
  assert (l0 = l) as -> by congruence. clear Hl0.
  destruct (Order_init_frame h now client date1 c l Hc Hl Hclosed)
    as (o1 & i1 & h1 & Hrun1 & Ho1 & Hi1 & Hoi1 & Ho1' & Hi1' & Hl1 & Hfr1).
  assert (Hwf1 : wf h1).
  { apply (wf_Order_init h h1 now client date1 Hwf). by rewrite Hrun1. }
  assert (Hc1 : h1 !! client = Some (OClient c)).
  { apply Hfr1; [done|congruence]. }
  destruct (proj1 Hwf1 _ _ Hc1) as (l1 & Hl1' & Hnd1 & Hclosed1).
  assert (l1 = l ++ [o1]) as -> by congruence. clear Hl1'.
  destruct (Order_init_frame h1 now client date2 c _ Hc1 Hl1 Hclosed1)
    as (o2 & i2 & h2 & Hrun2 & Ho2 & Hi2 & Hoi2 & Ho2' & Hi2' & Hl2 & Hfr2).
  assert (Hwf2 : wf h2).
  { apply (wf_Order_init h1 h2 now client date2 Hwf1). by rewrite Hrun2. }
  assert (Hc2 : h2 !! client = Some (OClient c)).
  { apply Hfr2; [done|congruence]. }
  destruct (proj1 Hwf2 _ _ Hc2) as (l2 & Hl2' & Hnd2 & _).
  assert (l2 = (l ++ [o1]) ++ [o2]) as -> by congruence. clear Hl2'.
  rewrite <- app_assoc in Hl2, Hnd2. simpl in Hl2, Hnd2.
  assert (Hne : o1 <> o2) by congruence.
  exists o1, o2, i1, i2, h1, h2.
  split_and!; try done.
  - apply Hfr2; [done|congruence].
  - unfold id. intros E. apply Hne. lia.
  - congruence.
  - apply Hfr2; [done|congruence].
  - intros x v Hx Hne'. apply Hfr2; [|done]. by apply Hfr1.
Qed.

Lemma orders_are_registered_in_creation_order_witness :
  wf demo_store
  /\ demo_store !! 2%positive = Some (OClient demo_client)
  /\ demo_store !! _orders demo_client = Some (OList [5%positive])
  /\ exists order1 order2 h1 h2,
       Order.__init__ demo_now 2%positive None demo_store = Done order1 h1
       /\ Order.__init__ demo_now 2%positive None h1 = Done order2 h2
       /\ h2 !! _orders demo_client
          = Some (OList ([5%positive] ++ [order1; order2])).
Proof.
  split; [exact demo_store_wf|]. split; [exact demo_store_client|].
  split; [exact demo_store_orders|].
  destruct (orders_are_registered_in_creation_order demo_store demo_now 2%positive
              demo_client [5%positive] None None demo_store_wf demo_store_client
              demo_store_orders)
    as (o1 & o2 & i1 & i2 & h1 & h2 & H1 & H2 & Hl & _).
  exists o1, o2, h1, h2. split; [exact H1|]. split; [exact H2|exact Hl].
Defined.

(** ** The amounts *)

Lemma total_price_spec (h : heap) (item : loc) (v : Qc) :
  item_total h item = Some v -> Amounts.total_price item h = Done v h.
Proof.
  unfold item_total, Amounts.total_price, Product.price, OrderItem.quantity.
  unfold_M.
  destruct (h !! item) as [[| |i| |]|] eqn:Hi; try done.
  destruct (h !! _product i) as [[|p| | |]|] eqn:Hp; try done.
  rewrite Hi. by intros [= <-].
Qed.

Lemma sum_over_spec (h : heap) (f : loc -> M Qc) (xs : list loc) (vs : list Qc)
    (acc : Qc) :
  Forall2 (fun x v => f x h = Done v h) xs vs ->
  Amounts.sum_over f xs acc h = Done (fold_left Qcplus vs acc) h.
Proof.
  intros HF. revert acc. induction HF as [|x v xs vs Hx _ IH]; intros acc; [done|].
  simpl. unfold_M. rewrite Hx. apply IH.
Qed.

Lemma total_amount_spec (h : heap) (self : loc) (o : order)
    (the_items : list loc) (vs : list Qc) :
  h !! self = Some (OOrder o) -> h !! _items o = Some (OList the_items) ->
  Forall2 (fun item v => item_total h item = Some v) the_items vs ->
  Amounts.total_amount self h = Done (Py.sum vs) h.
Proof.
  intros Hs Hl HF. unfold Amounts.total_amount. unfold_M. rewrite Hs, Hl.
  apply sum_over_spec. eapply Forall2_impl; [exact HF|].
  intros item v. apply total_price_spec.
Qed.

Lemma item_totals_exist (h : heap) (the_items : list loc) (pids : list Z) :
  Forall2 (fun item pid => item_product_id h item = Some pid) the_items pids ->
  exists vs, Forall2 (fun item v => item_total h item = Some v) the_items vs.
Proof.
  induction 1 as [|item pid its pids Hpid _ [vs IH]]; [by exists []|].
  destruct (item_product_id_typed _ _ _ Hpid) as (i & ip & Hi & Hip & _).
  exists ((_price ip * Qc_of_Z (_quantity i))%Qc :: vs). constructor; [|done].
  unfold item_total. by rewrite Hi, Hip.
Qed.

Lemma sum_insert (vs : list Qc) (n : nat) (v w : Qc) :
  vs !! n = Some v -> Py.sum (<[n := w]> vs) = (Py.sum vs - v + w)%Qc.
Proof.
  intros Hn.
  rewrite <- (take_drop_middle vs n v Hn) at 2.
  assert (Hlen : (n < length vs)%nat) by (by eapply lookup_lt_Some).
  rewrite insert_take_drop by done.
  rewrite !sum_app, !sum_cons. ring.
Qed.

(** The items of a list without two items of one product are pairwise
    different. *)
Lemma items_at_one_position (h : heap) (the_items : list loc) (pids : list Z)
    (n m : nat) (x y : loc) (pid : Z) :
  Forall2 (fun item pid => item_product_id h item = Some pid) the_items pids ->
  NoDup pids ->
  the_items !! n = Some x -> the_items !! m = Some y ->
  item_product_id h x = Some pid -> item_product_id h y = Some pid -> n = m.
Proof.
  intros HF Hnd Hn Hm Hx Hy.
  destruct (Forall2_lookup_l _ _ _ _ _ HF Hn) as (pn & Hpn & Hxn).
  destruct (Forall2_lookup_l _ _ _ _ _ HF Hm) as (pm & Hpm & Hym).
  assert (pn = pid) as -> by congruence.
  assert (pm = pid) as -> by congruence.
  by eapply NoDup_lookup.
Qed.

(** The amounts of the items after the update of one of them. *)
Lemma item_totals_update (h h' : heap) (the_items : list loc) (vs : list Qc)
    (n : nat) (item : loc) (w : Qc) :
  Forall2 (fun item v => item_total h item = Some v) the_items vs ->
  the_items !! n = Some item ->
  item_total h' item = Some w ->
  (forall m x, the_items !! m = Some x -> m <> n -> item_total h' x = item_total h x) ->
  Forall2 (fun item v => item_total h' item = Some v) the_items (<[n := w]> vs).
Proof.
  intros HF Hn Hw Hother.
  apply Forall2_same_length_lookup_2.
  - rewrite length_insert. by eapply Forall2_length.
  - intros m x v Hx Hv. destruct (decide (m = n)) as [->|Hne].
    + assert (x = item) as -> by congruence.
      rewrite list_lookup_insert_eq in Hv.
      * congruence.
      * apply Forall2_length in HF. rewrite <- HF. by eapply lookup_lt_Some.
    + rewrite list_lookup_insert_ne in Hv by done.
      rewrite (Hother m x Hx Hne).
      destruct (Forall2_lookup_l _ _ _ _ _ HF Hx) as (v' & Hv' & Hxv).
      congruence.
Qed.

Lemma item_total_insert_other (h : heap) (r : loc) (x : obj) (item : loc)
    (i : order_item) :
  h !! item = Some (OItem i) -> r <> item -> r <> _product i ->
  item_total (<[r := x]> h) item = item_total h item.
Proof.
  intros Hi Hne1 Hne2. unfold item_total.
  rewrite lookup_insert_ne, Hi by done. by rewrite lookup_insert_ne.
Qed.

(** The amounts of the items of an order, and its [total_amount]. *)
Lemma total_amount_exists (h : heap) (self : loc) (o : order) :
  wf h -> h !! self = Some (OOrder o) ->
  exists the_items pids vs,
    h !! _items o = Some (OList the_items)
    /\ Forall2 (fun item pid => item_product_id h item = Some pid) the_items pids
    /\ NoDup pids
    /\ Forall2 (fun item v => item_total h item = Some v) the_items vs
    /\ Amounts.total_amount self h = Done (Py.sum vs) h.
Proof.
  intros Hwf Hs.
  destruct (proj1 (proj2 Hwf) _ _ Hs) as (its & pids & Hl & HF & Hnd).
  destruct (item_totals_exist h its pids HF) as [vs HV].
  exists its, pids, vs. split_and!; try done.
  by eapply total_amount_spec.
Qed.

(** X14: where the id of every product is its identity, [add_item] raises
    the [total_amount] of the order by the price of the product times the
    quantity, whether it creates an item or adds to one.  Reading
    [total_amount] neither raises nor changes the store. *)
Theorem add_item_raises_the_total (h : heap) (self product : loc) (o : order)
    (p : Store.product) (quantity : Z) :
  wf h ->
  (forall l q, h !! l = Some (OProduct q) -> _product_id q = id l) ->
  h !! self = Some (OOrder o) -> h !! product = Some (OProduct p) ->
  exists before,
    Amounts.total_amount self h = Done before h
    /\ forall h',
         Order.add_item self product quantity h = Done tt h' ->
         Amounts.total_amount self h'
         = Done (before + _price p * Qc_of_Z quantity)%Qc h'.
Proof.
  intros Hwf Hids Hs Hp.
  destruct (total_amount_exists h self o Hwf Hs)
    as (its & pids & vs & Hl & HF & Hnd & HV & Htotal).
  exists (Py.sum vs). split; [exact Htotal|]. intros h' Hrun.
  assert (Hls : _items o <> self) by congruence.
  destruct (Order_add_item_spec h self o its pids product p quantity Hs Hl Hp HF)
    as [[Hnin Hnew]|(item & i & Hin & Hi & Hpid & Hfound)].
  - rewrite Hnew in Hrun. injection Hrun as <-.
    set (r := fresh (dom h)).
    assert (Hr : h !! r = None) by apply lookup_fresh.
    assert (Hrs : r <> self) by (intros E; rewrite E in Hr; congruence).
    assert (Hrl : r <> _items o) by (intros E; rewrite E in Hr; congruence).
    assert (Hrp : r <> product) by (intros E; rewrite E in Hr; congruence).
    assert (Hlp : _items o <> product) by congruence.
    rewrite (total_amount_spec _ self o (its ++ [r])
               (vs ++ [(_price p * Qc_of_Z quantity)%Qc])).
    + f_equal. rewrite sum_app, sum_cons, sum_nil. ring.
    + by rewrite !lookup_insert_ne.
    + by rewrite lookup_insert_eq.
    + apply Forall2_app.
      * apply Forall2_same_length_lookup_2; [by eapply Forall2_length|].
        intros n x v Hx Hv.
        destruct (Forall2_lookup_l _ _ _ _ _ HF Hx) as (pid & _ & Hxp).
        destruct (item_product_id_typed _ _ _ Hxp) as (ix & ip & Hix & Hip & _).
        destruct (Forall2_lookup_l _ _ _ _ _ HV Hx) as (v' & Hv' & Hxv).
        assert (v' = v) as -> by congruence.
        rewrite (item_total_insert_other _ (_items o) _ x ix).
        -- rewrite (item_total_insert_other _ r _ x ix); [done|done| |];
             intros E; rewrite E in Hr; congruence.
        -- rewrite lookup_insert_ne; [done|]. intros E; rewrite E in Hr; congruence.
        -- congruence.
        -- congruence.
      * constructor; [|constructor]. unfold item_total.
        rewrite lookup_insert_ne, lookup_insert_eq by done. simpl.
        by rewrite !lookup_insert_ne, Hp.
  - rewrite Hfound in Hrun.
    destruct (decide (_quantity i + quantity < 1)) as [|Hge]; [done|].
    injection Hrun as <-.
    destruct (item_product_id_typed _ _ _ Hpid) as (i' & ip & Hi' & Hip & Hsame).
    assert (i' = i) as -> by congruence.
    assert (_product i = product) as Hprod.
    { assert (E : id (_product i) = id product).
      { rewrite <- (Hids _ _ Hip), <- (Hids _ _ Hp). exact Hsame. }
      unfold id in E. lia. }
    assert (ip = p) as -> by (rewrite Hprod in Hip; congruence).
    apply list_elem_of_lookup in Hin as [n Hn].
    destruct (Forall2_lookup_l _ _ _ _ _ HV Hn) as (v & Hv & Hitem).
    assert (v = (_price p * Qc_of_Z (_quantity i))%Qc) as ->.
    { unfold item_total in Hitem. rewrite Hi, Hip in Hitem. congruence. }
    assert (Hpi : product <> item) by congruence.
    rewrite (total_amount_spec _ self o its
               (<[n := (_price p * Qc_of_Z (_quantity i + quantity))%Qc]> vs)).
    + f_equal. rewrite (sum_insert vs n _ _ Hv), Z2Qc_inj_add. ring.
    + rewrite lookup_insert_ne; [done|congruence].
    + rewrite lookup_insert_ne; [done|congruence].
    + apply (item_totals_update h _ its vs n item); [done|done| |].
      * unfold item_total. rewrite lookup_insert_eq. simpl.
        rewrite Hprod. by rewrite lookup_insert_ne, Hp.
      * intros m x Hx Hne.
        destruct (Forall2_lookup_l _ _ _ _ _ HF Hx) as (pid & _ & Hxp).
        destruct (item_product_id_typed _ _ _ Hxp) as (ix & ipx & Hix & Hipx & _).
        apply (item_total_insert_other _ item _ x ix); [done| |congruence].
        intros ->. apply Hne.
        by apply (items_at_one_position h its pids m n x x pid).
Qed.

Lemma add_item_raises_the_total_witness :
  wf demo_store
  /\ (forall l q, demo_store !! l = Some (OProduct q) -> _product_id q = id l)
  /\ demo_store !! 5%positive = Some (OOrder demo_order)
  /\ demo_store !! 3%positive = Some (OProduct demo_product)
  /\ exists before,
       Amounts.total_amount 5%positive demo_store = Done before demo_store
       /\ forall h',
            Order.add_item 5%positive 3%positive 2 demo_store = Done tt h' ->
            Amounts.total_amount 5%positive h'
            = Done (before + _price demo_product * Qc_of_Z 2)%Qc h'.
Proof.
  split; [exact demo_store_wf|]. split; [exact demo_store_product_ids|].
  split; [exact demo_store_order|]. split; [exact demo_store_product|].
  exact (add_item_raises_the_total demo_store 5%positive 3%positive demo_order
           demo_product 2 demo_store_wf demo_store_product_ids demo_store_order
           demo_store_product).
Defined.

(** X15: the amounts are not fixed when an item is added: after the setter
    of [price] has given a product a new price, the [total_amount] of an
    order with an item of the product has changed by the difference of
    the prices times the quantity of the item, and that of an order with
    no item of the product is as it was. *)
Theorem set_price_changes_the_totals (h : heap) (self product : loc)
    (o : order) (p : Store.product) (value : Qc) :
  wf h -> h !! self = Some (OOrder o) -> h !! product = Some (OProduct p) ->
  ~ (value < Q2Qc 0)%Qc ->
  exists the_items before h',
    h !! _items o = Some (OList the_items)
    /\ Amounts.total_amount self h = Done before h
    /\ Product.set_price product value h = Done tt h'
    /\ (forall item i,
          item ∈ the_items -> h !! item = Some (OItem i) ->
          _product i = product ->
          Amounts.total_amount self h'
          = Done (before + (value - _price p) * Qc_of_Z (_quantity i))%Qc h')
    /\ ((forall item i,
           item ∈ the_items -> h !! item = Some (OItem i) ->
           _product i <> product) ->
        Amounts.total_amount self h' = Done before h').
Proof.
  intros Hwf Hs Hp Hvalue.
  destruct (total_amount_exists h self o Hwf Hs)
    as (its & pids & vs & Hl & HF & Hnd & HV & Htotal).
  pose proof (Product_set_price_spec h product p value Hp) as Hset.
  rewrite decide_False in Hset by done.
  exists its, (Py.sum vs). eexists.
  split; [exact Hl|]. split; [exact Htotal|]. split; [exact Hset|].
  set (p' := {| _product_name := _product_name p; _price := value;
                _category := _category p; _description := _description p;
                _product_id := _product_id p |}).
  assert (Hs' : <[product := OProduct p']> h !! self = Some (OOrder o)).
  { rewrite lookup_insert_ne; [done|congruence]. }
  assert (Hl' : <[product := OProduct p']> h !! _items o = Some (OList its)).
  { rewrite lookup_insert_ne; [done|congruence]. }
  split.
  - intros item i Hin Hi Hprod.
    apply list_elem_of_lookup in Hin as [n Hn].
    destruct (Forall2_lookup_l _ _ _ _ _ HV Hn) as (v & Hv & Hitem).
    assert (v = (_price p * Qc_of_Z (_quantity i))%Qc) as ->.
    { unfold item_total in Hitem. rewrite Hi, Hprod, Hp in Hitem. congruence. }
    assert (Hpid : item_product_id h item = Some (_product_id p)).
    { unfold item_product_id. by rewrite Hi, Hprod, Hp. }
    rewrite (total_amount_spec _ self o its
               (<[n := (value * Qc_of_Z (_quantity i))%Qc]> vs) Hs' Hl').
    + f_equal. rewrite (sum_insert vs n _ _ Hv). ring.
    + apply (item_totals_update h _ its vs n item); [done|done| |].
      * unfold item_total. rewrite lookup_insert_ne, Hi by congruence.
        by rewrite Hprod, lookup_insert_eq.
      * intros m x Hx Hne.
        destruct (Forall2_lookup_l _ _ _ _ _ HF Hx) as (pid & _ & Hxp).
        destruct (item_product_id_typed _ _ _ Hxp) as (ix & ipx & Hix & Hipx & Hpx).
        apply (item_total_insert_other _ product _ x ix); [done|congruence|].
        intros E. apply Hne.
        apply (items_at_one_position h its pids m n x item (_product_id p));
          try done.
        rewrite <- E in Hipx. rewrite Hxp. congruence.
  - intros Hnone.
    rewrite (total_amount_spec _ self o its vs Hs' Hl'); [done|].
    apply Forall2_same_length_lookup_2; [by eapply Forall2_length|].
    intros n x v Hx Hv.
    destruct (Forall2_lookup_l _ _ _ _ _ HF Hx) as (pid & _ & Hxp).
    destruct (item_product_id_typed _ _ _ Hxp) as (ix & ipx & Hix & Hipx & _).
    destruct (Forall2_lookup_l _ _ _ _ _ HV Hx) as (v' & Hv' & Hxv).
    assert (v' = v) as -> by congruence.
    rewrite (item_total_insert_other _ product _ x ix); [done|done|congruence|].
    apply not_eq_sym. apply (Hnone x ix); [|done].
    by eapply list_elem_of_lookup_2.
Qed.

Lemma set_price_changes_the_totals_witness :
  wf demo_store
  /\ demo_store !! 5%positive = Some (OOrder demo_order)
  /\ demo_store !! 3%positive = Some (OProduct demo_product)
  /\ ~ (Q2Qc 120 < Q2Qc 0)%Qc
  /\ exists h',
       Product.set_price 3%positive (Q2Qc 120) demo_store = Done tt h'
       /\ Amounts.total_amount 5%positive h'
          = Done (Q2Qc 100 * Qc_of_Z 1 + (Q2Qc 120 - Q2Qc 100) * Qc_of_Z 1)%Qc h'.
Proof.
  assert (Hvalue : ~ (Q2Qc 120 < Q2Qc 0)%Qc) by (intros H; vm_compute in H; discriminate).
  split; [exact demo_store_wf|]. split; [exact demo_store_order|].
  split; [exact demo_store_product|]. split; [exact Hvalue|].
  destruct (set_price_changes_the_totals demo_store 5%positive 3%positive
              demo_order demo_product (Q2Qc 120) demo_store_wf demo_store_order
              demo_store_product Hvalue)
    as (its & before & h' & Hl & Hbefore & Hset & Hsome & _).
  exists h'. split; [exact Hset|].
  assert (its = [6%positive]) as ->.
  { pose proof demo_store_items as E.
    change (demo_store !! _items demo_order = Some (OList [6%positive])) in E.
    congruence. }
  assert (Hitem : demo_store !! 6%positive
                  = Some (OItem {| _product := 3%positive; _quantity := 1 |})).
  { vm_compute. reflexivity. }
  assert (before = (Q2Qc 100 * Qc_of_Z 1)%Qc) as ->.
  { assert (E : Amounts.total_amount 5%positive demo_store
                = Done (Q2Qc 100 * Qc_of_Z 1)%Qc demo_store).
    { vm_compute. reflexivity. }
    rewrite E in Hbefore. by injection Hbefore as <-. }
  apply (Hsome 6%positive _ ltac:(set_solver) Hitem eq_refl).
Defined.
